(** * GitHub Repository Explorer: a shallow embedding of [src/app/page.tsx]

    The source file holds two variants of one React component:
    - lines 1-238: the variant that fetches through [useQuery] of
      [@tanstack/react-query] (module [Fetching] below);
    - lines 239-496: the variant with local state, a one second timer and
      the fixed [dummyRepos] list (module [Static] below).

    JavaScript strings are sequences of UTF-16 code units, arrays are lists,
    [null]/[undefined] are [None], and what React draws is a tree of plain
    records that keeps every text and every conditional of the JSX. *)

From Stdlib Require Import ZArith NArith Lia String Ascii List Bool.
From Stdlib Require Import DecimalString.
From stdpp Require Import base list gmap.

Local Open Scope Z_scope.

(** ** JavaScript values used by the component *)

Module JS.

(** A string is a sequence of UTF-16 code units. *)
Definition jsstring : Type := list N.

(** String literals of the source (all of them ASCII). *)
Definition lit (s : string) : jsstring :=
  map N_of_ascii (list_ascii_of_string s).

(** ECMAScript [WhiteSpace] and [LineTerminator] code points, the set that
    [String.prototype.trim] strips. *)
Definition isWhiteSpace (c : N) : bool :=
  match c with
  | 9 | 10 | 11 | 12 | 13 | 32 | 160 | 5760
  | 8192 | 8193 | 8194 | 8195 | 8196 | 8197 | 8198 | 8199 | 8200 | 8201 | 8202
  | 8232 | 8233 | 8239 | 8287 | 12288 | 65279 => true
  | _ => false
  end%N.

Fixpoint trimStart (s : jsstring) : jsstring :=
  match s with
  | [] => []
  | c :: s' => if isWhiteSpace c then trimStart s' else s
  end.

Definition trimEnd (s : jsstring) : jsstring := rev (trimStart (rev s)).

Definition trim (s : jsstring) : jsstring := trimEnd (trimStart s).

(** [ToBoolean] on a string: only the empty string is falsy. *)
Definition truthy (s : jsstring) : bool :=
  match s with [] => false | _ :: _ => true end.

(** [Number.prototype.toString] on a non-negative integer. *)
Definition numberToString (n : N) : jsstring :=
  lit (NilZero.string_of_uint (N.to_uint n)).

(** A text is blank when every code unit of it is white space. *)
Definition blank (s : jsstring) : bool := forallb isWhiteSpace s.

(** The values a property read on an object literal of strings can give:
    [undefined], one of the literal's strings, or a member that the literal
    inherits from [Object.prototype] (a function or an object). *)
Inductive jsvalue : Type :=
| Undefined
| Str (s : jsstring)
| Inherited (member : jsstring).

(** The property names every object literal inherits from
    [Object.prototype]. *)
Definition objectPrototypeKeys : list jsstring :=
  map lit
    [ "constructor"; "hasOwnProperty"; "isPrototypeOf"; "propertyIsEnumerable";
      "toLocaleString"; "toString"; "valueOf"; "__proto__";
      "__defineGetter__"; "__defineSetter__"; "__lookupGetter__";
      "__lookupSetter__" ]%string.

(** [obj[key]] on an object literal whose own properties are [own]: the own
    property when there is one, else the inherited member, else
    [undefined]. *)
Definition getProperty (own : gmap jsstring jsstring) (key : jsstring) : jsvalue :=
  match own !! key with
  | Some v => Str v
  | None =>
      if bool_decide (key ∈ objectPrototypeKeys) then Inherited key
      else Undefined
  end.

(** [v || d] with a string on the right: [undefined] and the empty string
    are falsy, functions and objects are truthy. *)
Definition orElse (v : jsvalue) (d : jsstring) : jsvalue :=
  match v with
  | Undefined => Str d
  | Str s => if truthy s then Str s else Str d
  | Inherited m => Inherited m
  end.

(** [o || d] for [o : string | null]. *)
Definition orElseText (o : option jsstring) (d : jsstring) : jsstring :=
  match o with
  | Some s => if truthy s then s else d
  | None => d
  end.

End JS.
Import JS.

(** ** Dates: the ECMAScript time value algorithms (ECMA-262, Date objects)

    A time value is a number of milliseconds since 1970-01-01T00:00:00Z;
    [None] stands for [NaN], the time value of an invalid date. *)

Module DateTime.

Definition msPerDay : Z := 86400000.

Definition Day (t : Z) : Z := t / msPerDay.
Definition TimeWithinDay (t : Z) : Z := t mod msPerDay.

Definition DaysInYear (y : Z) : Z :=
  if negb (y mod 4 =? 0) then 365
  else if negb (y mod 100 =? 0) then 366
  else if negb (y mod 400 =? 0) then 365
  else 366.

Definition DayFromYear (y : Z) : Z :=
  365 * (y - 1970) + (y - 1969) / 4 - (y - 1901) / 100 + (y - 1601) / 400.

(** [YearFromTime(t)] is specified as the largest [y] whose first day is not
    after [t]; it is computed here by counting whole 400, 100, 4 and 1 year
    cycles from 1601-01-01 ([YearFromDay_spec] shows that this is that
    [y]). *)
Definition YearFromDay (d : Z) : Z :=
  let n := d - DayFromYear 1601 in
  let n400 := n / 146097 in
  let r := n mod 146097 in
  let n100 := Z.min (r / 36524) 3 in
  let r2 := r - n100 * 36524 in
  let n4 := r2 / 1461 in
  let r3 := r2 mod 1461 in
  let n1 := Z.min (r3 / 365) 3 in
  1601 + 400 * n400 + 100 * n100 + 4 * n4 + n1.

Definition YearFromTime (t : Z) : Z := YearFromDay (Day t).

Definition InLeapYear (t : Z) : Z :=
  if DaysInYear (YearFromTime t) =? 366 then 1 else 0.

Definition DayWithinYear (t : Z) : Z := Day t - DayFromYear (YearFromTime t).

Definition MonthFromTime (t : Z) : Z :=
  let d := DayWithinYear t in
  let l := InLeapYear t in
  if d <? 31 then 0
  else if d <? 59 + l then 1
  else if d <? 90 + l then 2
  else if d <? 120 + l then 3
  else if d <? 151 + l then 4
  else if d <? 181 + l then 5
  else if d <? 212 + l then 6
  else if d <? 243 + l then 7
  else if d <? 273 + l then 8
  else if d <? 304 + l then 9
  else if d <? 334 + l then 10
  else 11.

Definition DateFromTime (t : Z) : Z :=
  let d := DayWithinYear t in
  let l := InLeapYear t in
  match MonthFromTime t with
  | 0 => d + 1
  | 1 => d - 30
  | 2 => d - 58 - l
  | 3 => d - 89 - l
  | 4 => d - 119 - l
  | 5 => d - 150 - l
  | 6 => d - 180 - l
  | 7 => d - 211 - l
  | 8 => d - 242 - l
  | 9 => d - 272 - l
  | 10 => d - 303 - l
  | _ => d - 333 - l
  end.

(** Days of the year before the first of month [mn] (0 = January). *)
Definition DaysBeforeMonth (leap mn : Z) : Z :=
  match mn with
  | 0 => 0
  | 1 => 31
  | 2 => 59 + leap
  | 3 => 90 + leap
  | 4 => 120 + leap
  | 5 => 151 + leap
  | 6 => 181 + leap
  | 7 => 212 + leap
  | 8 => 243 + leap
  | 9 => 273 + leap
  | 10 => 304 + leap
  | _ => 334 + leap
  end.

Definition MakeTime (hour min sec ms : Z) : Z :=
  hour * 3600000 + min * 60000 + sec * 1000 + ms.

(** [MakeDay]: the day number of the first of the month, plus [date - 1]. *)
Definition MakeDay (year month date : Z) : Z :=
  let ym := year + month / 12 in
  let mn := month mod 12 in
  let leap := if DaysInYear ym =? 366 then 1 else 0 in
  DayFromYear ym + DaysBeforeMonth leap mn + date - 1.

Definition MakeDate (day time : Z) : Z := day * msPerDay + time.

Definition TimeClip (t : Z) : option Z :=
  if Z.abs t <=? 8640000000000000 then Some t else None.

(** *** [Date.parse]

    The standard fixes one format, the date time string format
    [YYYY-MM-DDTHH:mm:ss.sssZ].  A text in it is a date, [YYYY], [YYYY-MM] or
    [YYYY-MM-DD] (the year may also be written with a sign and six digits),
    either alone or followed by [T] and a time, [HH:mm], [HH:mm:ss] or
    [HH:mm:ss.sss], after which [Z] or an offset [+HH:mm] or [-HH:mm] may
    come.  Without [Z] and without offset a date alone is read as UTC and a
    date with a time as local time.  The day may be any of 01 to 31 in every
    month; a day past the end of the month counts on into the next one
    ([MakeDay]), as in V8.  What is made of any other text (another format,
    or an element out of range) is up to the engine: [parse] takes the
    engine's reading of such texts as its argument [otherFormats]. *)

Definition chr (a : ascii) : N := N_of_ascii a.

Definition digitValue (c : N) : option Z :=
  if ((48 <=? c) && (c <=? 57))%N then Some (Z.of_N c - 48) else None.

Fixpoint takeDigits (n : nat) (acc : Z) (s : jsstring) : option (Z * jsstring) :=
  match n with
  | O => Some (acc, s)
  | S n' =>
      match s with
      | c :: s' =>
          match digitValue c with
          | Some v => takeDigits n' (10 * acc + v) s'
          | None => None
          end
      | [] => None
      end
  end.

Definition expect (c : N) (s : jsstring) : option jsstring :=
  match s with
  | c' :: s' => if (c =? c')%N then Some s' else None
  | [] => None
  end.

(** The year: four digits, or a sign and six digits ([-000000] is no
    year). *)
Definition parseYear (s : jsstring) : option (Z * jsstring) :=
  match s with
  | c :: s' =>
      if (c =? chr "+")%N then takeDigits 6 0 s'
      else if (c =? chr "-")%N then
        '(y, s'') ← takeDigits 6 0 s';
        if y =? 0 then None else Some (- y, s'')
      else takeDigits 4 0 s
  | [] => None
  end.

(** [-MM] and [-DD]; a part that is not written counts as 01. *)
Definition parseMonthDay (s : jsstring) : option (Z * Z * jsstring) :=
  match expect (chr "-") s with
  | None => Some (1, 1, s)
  | Some s =>
      '(mo, s) ← takeDigits 2 0 s;
      match expect (chr "-") s with
      | None => Some (mo, 1, s)
      | Some s => '(d, s) ← takeDigits 2 0 s; Some (mo, d, s)
      end
  end.

(** [HH:mm], [HH:mm:ss] or [HH:mm:ss.sss], as milliseconds into the day
    ([24:00:00] is the end of the day). *)
Definition parseTime (s : jsstring) : option (Z * jsstring) :=
  '(h, s) ← takeDigits 2 0 s;
  s ← expect (chr ":") s;
  '(mi, s) ← takeDigits 2 0 s;
  '(sec, ms, s) ← match expect (chr ":") s with
                   | None => Some (0, 0, s)
                   | Some s =>
                       '(sec, s) ← takeDigits 2 0 s;
                       match expect (chr ".") s with
                       | None => Some (sec, 0, s)
                       | Some s => '(ms, s) ← takeDigits 3 0 s; Some (sec, ms, s)
                       end
                   end;
  if (h <=? 23) && (mi <=? 59) && (sec <=? 59)
     || (h =? 24) && (mi =? 0) && (sec =? 0) && (ms =? 0)
  then Some (MakeTime h mi sec ms, s) else None.

(** What closes a date with a time: nothing ([None], local time), [Z], or
    [+HH:mm] or [-HH:mm], in milliseconds east of UTC. *)
Definition parseOffset (s : jsstring) : option (option Z) :=
  match s with
  | [] => Some None
  | c :: s' =>
      if (c =? chr "Z")%N then
        match s' with [] => Some (Some 0) | _ :: _ => None end
      else if (c =? chr "+")%N || (c =? chr "-")%N then
        '(h, s') ← takeDigits 2 0 s';
        s' ← expect (chr ":") s';
        '(mi, s') ← takeDigits 2 0 s';
        match s' with
        | [] =>
            if (h <=? 23) && (mi <=? 59)
            then Some (Some ((if (c =? chr "+")%N then 1 else -1)
                             * MakeTime h mi 0 0))
            else None
        | _ :: _ => None
        end
      else None
  end.

(** The time value of a text in the format; [utc] turns a local time into
    UTC (the standard's [UTC(t)]). *)
Definition parseFormat (utc : Z -> Z) (s : jsstring) : option Z :=
  '(y, s) ← parseYear s;
  '(mo, d, s) ← parseMonthDay s;
  if (1 <=? mo) && (mo <=? 12) && (1 <=? d) && (d <=? 31) then
    let day := MakeDay y (mo - 1) d in
    match s with
    | [] => Some (MakeDate day 0)
    | c :: s' =>
        if (c =? chr "T")%N then
          '(time, s') ← parseTime s';
          off ← parseOffset s';
          Some match off with
               | Some east => MakeDate day time - east
               | None => utc (MakeDate day time)
               end
        else None
    end
  else None.

Definition parse (utc : Z -> Z) (otherFormats : jsstring -> option Z)
    (s : jsstring) : option Z :=
  t ← match parseFormat utc s with
      | Some t => Some t
      | None => otherFormats s
      end;
  TimeClip t.

(** *** [toLocaleDateString("en-US", {month: "short", day: "numeric",
        year: "numeric"})]

    The call names the locale and the three fields but no [timeZone], so the
    fields are those of the local time [t + LocalTZA(t)], where [tza] gives
    the offset in milliseconds of the runtime's time zone at [t].  The en-US
    pattern for these fields is [MMM d, y]. *)

Definition monthShort (m : Z) : jsstring :=
  lit match m with
      | 0 => "Jan" | 1 => "Feb" | 2 => "Mar" | 3 => "Apr"
      | 4 => "May" | 5 => "Jun" | 6 => "Jul" | 7 => "Aug"
      | 8 => "Sep" | 9 => "Oct" | 10 => "Nov" | _ => "Dec"
      end%string.

(** Year of era, the [y] field (years before 1 count backwards). *)
Definition yearOfEra (y : Z) : Z := if 0 <? y then y else 1 - y.

Definition LocalTime (tza : Z -> Z) (t : Z) : Z := t + tza t.

Definition toLocaleDateString (tza : Z -> Z) (tv : option Z) : jsstring :=
  match tv with
  | None => lit "Invalid Date"
  | Some t =>
      let lt := LocalTime tza t in
      monthShort (MonthFromTime lt) ++ lit " "
      ++ numberToString (Z.to_N (DateFromTime lt)) ++ lit ", "
      ++ numberToString (Z.to_N (yearOfEra (YearFromTime lt)))
  end.

End DateTime.

(** ** The runtime the component runs in

    What the source leaves to the browser: the local time zone (used by
    [toLocaleDateString], which is called without a [timeZone], and by
    [new Date] for a text with a time and no offset), the engine's reading of
    texts outside the date time string format, and the default locale's
    number format (used by [toLocaleString()] on the star count, called
    without a locale). *)

Record Host : Type := {
  (** offset of local time from UTC, in milliseconds, at the time value [t] *)
  LocalTZA : Z -> Z;
  (** the same offset, found from a local time *)
  LocalTZAofLocal : Z -> Z;
  (** [Date.parse] on a text outside the standard's format *)
  otherDateFormats : jsstring -> option Z;
  numberToLocaleString : N -> jsstring
}.

(** The standard's [UTC(t)]. *)
Definition UTC (host : Host) (t : Z) : Z := t - LocalTZAofLocal host t.

(** The time value of [new Date(dateString)]. *)
Definition timeValue (host : Host) (dateString : jsstring) : option Z :=
  DateTime.parse (UTC host) (otherDateFormats host) dateString.

(** [formatDate], lines 90-96 and 355-361 (the same text in both variants). *)
Definition formatDate (host : Host) (dateString : jsstring) : jsstring :=
  DateTime.toLocaleDateString (LocalTZA host) (timeValue host dateString).

(** A host whose local time is [minutes] ahead of UTC all year round, which
    reads no text outside the standard's format and has plain digits as its
    number format. *)
Definition fixedOffsetHost (minutes : Z) : Host :=
  {| LocalTZA := fun _ => minutes * 60000;
     LocalTZAofLocal := fun _ => minutes * 60000;
     otherDateFormats := fun _ => None;
     numberToLocaleString := numberToString |}.

(** ** What the component draws

    The JSX of both variants has the same shape; the records keep each text
    and each conditional part of it.  (The avatar's fallback initials, which
    need Unicode upper-casing, and the fixed class names are left out.) *)

Record CardView : Type := {
  cardKey : Z;
  cardTitle : jsstring;
  cardLink : option jsstring;
  cardDescription : jsstring;
  topicBadges : list jsstring;
  overflowBadge : option jsstring;
  languageIndicator : option (jsvalue * jsstring);
  starsText : jsstring;
  forksText : jsstring;
  updatedText : jsstring
}.

Inductive ResultsView : Type :=
| Spinner
| ErrorPanel (message : jsstring) (retryLabel : jsstring)
| RepoSection (avatarSrc heading countBadge : jsstring)
    (cards : list CardView) (noReposPlaceholder : option jsstring).

Record PageView : Type := {
  inputValue : jsstring;
  buttonDisabled : bool;
  buttonLabel : jsstring;
  results : option ResultsView;
  emptyState : option jsstring
}.

(** The cards a page shows (none outside the repository section). *)
Definition cardsOf (p : PageView) : list CardView :=
  match results p with
  | Some (RepoSection _ _ _ cs _) => cs
  | _ => []
  end.

(** The parts of the JSX that both variants share word for word. *)
Definition topicBadgesOf (topics : list jsstring) : list jsstring := take 3 topics.

Definition overflowBadgeOf (topics : list jsstring) : option jsstring :=
  if (3 <? length topics)%nat
  then Some (lit "+" ++ numberToString (N.of_nat (length topics - 3)))
  else None.

Definition languageColor (languageColors : gmap jsstring jsstring)
    (language : jsstring) : jsvalue :=
  orElse (getProperty languageColors language) (lit "bg-gray-400").

Definition readyToExplore : jsstring := lit "Ready to explore?".

Definition noRepositoriesFound : jsstring :=
  lit "No public repositories found for this user.".

Definition searchButtonLabel (loading : bool) : jsstring :=
  if loading then lit "Searching..." else lit "Search".

Definition placeholderAvatar (username : jsstring) : jsstring :=
  lit "/placeholder.svg?height=32&width=32&query=github+user+" ++ username.

(** ** The variant with static data (lines 239-496) *)

Module Static.

(** The element type of [dummyRepos]. *)
Record Repo : Type := {
  id : Z;
  name : jsstring;
  description : jsstring;
  language : jsstring;
  stars : N;
  forks : N;
  updated : jsstring;
  url : jsstring;
  topics : list jsstring
}.

Definition dummyRepos : list Repo :=
  [ {| id := 1;
       name := lit "awesome-react-components";
       description := lit "A curated list of awesome React components and libraries for building modern web applications";
       language := lit "TypeScript";
       stars := 2847; forks := 342;
       updated := lit "2024-01-15";
       url := lit "https://github.com/username/awesome-react-components";
       topics := map lit ["react"; "components"; "ui"; "typescript"]%string |};
    {| id := 2;
       name := lit "nextjs-dashboard";
       description := lit "A modern dashboard built with Next.js 14, featuring server components and app router";
       language := lit "JavaScript";
       stars := 1523; forks := 189;
       updated := lit "2024-01-12";
       url := lit "https://github.com/username/nextjs-dashboard";
       topics := map lit ["nextjs"; "dashboard"; "react"; "tailwind"]%string |};
    {| id := 3;
       name := lit "api-gateway-service";
       description := lit "Microservices API gateway built with Node.js and Express, featuring rate limiting and authentication";
       language := lit "JavaScript";
       stars := 892; forks := 156;
       updated := lit "2024-01-10";
       url := lit "https://github.com/username/api-gateway-service";
       topics := map lit ["nodejs"; "api"; "microservices"; "express"]%string |};
    {| id := 4;
       name := lit "ml-image-classifier";
       description := lit "Machine learning image classification model using TensorFlow and Python";
       language := lit "Python";
       stars := 634; forks := 78;
       updated := lit "2024-01-08";
       url := lit "https://github.com/username/ml-image-classifier";
       topics := map lit ["python"; "machine-learning"; "tensorflow"; "ai"]%string |};
    {| id := 5;
       name := lit "mobile-expense-tracker";
       description := lit "Cross-platform mobile app for expense tracking built with React Native";
       language := lit "TypeScript";
       stars := 445; forks := 67;
       updated := lit "2024-01-05";
       url := lit "https://github.com/username/mobile-expense-tracker";
       topics := map lit ["react-native"; "mobile"; "typescript"; "finance"]%string |};
    {| id := 6;
       name := lit "docker-dev-environment";
       description := lit "Docker compose setup for local development environment with multiple services";
       language := lit "Shell";
       stars := 289; forks := 45;
       updated := lit "2024-01-03";
       url := lit "https://github.com/username/docker-dev-environment";
       topics := map lit ["docker"; "devops"; "development"; "containers"]%string |} ].

Definition languageColorEntries : list (jsstring * jsstring) :=
  [ (lit "TypeScript", lit "bg-blue-500");
    (lit "JavaScript", lit "bg-yellow-500");
    (lit "Python", lit "bg-green-500");
    (lit "Shell", lit "bg-gray-500");
    (lit "Go", lit "bg-cyan-500");
    (lit "Rust", lit "bg-orange-500") ].

Definition languageColors : gmap jsstring jsstring :=
  list_to_map languageColorEntries.

(** The four [useState] cells. *)
Record State : Type := {
  username : jsstring;
  repos : list Repo;
  loading : bool;
  searched : bool
}.

Definition initial : State :=
  {| username := []; repos := []; loading := false; searched := false |}.

(** What a handler asks of the runtime: [setTimeout(callback, delay)], where
    the callback is always the one of [handleSearch]. *)
Inductive Effect : Type := SetTimeout (delay : Z).

Definition handleSearch (st : State) : State * list Effect :=
  if negb (truthy (trim (username st))) then (st, [])
  else ({| username := username st; repos := repos st;
           loading := true; searched := true |},
        [SetTimeout 1000]).

Definition handleKeyPress (key : jsstring) (st : State) : State * list Effect :=
  if bool_decide (key = lit "Enter") then handleSearch st else (st, []).

(** The callback handed to [setTimeout]. *)
Definition timerCallback (st : State) : State :=
  {| username := username st; repos := dummyRepos;
     loading := false; searched := searched st |}.

Definition searchDisabled (st : State) : bool :=
  loading st || negb (truthy (trim (username st))).

Definition renderCard (host : Host) (repo : Repo) : CardView :=
  {| cardKey := id repo;
     cardTitle := name repo;
     cardLink := None;
     cardDescription := description repo;
     topicBadges := topicBadgesOf (topics repo);
     overflowBadge := overflowBadgeOf (topics repo);
     languageIndicator :=
       if truthy (language repo)
       then Some (languageColor languageColors (language repo), language repo)
       else None;
     starsText := numberToLocaleString host (stars repo);
     forksText := numberToString (forks repo);
     updatedText := lit "Updated " ++ formatDate host (updated repo) |}.

Definition render (host : Host) (st : State) : PageView :=
  {| inputValue := username st;
     buttonDisabled := searchDisabled st;
     buttonLabel := searchButtonLabel (loading st);
     results :=
       if searched st then
         Some (if loading st then Spinner
               else RepoSection
                      (placeholderAvatar (username st))
                      (username st ++ lit "'s Repositories")
                      (numberToString (N.of_nat (length (repos st)))
                       ++ lit " repositories")
                      (map (renderCard host) (repos st))
                      (if (length (repos st) =? 0)%nat
                       then Some noRepositoriesFound else None))
       else None;
     emptyState := if searched st then None else Some readyToExplore |}.

(** The component together with the timers it has started and that have not
    fired yet. *)
Record World : Type := {
  state : State;
  timers : nat
}.

Definition start : World := {| state := initial; timers := 0 |}.

Inductive Event : Type :=
| Change (text : jsstring)
| ClickSearch
| KeyPress (key : jsstring)
| TimerFires.

Definition schedule (w : World) (r : State * list Effect) : World :=
  {| state := fst r; timers := (timers w + length (snd r))%nat |}.

(** One event.  A click reaches [handleSearch] only while the button is not
    [disabled]; a key press always reaches [handleKeyPress]. *)
Definition step (w : World) (ev : Event) : World :=
  match ev with
  | Change text =>
      {| state := {| username := text; repos := repos (state w);
                     loading := loading (state w);
                     searched := searched (state w) |};
         timers := timers w |}
  | ClickSearch =>
      if searchDisabled (state w) then w
      else schedule w (handleSearch (state w))
  | KeyPress key => schedule w (handleKeyPress key (state w))
  | TimerFires =>
      match timers w with
      | O => w
      | S n => {| state := timerCallback (state w); timers := n |}
      end
  end.

Definition run (w : World) (evs : list Event) : World := foldl step w evs.

End Static.

(** ** The variant that fetches with [useQuery] (lines 1-238) *)

Module Fetching.

Record Owner : Type := {
  login : jsstring;
  avatar_url : jsstring
}.

(** [type GitHubRepo], lines 18-32.  Counts are the API's non-negative
    integers; [null] is [None]. *)
Record GitHubRepo : Type := {
  id : Z;
  name : jsstring;
  description : option jsstring;
  language : option jsstring;
  stargazers_count : N;
  forks_count : N;
  updated_at : jsstring;
  html_url : jsstring;
  topics : list jsstring;
  owner : Owner
}.

Definition languageColorEntries : list (jsstring * jsstring) :=
  [ (lit "TypeScript", lit "bg-blue-500");
    (lit "JavaScript", lit "bg-yellow-500");
    (lit "Python", lit "bg-green-500");
    (lit "Shell", lit "bg-gray-500");
    (lit "Go", lit "bg-cyan-500");
    (lit "Rust", lit "bg-orange-500");
    (lit "Java", lit "bg-red-500");
    (lit "Cpp", lit "bg-purple-500") ].

Definition languageColors : gmap jsstring jsstring :=
  list_to_map languageColorEntries.

(** *** The component: state, handlers and JSX *)

(** The two [useState] cells. *)
Record State : Type := {
  username : jsstring;
  searched : bool
}.

Definition initial : State := {| username := []; searched := false |}.

(** What [useQuery] hands to the component on a render ([refetch] apart). *)
Record QueryResult : Type := {
  data : option (list GitHubRepo);
  isLoading : bool;
  isError : bool;
  error : option jsstring
}.

(** What a handler asks of the query: a call of [refetch()]. *)
Inductive Call : Type := Refetch.

Definition handleSearch (st : State) : State * list Call :=
  if negb (truthy (trim (username st))) then (st, [])
  else ({| username := username st; searched := true |}, [Refetch]).

Definition handleKeyPress (key : jsstring) (st : State) : State * list Call :=
  if bool_decide (key = lit "Enter") then handleSearch st else (st, []).

(** [onClick] of the "Try Again" button. *)
Definition handleTryAgain (st : State) : State * list Call := (st, [Refetch]).

Definition searchDisabled (st : State) (q : QueryResult) : bool :=
  isLoading q || negb (truthy (trim (username st))).

Definition renderCard (host : Host) (repo : GitHubRepo) : CardView :=
  {| cardKey := id repo;
     cardTitle := name repo;
     cardLink := Some (html_url repo);
     cardDescription :=
       orElseText (description repo) (lit "No description provided");
     topicBadges := topicBadgesOf (topics repo);
     overflowBadge := overflowBadgeOf (topics repo);
     languageIndicator :=
       match language repo with
       | Some l =>
           if truthy l then Some (languageColor languageColors l, l) else None
       | None => None
       end;
     starsText := numberToLocaleString host (stargazers_count repo);
     forksText := numberToString (forks_count repo);
     updatedText := lit "Updated " ++ formatDate host (updated_at repo) |}.

Definition avatarSrc (st : State) (q : QueryResult) : jsstring :=
  match data q with
  | Some (r :: _) => avatar_url (owner r)
  | _ => placeholderAvatar (username st)
  end.

Definition render (host : Host) (st : State) (q : QueryResult) : PageView :=
  {| inputValue := username st;
     buttonDisabled := searchDisabled st q;
     buttonLabel := searchButtonLabel (isLoading q);
     results :=
       if searched st then
         Some (if isLoading q then Spinner
               else if isError q then
                 ErrorPanel
                   (lit "Error fetching repositories: "
                    ++ orElseText (error q) (lit "Unknown error"))
                   (lit "Try Again")
               else
                 RepoSection
                   (avatarSrc st q)
                   (username st ++ lit "'s Repositories")
                   (numberToString
                      (N.of_nat (length (default [] (data q))))
                    ++ lit " repositories")
                   (map (renderCard host) (default [] (data q)))
                   (match data q with
                    | Some [] => Some noRepositoriesFound
                    | _ => None
                    end))
       else None;
     emptyState := if searched st then None else Some readyToExplore |}.

(** *** [queryFn], lines 67-74, cut at its [await] *)

Definition requestUrl (username : jsstring) : jsstring :=
  lit "https://api.github.com/users/" ++ username
  ++ lit "/repos?sort=updated&per_page=100".

(** How a [fetch] ends: a response with its status and parsed JSON body, or
    a rejection (no response at all). *)
Inductive Outcome : Type :=
| HttpResponse (status : N) (body : list GitHubRepo)
| NetworkError (message : jsstring).

(** [response.ok]. *)
Definition ok (status : N) : bool := ((200 <=? status) && (status <=? 299))%N.

Inductive Started : Type :=
| ReturnsEmpty
| Awaits (url : jsstring).

Inductive Settled : Type :=
| Resolved (repos : list GitHubRepo)
| Rejected (message : jsstring).

Definition queryFn_start (username : jsstring) : Started :=
  if negb (truthy (trim username)) then ReturnsEmpty
  else Awaits (requestUrl username).

Definition queryFn_resume (o : Outcome) : Settled :=
  match o with
  | HttpResponse status body =>
      if negb (ok status)
      then Rejected (lit "GitHub API error: " ++ numberToString status)
      else Resolved body
  | NetworkError message => Rejected message
  end.

(** *** The query behind [useQuery]

    The source creates the client with [new QueryClient()] (line 15) and
    passes [queryKey], [queryFn] and [enabled: false] only, so every other
    option is the library's default.  The model keeps what the component can
    observe of the library (TanStack Query 5) in a page that stays visible
    and online (the library holds a fetch back while the browser is offline,
    and a retry while the page is hidden or offline):
    - there is one query per key [["repos", username]], and the component
      observes the query of the text in the input;
    - [enabled: false]: nothing is fetched until [refetch()] is called;
    - a fetch that starts without data puts the query in status pending;
    - [isLoading] is "fetching and pending", [isError] is status error;
    - when [queryFn] rejects, the fetch goes on if fewer than [retry]
      failures (3 in a browser) were counted and its retries are not
      cancelled: the failure is counted and, after a wait of [retryDelay]
      milliseconds (1000, 2000, 4000, ...), [queryFn] is run again, unless
      the retries were cancelled during the wait; in every other case the
      query turns to status error;
    - an edit of the text moves the observer to the query of the new text;
      the query that is left has its retries cancelled (its request is not
      aborted, since [queryFn] does not read the abort signal) and, once it
      is idle and while it stays unobserved, it is removed from the cache
      when its [gcTime] (5 minutes) is over;
    - [refetch()] during a fetch hands back the running fetch, with its
      retries no longer cancelled, when the query has no data yet, and
      otherwise drops the running fetch and starts a new one; the request of
      a dropped fetch stays in flight and its answer is discarded. *)

Record QueryClient : Type := { retry : nat }.

Definition queryClient : QueryClient := {| retry := 3 |}.

(** The library's default [retryDelay], in milliseconds, after
    [failureCount] earlier failures. *)
Definition retryDelay (failureCount : nat) : Z :=
  Z.min (1000 * 2 ^ Z.of_nat failureCount) 30000.

Inductive Status : Type := Pending | Failed | Succeeded.

(** What the fetch of a query is doing: nothing, awaiting the answer to a
    request, or waiting before the next try after the try of [request] has
    failed with [message].  [fetchStatus] is "fetching" in the last two. *)
Inductive Activity : Type :=
| Idle
| Awaiting (request : nat)
| Sleeping (request : nat) (message : jsstring).

Record Query : Type := {
  q_data : option (list GitHubRepo);
  q_error : option jsstring;
  q_status : Status;
  q_activity : Activity;
  q_failures : nat;
  q_retryCancelled : bool
}.

Definition newQuery : Query :=
  {| q_data := None; q_error := None; q_status := Pending;
     q_activity := Idle; q_failures := 0; q_retryCancelled := false |}.

(** The component, the query cache keyed by user name, the requests in
    flight (request number to the user name it was issued for), the waits
    before a retry (number of the failed request to the user name and the
    length of the wait) and the next request number. *)
Record World : Type := {
  state : State;
  cache : gmap jsstring Query;
  inflight : gmap nat jsstring;
  waits : gmap nat (jsstring * Z);
  nextRequest : nat
}.

Definition start : World :=
  {| state := initial; cache := ∅; inflight := ∅; waits := ∅;
     nextRequest := 0 |}.

Inductive Effect : Type := Fetch (request : nat) (url : jsstring).

(** A key without a stored query stands for a query that was never
    fetched. *)
Definition queryOf (w : World) (key : jsstring) : Query :=
  default newQuery (cache w !! key).

Definition currentQuery (w : World) : Query := queryOf w (username (state w)).

Definition isPending (s : Status) : bool :=
  match s with Pending => true | _ => false end.

Definition isFailed (s : Status) : bool :=
  match s with Failed => true | _ => false end.

Definition isFetching (a : Activity) : bool :=
  match a with Idle => false | _ => true end.

Definition observe (w : World) : QueryResult :=
  let q := currentQuery w in
  {| data := q_data q;
     isLoading := isFetching (q_activity q) && isPending (q_status q);
     isError := isFailed (q_status q);
     error := q_error q |}.

Definition view (host : Host) (w : World) : PageView :=
  render host (state w) (observe w).

Definition succeed (repos : list GitHubRepo) : Query :=
  {| q_data := Some repos; q_error := None; q_status := Succeeded;
     q_activity := Idle; q_failures := 0; q_retryCancelled := false |}.

Definition giveUp (message : jsstring) (q : Query) : Query :=
  {| q_data := q_data q; q_error := Some message; q_status := Failed;
     q_activity := Idle; q_failures := S (q_failures q);
     q_retryCancelled := false |}.

(** The query state when a fetch starts (a new fetch, whose retries are not
    cancelled). *)
Definition fetchState (q : Query) : Query :=
  match q_data q with
  | None =>
      {| q_data := None; q_error := None; q_status := Pending;
         q_activity := q_activity q; q_failures := 0;
         q_retryCancelled := false |}
  | Some _ =>
      {| q_data := q_data q; q_error := q_error q; q_status := q_status q;
         q_activity := q_activity q; q_failures := 0;
         q_retryCancelled := false |}
  end.

Definition awaiting (request : nat) (q : Query) : Query :=
  {| q_data := q_data q; q_error := q_error q; q_status := q_status q;
     q_activity := Awaiting request; q_failures := q_failures q;
     q_retryCancelled := q_retryCancelled q |}.

(** A failure that is counted and followed by a wait. *)
Definition sleeping (request : nat) (message : jsstring) (q : Query) : Query :=
  {| q_data := q_data q; q_error := q_error q; q_status := q_status q;
     q_activity := Sleeping request message; q_failures := S (q_failures q);
     q_retryCancelled := q_retryCancelled q |}.

Definition cancelRetry (q : Query) : Query :=
  {| q_data := q_data q; q_error := q_error q; q_status := q_status q;
     q_activity := q_activity q; q_failures := q_failures q;
     q_retryCancelled := true |}.

Definition continueRetry (q : Query) : Query :=
  {| q_data := q_data q; q_error := q_error q; q_status := q_status q;
     q_activity := q_activity q; q_failures := q_failures q;
     q_retryCancelled := false |}.

Definition awaitsRequest (request : nat) (q : Query) : bool :=
  match q_activity q with
  | Awaiting r => bool_decide (r = request)
  | _ => false
  end.

Definition sleepsSince (request : nat) (q : Query) : option jsstring :=
  match q_activity q with
  | Sleeping r message => if bool_decide (r = request) then Some message else None
  | _ => None
  end.

Definition withState (w : World) (st : State) : World :=
  {| state := st; cache := cache w; inflight := inflight w;
     waits := waits w; nextRequest := nextRequest w |}.

Definition withCache (w : World) (c : gmap jsstring Query) : World :=
  {| state := state w; cache := c; inflight := inflight w;
     waits := waits w; nextRequest := nextRequest w |}.

Definition setQuery (key : jsstring) (q : Query) (w : World) : World :=
  withCache w (<[key := q]> (cache w)).

(** The answer to [request] has come. *)
Definition answered (request : nat) (w : World) : World :=
  {| state := state w; cache := cache w;
     inflight := delete request (inflight w);
     waits := waits w; nextRequest := nextRequest w |}.

(** The wait after the failure of [request] begins, and is over. *)
Definition sleep (request : nat) (key : jsstring) (delay : Z) (w : World) : World :=
  {| state := state w; cache := cache w; inflight := inflight w;
     waits := <[request := (key, delay)]> (waits w);
     nextRequest := nextRequest w |}.

Definition woken (request : nat) (w : World) : World :=
  {| state := state w; cache := cache w; inflight := inflight w;
     waits := delete request (waits w); nextRequest := nextRequest w |}.

(** Run [queryFn] for the query of [key], whose state is to become [q]. *)
Definition launch (key : jsstring) (q : Query) (w : World) : World * list Effect :=
  match queryFn_start key with
  | ReturnsEmpty => (setQuery key (succeed []) w, [])
  | Awaits url =>
      let request := nextRequest w in
      ({| state := state w;
          cache := <[key := awaiting request q]> (cache w);
          inflight := <[request := key]> (inflight w);
          waits := waits w;
          nextRequest := S request |},
       [Fetch request url])
  end.

Definition refetch (w : World) : World * list Effect :=
  let key := username (state w) in
  let q := currentQuery w in
  match q_activity q, q_data q with
  | Idle, _ | _, Some _ => launch key (fetchState q) w
  | _, None => (withCache w (alter continueRetry key (cache w)), [])
  end.

(** The answer to request [request] arrives. *)
Definition respond (client : QueryClient) (request : nat) (o : Outcome)
    (w : World) : World * list Effect :=
  match inflight w !! request with
  | None => (w, [])
  | Some key =>
      let q := queryOf w key in
      if awaitsRequest request q then
        match queryFn_resume o with
        | Resolved repos => (setQuery key (succeed repos) (answered request w), [])
        | Rejected message =>
            if q_retryCancelled q || negb (q_failures q <? retry client)%nat
            then (setQuery key (giveUp message q) (answered request w), [])
            else (sleep request key (retryDelay (q_failures q))
                    (setQuery key (sleeping request message q)
                       (answered request w)), [])
        end
      else (answered request w, [])
  end.

(** The wait that followed the failure of [request] is over. *)
Definition retryDelayEnds (request : nat) (w : World) : World * list Effect :=
  match waits w !! request with
  | None => (w, [])
  | Some (key, _) =>
      let q := queryOf w key in
      match sleepsSince request q with
      | Some message =>
          if q_retryCancelled q
          then (setQuery key (giveUp message q) (woken request w), [])
          else launch key q (woken request w)
      | None => (woken request w, [])
      end
  end.

(** The text in the input becomes [text]: the observer moves from the query
    of the old text to the query of the new one. *)
Definition changeText (text : jsstring) (w : World) : World :=
  if bool_decide (text = username (state w)) then w
  else {| state := {| username := text; searched := searched (state w) |};
          cache := alter cancelRetry (username (state w)) (cache w);
          inflight := inflight w; waits := waits w;
          nextRequest := nextRequest w |}.

(** The [gcTime] of the query of [key] is over. *)
Definition collect (key : jsstring) (w : World) : World :=
  if bool_decide (key <> username (state w))
     && negb (isFetching (q_activity (queryOf w key)))
  then withCache w (delete key (cache w))
  else w.

Inductive Event : Type :=
| Change (text : jsstring)
| ClickSearch
| KeyPress (key : jsstring)
| ClickTryAgain
| Respond (request : nat) (outcome : Outcome)
| RetryDelayEnds (request : nat)
| Collect (key : jsstring).

Definition perform (w : World) (r : State * list Call) : World * list Effect :=
  match snd r with
  | [] => (withState w (fst r), [])
  | Refetch :: _ => refetch (withState w (fst r))
  end.

(** Is the "Try Again" button on the page? *)
Definition tryAgainShown (w : World) : bool :=
  searched (state w) && negb (isLoading (observe w)) && isError (observe w).

(** One event.  A click reaches its handler only when its button is on the
    page and not [disabled]; a key press always reaches [handleKeyPress]. *)
Definition step (client : QueryClient) (w : World) (ev : Event)
    : World * list Effect :=
  match ev with
  | Change text => (changeText text w, [])
  | ClickSearch =>
      if searchDisabled (state w) (observe w) then (w, [])
      else perform w (handleSearch (state w))
  | KeyPress key => perform w (handleKeyPress key (state w))
  | ClickTryAgain =>
      if tryAgainShown w then perform w (handleTryAgain (state w))
      else (w, [])
  | Respond request outcome => respond client request outcome w
  | RetryDelayEnds request => retryDelayEnds request w
  | Collect key => (collect key w, [])
  end.

(** A run of events, with everything that was asked of the network. *)
Definition run (client : QueryClient) (w : World) (evs : list Event)
    : World * list Effect :=
  foldl (fun acc ev =>
           let r := step client (fst acc) ev in
           (fst r, snd acc ++ snd r))
        (w, []) evs.

End Fetching.

(** ** Vocabulary of the statements *)

(** The two ways to trigger a search. *)
Inductive Trigger : Type := ButtonClick | EnterKey.

Definition fireFetching (t : Trigger) : Fetching.Event :=
  match t with
  | ButtonClick => Fetching.ClickSearch
  | EnterKey => Fetching.KeyPress (lit "Enter")
  end.

Definition fireStatic (t : Trigger) : Static.Event :=
  match t with
  | ButtonClick => Static.ClickSearch
  | EnterKey => Static.KeyPress (lit "Enter")
  end.

(** Calendar dates and the timestamps that spell them. *)
Definition leapOf (y : Z) : Z :=
  if DateTime.DaysInYear y =? 366 then 1 else 0.

(** Length of month [mn] (0 = January) of year [y]. *)
Definition DaysInMonth (y mn : Z) : Z :=
  match mn with
  | 1 => 28 + leapOf y
  | 3 | 5 | 8 | 10 => 30
  | _ => 31
  end.

Definition digitChar (v : Z) : N := Z.to_N (48 + v).

Definition pad2 (n : Z) : jsstring :=
  [digitChar (n / 10); digitChar (n mod 10)].

Definition pad4 (n : Z) : jsstring :=
  [digitChar (n / 1000); digitChar (n / 100 mod 10);
   digitChar (n / 10 mod 10); digitChar (n mod 10)].

(** [YYYY-MM-DD]. *)
Definition isoDate (y mo d : Z) : jsstring :=
  pad4 y ++ lit "-" ++ pad2 mo ++ lit "-" ++ pad2 d.

(** [YYYY-MM-DDTHH:mm:ssZ], the shape of the API's [updated_at]. *)
Definition isoTimestamp (y mo d h mi s : Z) : jsstring :=
  isoDate y mo d ++ lit "T" ++ pad2 h ++ lit ":" ++ pad2 mi ++ lit ":"
  ++ pad2 s ++ lit "Z".

(** The time value that such a timestamp names. *)
Definition utcTime (y mo d h mi s : Z) : Z :=
  DateTime.MakeDate (DateTime.MakeDay y (mo - 1) d) (DateTime.MakeTime h mi s 0).

(** [Mon D, YYYY]. *)
Definition shortDate (y mo d : Z) : jsstring :=
  DateTime.monthShort (mo - 1) ++ lit " " ++ numberToString (Z.to_N d)
  ++ lit ", " ++ numberToString (Z.to_N y).

(** What every run of the fetching variant keeps.  Every stored query
    belongs to a user name that is not blank and was stored by a search; the
    request it awaits is in flight for its user name, and the wait it is in
    is pending for its user name.  Requests in flight and pending waits have
    numbers below the next one, and no number is both in flight and
    waited on. *)
Definition consistent (w : Fetching.World) : Prop :=
  (forall key q,
      Fetching.cache w !! key = Some q ->
      blank key = false
      /\ Fetching.searched (Fetching.state w) = true
      /\ match Fetching.q_activity q with
         | Fetching.Idle => True
         | Fetching.Awaiting request =>
             Fetching.inflight w !! request = Some key
         | Fetching.Sleeping request _ =>
             exists delay, Fetching.waits w !! request = Some (key, delay)
         end)
  /\ (forall request key,
        Fetching.inflight w !! request = Some key ->
        (request < Fetching.nextRequest w)%nat
        /\ Fetching.waits w !! request = None)
  /\ (forall request kd,
        Fetching.waits w !! request = Some kd ->
        (request < Fetching.nextRequest w)%nat).

(** Two records in the shape of the API's answer. *)
Definition sampleRepo (n : Z) (nm : string) (st : N) : Fetching.GitHubRepo :=
  {| Fetching.id := n; Fetching.name := lit nm;
     Fetching.description := None; Fetching.language := Some (lit "Go");
     Fetching.stargazers_count := st; Fetching.forks_count := 0;
     Fetching.updated_at := lit "2024-01-15T00:00:00Z";
     Fetching.html_url := lit "https://github.com/octocat/" ++ lit nm;
     Fetching.topics := [];
     Fetching.owner := {| Fetching.login := lit "octocat";
                          Fetching.avatar_url := lit "https://avatars.example/1" |} |}.

(** Answers with the given status codes to the requests numbered from
    [request] on, one after the other, each followed by the end of the wait
    that the query makes after a failure (nothing is waited for after the
    last failure or after a success, and the event does nothing then). *)
Fixpoint answersFrom (request : nat) (statuses : list N) : list Fetching.Event :=
  match statuses with
  | [] => []
  | status :: rest =>
      Fetching.Respond request (Fetching.HttpResponse status [])
      :: Fetching.RetryDelayEnds request
      :: answersFrom (S request) rest
  end.

(** The fetching variant after a search for [u] whose query, still without
    data, awaits the answer to [request] after [failures] failed tries. *)
Definition awaitingWorld (u : jsstring) (request failures : nat) : Fetching.World :=
  {| Fetching.state := {| Fetching.username := u; Fetching.searched := true |};
     Fetching.cache :=
       {[ u := {| Fetching.q_data := None; Fetching.q_error := None;
                  Fetching.q_status := Fetching.Pending;
                  Fetching.q_activity := Fetching.Awaiting request;
                  Fetching.q_failures := failures;
                  Fetching.q_retryCancelled := false |} ]};
     Fetching.inflight := {[ request := u ]};
     Fetching.waits := ∅;
     Fetching.nextRequest := S request |}.

(** The same search during the wait that follows the failure of [request]
    with [message]. *)
Definition sleepingWorld (u : jsstring) (request failures : nat)
    (message : jsstring) : Fetching.World :=
  {| Fetching.state := {| Fetching.username := u; Fetching.searched := true |};
     Fetching.cache :=
       {[ u := {| Fetching.q_data := None; Fetching.q_error := None;
                  Fetching.q_status := Fetching.Pending;
                  Fetching.q_activity := Fetching.Sleeping request message;
                  Fetching.q_failures := S failures;
                  Fetching.q_retryCancelled := false |} ]};
     Fetching.inflight := ∅;
     Fetching.waits := {[ request := (u, Fetching.retryDelay failures) ]};
     Fetching.nextRequest := S request |}.

(** The fetching variant after the search for [u] has failed for good. *)
Definition failedWorld (u : jsstring) (next failures : nat) (message : jsstring)
    : Fetching.World :=
  {| Fetching.state := {| Fetching.username := u; Fetching.searched := true |};
     Fetching.cache :=
       {[ u := {| Fetching.q_data := None; Fetching.q_error := Some message;
                  Fetching.q_status := Fetching.Failed;
                  Fetching.q_activity := Fetching.Idle;
                  Fetching.q_failures := failures;
                  Fetching.q_retryCancelled := false |} ]};
     Fetching.inflight := ∅;
     Fetching.waits := ∅;
     Fetching.nextRequest := next |}.

(** ** Facts about [trim] *)

Section Trim.

Lemma trimStart_blank s : blank s = true -> trimStart s = [].
Proof.
  induction s as [|c s IH]; simpl; [reflexivity|].
  intros H. apply andb_prop in H as [Hc Hs]. rewrite Hc. auto.
Qed.

Lemma trimStart_nil_blank s : trimStart s = [] -> blank s = true.
Proof.
  induction s as [|c s IH]; simpl; [reflexivity|].
  destruct (isWhiteSpace c); [intros; simpl; auto | discriminate].
Qed.

Lemma trimStart_head s c t : trimStart s = c :: t -> isWhiteSpace c = false.
Proof.
  induction s as [|a s IH]; simpl; [discriminate|].
  destruct (isWhiteSpace a) eqn:E; [exact IH|].
  intros [= -> _]. exact E.
Qed.

Lemma trimStart_app_keep s c t :
  isWhiteSpace c = false -> trimStart (s ++ c :: t) <> [].
Proof.
  intros Hc. induction s as [|a s IH]; simpl.
  - rewrite Hc. discriminate.
  - destruct (isWhiteSpace a); [exact IH | discriminate].
Qed.

(** [!text.trim()] holds exactly for blank texts. *)
Lemma trim_nil_iff s : trim s = [] <-> blank s = true.
Proof.
  unfold trim, trimEnd. split.
  - intros H. destruct (trimStart s) as [|c t] eqn:E.
    + now apply trimStart_nil_blank.
    + exfalso. pose proof (trimStart_head _ _ _ E) as Hc.
      apply (f_equal (@rev N)) in H. rewrite rev_involutive in H.
      simpl in H. exact (trimStart_app_keep (rev t) c [] Hc H).
  - intros H. rewrite (trimStart_blank _ H). reflexivity.
Qed.

Lemma truthy_trim s : truthy (trim s) = negb (blank s).
Proof.
  destruct (blank s) eqn:E.
  - apply trim_nil_iff in E. now rewrite E.
  - destruct (trim s) eqn:T; [|reflexivity].
    apply trim_nil_iff in T. congruence.
Qed.

End Trim.


(** ** Calendar arithmetic *)

Section Calendar.
Import DateTime.

Lemma DayFromYear_shift k : DayFromYear (1601 + k) = DayFromYear 1601 + 365 * k + k / 4 - k / 100 + k / 400.
Proof. unfold DayFromYear. Z.to_euclidean_division_equations; lia. Qed.

(** Days in [k] whole years counted from 1601-01-01. *)
Lemma DayFromYear_cycles a b c e :
  0 <= b <= 3 -> 0 <= c <= 24 -> 0 <= e <= 3 ->
  DayFromYear (1601 + (400 * a + 100 * b + 4 * c + e)) =
  DayFromYear 1601 + 146097 * a + 36524 * b + 1461 * c + 365 * e.
Proof.
  intros Hb Hc He. rewrite DayFromYear_shift.
  set (k := 400 * a + 100 * b + 4 * c + e).
  assert (H4 : k / 4 = 100 * a + 25 * b + c)
    by (symmetry; apply (Z.div_unique k 4 _ e); unfold k; lia).
  assert (H100 : k / 100 = 4 * a + b)
    by (symmetry; apply (Z.div_unique k 100 _ (4 * c + e)); unfold k; lia).
  assert (H400 : k / 400 = a)
    by (symmetry; apply (Z.div_unique k 400 _ (100 * b + 4 * c + e)); unfold k; lia).
  rewrite H4, H100, H400. unfold k. lia.
Qed.

Lemma YearFromDay_spec d :
  DayFromYear (YearFromDay d) <= d < DayFromYear (YearFromDay d + 1).
Proof.
  unfold YearFromDay.
  set (n := d - DayFromYear 1601).
  set (a := n / 146097). set (r := n mod 146097).
  set (b := Z.min (r / 36524) 3). set (r2 := r - b * 36524).
  set (c := r2 / 1461). set (r3 := r2 mod 1461).
  set (e := Z.min (r3 / 365) 3).
  assert (Hn : n = 146097 * a + r) by (apply Z.div_mod; lia).
  assert (Hr : 0 <= r < 146097) by (apply Z.mod_pos_bound; lia).
  assert (Hb : 0 <= b <= 3) by (unfold b; Z.to_euclidean_division_equations; lia).
  assert (Hr2 : 0 <= r2 /\ (b < 3 -> r2 < 36524) /\ r2 <= 36524)
    by (unfold r2, b; Z.to_euclidean_division_equations; lia).
  assert (Hr2' : r2 = 1461 * c + r3) by (apply Z.div_mod; lia).
  assert (Hr3 : 0 <= r3 < 1461) by (apply Z.mod_pos_bound; lia).
  assert (Hc : 0 <= c <= 24) by (unfold c; Z.to_euclidean_division_equations; lia).
  assert (He : 0 <= e <= 3 /\ 365 * e <= r3 /\ (e < 3 -> r3 < 365 * e + 365))
    by (unfold e; Z.to_euclidean_division_equations; lia).
  assert (Hd : d = DayFromYear 1601 + 146097 * a + 36524 * b + 1461 * c + r3)
    by (unfold n in Hn; unfold r2 in Hr2'; lia).
  replace (1601 + 400 * a + 100 * b + 4 * c + e)
    with (1601 + (400 * a + 100 * b + 4 * c + e)) by lia.
  split.
  - rewrite DayFromYear_cycles by lia. lia.
  - destruct (Z.eq_dec e 3) as [E3|E3].
    + destruct (Z.eq_dec c 24) as [C|C].
      * destruct (Z.eq_dec b 3) as [B|B].
        -- replace (1601 + (400 * a + 100 * b + 4 * c + e) + 1)
             with (1601 + (400 * (a + 1) + 100 * 0 + 4 * 0 + 0)) by lia.
           rewrite DayFromYear_cycles by lia. lia.
        -- replace (1601 + (400 * a + 100 * b + 4 * c + e) + 1)
             with (1601 + (400 * a + 100 * (b + 1) + 4 * 0 + 0)) by lia.
           rewrite DayFromYear_cycles by lia. lia.
      * replace (1601 + (400 * a + 100 * b + 4 * c + e) + 1)
          with (1601 + (400 * a + 100 * b + 4 * (c + 1) + 0)) by lia.
        rewrite DayFromYear_cycles by lia. lia.
    + replace (1601 + (400 * a + 100 * b + 4 * c + e) + 1)
        with (1601 + (400 * a + 100 * b + 4 * c + (e + 1))) by lia.
      rewrite DayFromYear_cycles by lia. lia.
Qed.

Lemma div_step m p : 0 < m -> p / m - (p - 1) / m = if p mod m =? 0 then 1 else 0.
Proof.
  intros Hm. destruct (p mod m =? 0) eqn:E.
  - apply Z.eqb_eq in E. Z.to_euclidean_division_equations; nia.
  - apply Z.eqb_neq in E. Z.to_euclidean_division_equations; nia.
Qed.

Lemma DaysInYear_diff y : DayFromYear (y + 1) - DayFromYear y = DaysInYear y.
Proof.
  replace (y + 1) with (1601 + (y - 1600)) by lia.
  replace y with (1601 + (y - 1600 - 1)) at 2 by lia.
  rewrite !DayFromYear_shift.
  pose proof (div_step 4 (y - 1600) ltac:(lia)) as H4.
  pose proof (div_step 100 (y - 1600) ltac:(lia)) as H100.
  pose proof (div_step 400 (y - 1600) ltac:(lia)) as H400.
  unfold DaysInYear.
  replace (y mod 4) with ((y - 1600) mod 4)
    by (rewrite <- (Z.mod_add y (-400) 4) by lia; f_equal; lia).
  replace (y mod 100) with ((y - 1600) mod 100)
    by (rewrite <- (Z.mod_add y (-16) 100) by lia; f_equal; lia).
  replace (y mod 400) with ((y - 1600) mod 400)
    by (rewrite <- (Z.mod_add y (-4) 400) by lia; f_equal; lia).
  destruct ((y - 1600) mod 4 =? 0) eqn:E4;
  destruct ((y - 1600) mod 100 =? 0) eqn:E100;
  destruct ((y - 1600) mod 400 =? 0) eqn:E400; simpl; try lia.
  all: try (apply Z.eqb_eq in E4); try (apply Z.eqb_neq in E4);
  try (apply Z.eqb_eq in E100); try (apply Z.eqb_neq in E100);
  try (apply Z.eqb_eq in E400); try (apply Z.eqb_neq in E400);
  exfalso; clear H4 H100 H400; Z.to_euclidean_division_equations; lia.
Qed.

Lemma DayFromYear_mono y1 y2 : y1 <= y2 -> DayFromYear y1 <= DayFromYear y2.
Proof.
  intros H. unfold DayFromYear. Z.to_euclidean_division_equations; lia.
Qed.

Lemma YearFromDay_unique y d :
  DayFromYear y <= d < DayFromYear (y + 1) -> YearFromDay d = y.
Proof.
  intros H. pose proof (YearFromDay_spec d) as S.
  destruct (Z_lt_le_dec (YearFromDay d) y) as [L|L].
  - pose proof (DayFromYear_mono (YearFromDay d + 1) y ltac:(lia)). lia.
  - destruct (Z_lt_le_dec y (YearFromDay d)) as [G|G]; [|lia].
    pose proof (DayFromYear_mono (y + 1) (YearFromDay d) ltac:(lia)). lia.
Qed.

Lemma Day_MakeDate day tw : 0 <= tw < msPerDay -> Day (MakeDate day tw) = day.
Proof.
  intros H. unfold Day, MakeDate. symmetry.
  apply (Z.div_unique _ msPerDay day tw); unfold msPerDay in *; lia.
Qed.

Lemma civil_roundtrip y mn date tw :
  0 <= mn <= 11 -> 1 <= date <= DaysInMonth y mn -> 0 <= tw < msPerDay ->
  let t := MakeDate (MakeDay y mn date) tw in
  YearFromTime t = y /\ MonthFromTime t = mn /\ DateFromTime t = date.
Proof.
  intros Hm Hd Htw t.
  assert (HD : Day t = MakeDay y mn date) by (apply Day_MakeDate; exact Htw).
  clearbody t.
  assert (Hl : leapOf y = 0 \/ leapOf y = 1)
    by (unfold leapOf; destruct (DaysInYear y =? 366); auto).
  assert (Hdiy : DaysInYear y = 365 + leapOf y).
  { unfold leapOf. destruct (DaysInYear y =? 366) eqn:E.
    - apply Z.eqb_eq in E. lia.
    - unfold DaysInYear in *. repeat destruct (negb _); simpl in *; try lia; discriminate. }
  assert (Hmk : MakeDay y mn date = DayFromYear y + DaysBeforeMonth (leapOf y) mn + date - 1).
  { unfold MakeDay. rewrite (Z.div_small mn 12), (Z.mod_small mn 12) by lia.
    rewrite Z.add_0_r. reflexivity. }
  assert (Hin : 0 <= DaysBeforeMonth (leapOf y) mn + date - 1 < DaysInYear y).
  { unfold DaysInMonth in Hd.
    assert (mn = 0 \/ mn = 1 \/ mn = 2 \/ mn = 3 \/ mn = 4 \/ mn = 5 \/ mn = 6
            \/ mn = 7 \/ mn = 8 \/ mn = 9 \/ mn = 10 \/ mn = 11) as C by lia.
    repeat (destruct C as [->|C]); try (revert C; intros ->);
      cbv beta iota delta [DaysBeforeMonth DaysInMonth] in *; lia. }
  assert (HY : YearFromTime t = y).
  { unfold YearFromTime. rewrite HD. apply YearFromDay_unique.
    pose proof (DaysInYear_diff y). lia. }
  assert (HL : InLeapYear t = leapOf y) by (unfold InLeapYear; rewrite HY; reflexivity).
  assert (HW : DayWithinYear t = DaysBeforeMonth (leapOf y) mn + date - 1)
    by (unfold DayWithinYear; rewrite HD, HY; lia).
  assert (HM : MonthFromTime t = mn).
  { unfold MonthFromTime. rewrite HW, HL. unfold DaysInMonth in Hd.
    assert (mn = 0 \/ mn = 1 \/ mn = 2 \/ mn = 3 \/ mn = 4 \/ mn = 5 \/ mn = 6
            \/ mn = 7 \/ mn = 8 \/ mn = 9 \/ mn = 10 \/ mn = 11) as C by lia.
    repeat (destruct C as [->|C]); try (revert C; intros ->);
      cbv beta iota delta [DaysBeforeMonth DaysInMonth] in *;
      repeat match goal with
             | |- context [?a <? ?b] => destruct (Z.ltb_spec a b); try lia
             end; reflexivity. }
  split; [exact HY|]. split; [exact HM|].
  unfold DateFromTime. rewrite HM, HW, HL.
  assert (mn = 0 \/ mn = 1 \/ mn = 2 \/ mn = 3 \/ mn = 4 \/ mn = 5 \/ mn = 6
          \/ mn = 7 \/ mn = 8 \/ mn = 9 \/ mn = 10 \/ mn = 11) as C by lia.
  repeat (destruct C as [->|C]); try (revert C; intros ->);
    cbv beta iota zeta delta [DaysBeforeMonth]; lia.
Qed.

End Calendar.

(** ** Reading timestamps *)

Section Parsing.
Import DateTime.

Lemma digitValue_digitChar v : 0 <= v <= 9 -> digitValue (digitChar v) = Some v.
Proof.
  intros H.
  assert (v = 0 \/ v = 1 \/ v = 2 \/ v = 3 \/ v = 4 \/ v = 5 \/ v = 6 \/ v = 7
          \/ v = 8 \/ v = 9) as C by lia.
  repeat (destruct C as [->|C]); try (revert C; intros ->); reflexivity.
Qed.

Lemma takeDigits_pad2 n acc rest :
  0 <= n <= 99 -> takeDigits 2 acc (pad2 n ++ rest) = Some (100 * acc + n, rest).
Proof.
  intros H. unfold pad2. cbn [takeDigits app].
  rewrite !digitValue_digitChar by (Z.to_euclidean_division_equations; lia).
  do 2 f_equal. Z.to_euclidean_division_equations; lia.
Qed.

Lemma takeDigits_pad4 n rest :
  0 <= n <= 9999 -> takeDigits 4 0 (pad4 n ++ rest) = Some (n, rest).
Proof.
  intros H. unfold pad4. cbn [takeDigits app].
  rewrite !digitValue_digitChar by (Z.to_euclidean_division_equations; lia).
  do 2 f_equal. Z.to_euclidean_division_equations; lia.
Qed.

Lemma expect_same c s : expect c (c :: s) = Some s.
Proof. unfold expect. now rewrite N.eqb_refl. Qed.

Lemma lit1 a : lit (String a EmptyString) = [chr a].
Proof. reflexivity. Qed.

Ltac parse_step :=
  rewrite ?lit1; cbn [app]; rewrite ?expect_same;
  cbn [mbind option_bind]; rewrite <- ?app_assoc;
  try (rewrite takeDigits_pad2 by lia); cbn [mbind option_bind].

Lemma digitChar_not_sign v :
  0 <= v <= 9 ->
  (digitChar v =? chr "+")%N = false /\ (digitChar v =? chr "-")%N = false.
Proof.
  intros H.
  assert (v = 0 \/ v = 1 \/ v = 2 \/ v = 3 \/ v = 4 \/ v = 5 \/ v = 6 \/ v = 7
          \/ v = 8 \/ v = 9) as C by lia.
  repeat (destruct C as [->|C]); try (revert C; intros ->); split; reflexivity.
Qed.

Lemma parseYear_pad4 y rest :
  0 <= y <= 9999 -> parseYear (pad4 y ++ rest) = Some (y, rest).
Proof.
  intros H. rewrite <- (takeDigits_pad4 y rest H).
  unfold parseYear, pad4. cbn [app].
  destruct (digitChar_not_sign (y / 1000)) as [-> ->];
    [Z.to_euclidean_division_equations; lia | reflexivity].
Qed.

(** A written date [YYYY-MM-DD], followed by [rest]. *)
Lemma parseFormat_isoDate_prefix utc y mo d rest :
  0 <= y <= 9999 -> 1 <= mo <= 12 -> 1 <= d <= 31 ->
  parseFormat utc (isoDate y mo d ++ rest) =
  match rest with
  | [] => Some (MakeDate (MakeDay y (mo - 1) d) 0)
  | c :: s' =>
      if (c =? chr "T")%N then
        '(time, s') ← parseTime s';
        off ← parseOffset s';
        Some match off with
             | Some east => MakeDate (MakeDay y (mo - 1) d) time - east
             | None => utc (MakeDate (MakeDay y (mo - 1) d) time)
             end
      else None
  end.
Proof.
  intros Hy Hm Hd. unfold parseFormat, isoDate.
  rewrite <- !app_assoc. rewrite parseYear_pad4 by lia.
  cbn [mbind option_bind]. unfold parseMonthDay.
  do 2 parse_step.
  replace (100 * 0 + mo) with mo by lia. replace (100 * 0 + d) with d by lia.
  replace ((1 <=? mo) && (mo <=? 12) && (1 <=? d) && (d <=? 31)) with true.
  2:{ symmetry. rewrite !andb_true_iff, !Z.leb_le. lia. }
  reflexivity.
Qed.

Lemma parseTime_iso h mi s :
  0 <= h <= 23 -> 0 <= mi <= 59 -> 0 <= s <= 59 ->
  parseTime (pad2 h ++ lit ":" ++ pad2 mi ++ lit ":" ++ pad2 s ++ lit "Z")
  = Some (MakeTime h mi s 0, lit "Z").
Proof.
  intros Hh Hm Hs. unfold parseTime.
  rewrite takeDigits_pad2 by lia. cbn [mbind option_bind].
  do 2 parse_step.
  rewrite ?lit1. cbn [app].
  change (expect (chr "."%char) [chr "Z"%char]) with (@None jsstring). cbv iota.
  cbn [mbind option_bind].
  replace (100 * 0 + h) with h by lia. replace (100 * 0 + mi) with mi by lia.
  replace (100 * 0 + s) with s by lia.
  replace ((h <=? 23) && (mi <=? 59) && (s <=? 59)) with true.
  2:{ symmetry. rewrite !andb_true_iff, !Z.leb_le. lia. }
  reflexivity.
Qed.

Lemma utcTime_in_range y mo d tw :
  0 <= y <= 9999 -> 1 <= mo <= 12 -> 1 <= d <= 31 -> 0 <= tw < msPerDay ->
  TimeClip (MakeDate (MakeDay y (mo - 1) d) tw) = Some (MakeDate (MakeDay y (mo - 1) d) tw).
Proof.
  intros Hy Hm Hd Ht. unfold TimeClip.
  assert (-720000 <= DayFromYear y <= 2940000)
    by (unfold DayFromYear; Z.to_euclidean_division_equations; lia).
  assert (0 <= DaysBeforeMonth (if DaysInYear y =? 366 then 1 else 0) (mo - 1) <= 335).
  { destruct (DaysInYear y =? 366);
    assert (mo = 1 \/ mo = 2 \/ mo = 3 \/ mo = 4 \/ mo = 5 \/ mo = 6 \/ mo = 7
            \/ mo = 8 \/ mo = 9 \/ mo = 10 \/ mo = 11 \/ mo = 12) as C by lia;
    repeat (destruct C as [->|C]); try (revert C; intros ->); simpl; lia. }
  assert (MakeDay y (mo - 1) d =
          DayFromYear y + DaysBeforeMonth (if DaysInYear y =? 366 then 1 else 0) (mo - 1) + d - 1).
  { unfold MakeDay. rewrite (Z.div_small (mo - 1) 12), (Z.mod_small (mo - 1) 12) by lia.
    rewrite Z.add_0_r. reflexivity. }
  destruct (Z.leb_spec (Z.abs (MakeDate (MakeDay y (mo - 1) d) tw)) 8640000000000000);
    [reflexivity|].
  unfold MakeDate, msPerDay in *. lia.
Qed.

(** The shape of the API's [updated_at] is read as the UTC time it spells,
    whatever the engine and its time zone. *)
Lemma parse_isoTimestamp utc other y mo d h mi s :
  0 <= y <= 9999 -> 1 <= mo <= 12 -> 1 <= d <= 31 ->
  0 <= h <= 23 -> 0 <= mi <= 59 -> 0 <= s <= 59 ->
  parse utc other (isoTimestamp y mo d h mi s) = Some (utcTime y mo d h mi s).
Proof.
  intros Hy Hmo Hd Hh Hmi Hs. unfold parse, isoTimestamp.
  set (rest := pad2 h ++ lit ":" ++ pad2 mi ++ lit ":" ++ pad2 s ++ lit "Z").
  change (lit "T" ++ rest) with (chr "T" :: rest).
  rewrite parseFormat_isoDate_prefix by assumption.
  rewrite N.eqb_refl. subst rest.
  rewrite parseTime_iso by assumption. cbn [mbind option_bind].
  change (parseOffset (lit "Z")) with (Some (Some 0)). cbn [mbind option_bind].
  rewrite Z.sub_0_r.
  apply utcTime_in_range; try assumption.
  unfold MakeTime, msPerDay. lia.
Qed.

(** A date alone is read as midnight UTC. *)
Lemma parse_isoDate utc other y mo d :
  0 <= y <= 9999 -> 1 <= mo <= 12 -> 1 <= d <= 31 ->
  parse utc other (isoDate y mo d) = Some (utcTime y mo d 0 0 0).
Proof.
  intros Hy Hmo Hd. unfold parse. rewrite <- (app_nil_r (isoDate y mo d)).
  rewrite parseFormat_isoDate_prefix by assumption. cbn [mbind option_bind].
  apply utcTime_in_range; try assumption. unfold msPerDay. lia.
Qed.

End Parsing.

(** ** Drawing dates *)

Section Formatting.
Import DateTime.

Lemma MakeDay_date y mn d k : MakeDay y mn (d + k) = MakeDay y mn d + k.
Proof. unfold MakeDay. lia. Qed.

(** The local calendar date of a UTC time of day [tw] on the day [y-mo-d],
    seen [off] milliseconds ahead. *)
Lemma local_fields y mo d tw off :
  1 <= mo <= 12 ->
  0 <= tw < msPerDay ->
  1 <= d + (tw + off) / msPerDay <= DaysInMonth y (mo - 1) ->
  let lt := MakeDate (MakeDay y (mo - 1) d) tw + off in
  YearFromTime lt = y /\ MonthFromTime lt = mo - 1
  /\ DateFromTime lt = d + (tw + off) / msPerDay.
Proof.
  intros Hmo Htw Hd lt.
  assert (E : lt = MakeDate (MakeDay y (mo - 1) (d + (tw + off) / msPerDay))
                            ((tw + off) mod msPerDay)).
  { unfold lt, MakeDate. rewrite MakeDay_date.
    pose proof (Z.div_mod (tw + off) msPerDay ltac:(unfold msPerDay; lia)). lia. }
  rewrite E. apply civil_roundtrip; [lia | exact Hd |].
  apply Z.mod_pos_bound. unfold msPerDay. lia.
Qed.

Lemma toLocaleDateString_fields tza y mo d tw :
  1 <= y -> 1 <= mo <= 12 -> 0 <= tw < msPerDay ->
  let t := MakeDate (MakeDay y (mo - 1) d) tw in
  let shift := (tw + tza t) / msPerDay in
  1 <= d + shift <= DaysInMonth y (mo - 1) ->
  toLocaleDateString tza (Some t) = shortDate y mo (d + shift).
Proof.
  intros Hy Hmo Htw t shift Hd.
  destruct (local_fields y mo d tw (tza t) Hmo Htw Hd) as (HY & HM & HD).
  unfold toLocaleDateString, LocalTime, shortDate. fold t.
  fold t in HY, HM, HD. rewrite HY, HM, HD.
  unfold yearOfEra. destruct (Z.ltb_spec 0 y); [reflexivity | lia].
Qed.

(** The date-only texts of the static variant. *)
Lemma formatDate_date host y mo d :
  1 <= y <= 9999 -> 1 <= mo <= 12 -> 1 <= d <= 31 ->
  let shift := LocalTZA host (utcTime y mo d 0 0 0) / msPerDay in
  1 <= d + shift <= DaysInMonth y (mo - 1) ->
  formatDate host (isoDate y mo d) = shortDate y mo (d + shift).
Proof.
  intros Hy Hmo Hd shift Hshift. unfold formatDate, timeValue.
  rewrite parse_isoDate by lia.
  apply (toLocaleDateString_fields (LocalTZA host) y mo d 0); try lia.
  - unfold msPerDay. lia.
  - exact Hshift.
Qed.

Lemma DayWithinYear_range t :
  0 <= DayWithinYear t < DaysInYear (YearFromTime t).
Proof.
  unfold DayWithinYear, YearFromTime.
  pose proof (YearFromDay_spec (Day t)).
  pose proof (DaysInYear_diff (YearFromDay (Day t))). lia.
Qed.

Lemma DaysInYear_leapOf y : DaysInYear y = 365 + leapOf y.
Proof.
  unfold leapOf. destruct (DaysInYear y =? 366) eqn:E.
  - apply Z.eqb_eq in E. lia.
  - unfold DaysInYear in *. repeat destruct (negb _); simpl in *; try lia; discriminate.
Qed.

(** Every time value lies on one day of one month of one year: the fields
    that [YearFromTime], [MonthFromTime] and [DateFromTime] give name a
    calendar date, and the time value is a time of that day. *)
Lemma civil_date_of_time t :
  0 <= MonthFromTime t <= 11
  /\ 1 <= DateFromTime t <= DaysInMonth (YearFromTime t) (MonthFromTime t)
  /\ 0 <= TimeWithinDay t < msPerDay
  /\ t = MakeDate (MakeDay (YearFromTime t) (MonthFromTime t) (DateFromTime t))
                  (TimeWithinDay t).
Proof.
  pose proof (DayWithinYear_range t) as R.
  rewrite DaysInYear_leapOf in R.
  assert (HL : InLeapYear t = leapOf (YearFromTime t)) by reflexivity.
  assert (Hl : leapOf (YearFromTime t) = 0 \/ leapOf (YearFromTime t) = 1)
    by (unfold leapOf; destruct (DaysInYear _ =? 366); auto).
  assert (Ht : t = (DayFromYear (YearFromTime t) + DayWithinYear t) * msPerDay
                   + TimeWithinDay t).
  { unfold DayWithinYear, TimeWithinDay, Day.
    pose proof (Z.div_mod t msPerDay ltac:(unfold msPerDay; lia)). lia. }
  assert (Hw : 0 <= TimeWithinDay t < msPerDay)
    by (apply Z.mod_pos_bound; unfold msPerDay; lia).
  assert (Hmk : forall mn date, 0 <= mn <= 11 ->
            MakeDay (YearFromTime t) mn date
            = DayFromYear (YearFromTime t)
              + DaysBeforeMonth (leapOf (YearFromTime t)) mn + date - 1).
  { intros mn date Hmn. unfold MakeDay.
    rewrite (Z.div_small mn 12), (Z.mod_small mn 12) by lia.
    rewrite Z.add_0_r. reflexivity. }
  unfold DateFromTime, MonthFromTime, DaysInMonth. rewrite HL.
  set (y := YearFromTime t) in *. set (w := DayWithinYear t) in *.
  set (l := leapOf y) in *. set (tw := TimeWithinDay t) in *.
  clearbody y w l tw.
  repeat match goal with
         | |- context [?a <? ?b] => destruct (Z.ltb_spec a b)
         end;
    (split; [lia|]); (split; [cbv beta iota; lia|]);
    (split; [exact Hw|]); rewrite Hmk by lia; unfold MakeDate;
    cbv beta iota delta [DaysBeforeMonth]; lia.
Qed.

(** The text drawn for a time value is the calendar date it has in local
    time. *)
Lemma toLocaleDateString_civil tza t y mo d tw :
  1 <= mo <= 12 -> 1 <= d <= DaysInMonth y (mo - 1) -> 0 <= tw < msPerDay ->
  t + tza t = MakeDate (MakeDay y (mo - 1) d) tw ->
  toLocaleDateString tza (Some t) = shortDate (yearOfEra y) mo d.
Proof.
  intros Hmo Hd Htw E.
  destruct (civil_roundtrip y (mo - 1) d tw ltac:(lia) Hd Htw) as (HY & HM & HD).
  unfold toLocaleDateString, LocalTime, shortDate.
  rewrite E, HY, HM, HD. reflexivity.
Qed.

End Formatting.

(** ** The fetching variant: handlers and the query *)

Section FetchingFacts.
Import Fetching.

Lemma withState_same w : withState w (state w) = w.
Proof. now destruct w. Qed.

Lemma withCache_same w : withCache w (cache w) = w.
Proof. now destruct w. Qed.

Lemma fetching_handleSearch_blank st :
  blank (username st) = true -> handleSearch st = (st, []).
Proof. intros H. unfold handleSearch. now rewrite truthy_trim, H. Qed.

Lemma fetching_handleSearch_text st :
  blank (username st) = false ->
  handleSearch st = ({| username := username st; searched := true |}, [Refetch]).
Proof. intros H. unfold handleSearch. now rewrite truthy_trim, H. Qed.

Lemma fetching_handleKeyPress_Enter st : handleKeyPress (lit "Enter") st = handleSearch st.
Proof. reflexivity. Qed.

Lemma queryFn_start_text key :
  blank key = false -> queryFn_start key = Awaits (requestUrl key).
Proof. intros H. unfold queryFn_start. now rewrite truthy_trim, H. Qed.

Lemma queryFn_resume_not_ok status body :
  ok status = false ->
  queryFn_resume (HttpResponse status body)
  = Rejected (lit "GitHub API error: " ++ numberToString status).
Proof. intros H. unfold queryFn_resume. now rewrite H. Qed.

Lemma queryFn_resume_ok status body :
  ok status = true -> queryFn_resume (HttpResponse status body) = Resolved body.
Proof. intros H. unfold queryFn_resume. now rewrite H. Qed.

(** The page is drawn from the component's state and from the query of the
    text in the input; of that query it shows the data, the status, the
    error and whether it is fetching. *)
Lemma view_same host w1 w2 :
  state w1 = state w2 ->
  q_data (currentQuery w1) = q_data (currentQuery w2) ->
  q_status (currentQuery w1) = q_status (currentQuery w2) ->
  q_error (currentQuery w1) = q_error (currentQuery w2) ->
  isFetching (q_activity (currentQuery w1))
  = isFetching (q_activity (currentQuery w2)) ->
  view host w1 = view host w2.
Proof.
  intros Hs Hd Hst He Hf. unfold view, observe. cbv zeta.
  now rewrite Hs, Hd, Hst, He, Hf.
Qed.

Lemma view_ext host w1 w2 :
  state w1 = state w2 ->
  cache w1 !! username (state w2) = cache w2 !! username (state w2) ->
  view host w1 = view host w2.
Proof.
  intros Hs Hc.
  assert (E : currentQuery w1 = currentQuery w2)
    by (unfold currentQuery, queryOf; now rewrite Hs, Hc).
  apply view_same; now rewrite ?E.
Qed.

(** A query that is fetching is a stored one. *)
Lemma queryOf_stored w key :
  q_activity (queryOf w key) <> Idle -> cache w !! key = Some (queryOf w key).
Proof.
  unfold queryOf. destruct (cache w !! key); [reflexivity|].
  intros H. now contradiction H.
Qed.

Lemma awaitsRequest_true request q :
  awaitsRequest request q = true <-> q_activity q = Awaiting request.
Proof.
  unfold awaitsRequest. destruct (q_activity q) as [|r|r m]; split;
    try discriminate.
  - intros H. apply bool_decide_eq_true in H. now subst.
  - intros [= ->]. now apply bool_decide_eq_true.
Qed.

Lemma sleepsSince_Some request q message :
  sleepsSince request q = Some message <-> q_activity q = Sleeping request message.
Proof.
  unfold sleepsSince. destruct (q_activity q) as [|r|r m]; split;
    try discriminate.
  - case_bool_decide; [|discriminate]. intros [= ->]. now subst.
  - intros [= -> ->]. now rewrite bool_decide_eq_true_2.
Qed.

Lemma launch_text key q w :
  blank key = false ->
  launch key q w =
  ({| state := state w;
      cache := <[key := awaiting (nextRequest w) q]> (cache w);
      inflight := <[nextRequest w := key]> (inflight w);
      waits := waits w;
      nextRequest := S (nextRequest w) |},
   [Fetch (nextRequest w) (requestUrl key)]).
Proof. intros H. unfold launch. now rewrite queryFn_start_text. Qed.

(** The answer to the request that the query of [key] awaits. *)
Lemma respond_live client request o w key :
  inflight w !! request = Some key ->
  q_activity (queryOf w key) = Awaiting request ->
  respond client request o w =
  match queryFn_resume o with
  | Resolved repos => (setQuery key (succeed repos) (answered request w), [])
  | Rejected message =>
      if q_retryCancelled (queryOf w key)
         || negb (q_failures (queryOf w key) <? retry client)%nat
      then (setQuery key (giveUp message (queryOf w key)) (answered request w), [])
      else (sleep request key (retryDelay (q_failures (queryOf w key)))
              (setQuery key (sleeping request message (queryOf w key))
                 (answered request w)), [])
  end.
Proof.
  intros Hin Hreq. unfold respond. rewrite Hin. cbv zeta.
  now rewrite (proj2 (awaitsRequest_true request _) Hreq).
Qed.

(** The end of the wait that the query of [key] is in. *)
Lemma retryDelayEnds_live request w key delay message :
  waits w !! request = Some (key, delay) ->
  q_activity (queryOf w key) = Sleeping request message ->
  retryDelayEnds request w =
  if q_retryCancelled (queryOf w key)
  then (setQuery key (giveUp message (queryOf w key)) (woken request w), [])
  else launch key (queryOf w key) (woken request w).
Proof.
  intros Hw Hs. unfold retryDelayEnds. rewrite Hw. cbv zeta.
  now rewrite (proj2 (sleepsSince_Some request _ message) Hs).
Qed.

End FetchingFacts.

(** ** The fetching variant: what every run preserves *)

Section FetchingInvariant.
Import Fetching.

Lemma consistent_start : consistent start.
Proof.
  split; [|split].
  - intros key q H. cbn in H. now rewrite lookup_empty in H.
  - intros request key H. cbn in H. now rewrite lookup_empty in H.
  - intros request kd H. cbn in H. now rewrite lookup_empty in H.
Qed.

Lemma consistent_withState w st :
  consistent w -> (searched (state w) = true -> searched st = true) ->
  consistent (withState w st).
Proof.
  intros (A & B & C) Hs. split; [|split; assumption].
  intros key q Hc. cbn in *.
  destruct (A key q Hc) as (? & ? & ?). auto.
Qed.

(** A change of a stored query that leaves alone what it is doing. *)
Lemma consistent_alter f key w st :
  (forall q, q_activity (f q) = q_activity q) ->
  (searched (state w) = true -> searched st = true) ->
  consistent w ->
  consistent {| state := st; cache := alter f key (cache w);
                inflight := inflight w; waits := waits w;
                nextRequest := nextRequest w |}.
Proof.
  intros Hf Hs (A & B & C). split; [|split; assumption].
  intros key' q' Hc. cbn [cache state inflight waits] in *.
  apply lookup_alter_Some in Hc as [(-> & q0 & Hq0 & ->) | (Hne & Hc)].
  - destruct (A _ _ Hq0) as (? & ? & ?). rewrite Hf. auto.
  - destruct (A _ _ Hc) as (? & ? & ?). auto.
Qed.

Lemma consistent_launch key q w :
  consistent w -> blank key = false -> searched (state w) = true ->
  consistent (fst (launch key q w)).
Proof.
  intros (A & B & C) Hb Hs. rewrite launch_text by exact Hb. cbn [fst].
  split; [|split]; cbn [cache inflight waits state nextRequest].
  - intros key' q' Hc. destruct (decide (key = key')) as [<-|Hne].
    + rewrite lookup_insert_eq in Hc. injection Hc as <-.
      cbn [awaiting q_activity]. rewrite lookup_insert_eq. auto.
    + rewrite lookup_insert_ne in Hc by exact Hne.
      destruct (A key' q' Hc) as (? & ? & Hact).
      split; [assumption|]. split; [assumption|].
      destruct (q_activity q') as [|r|r m]; [exact I| |exact Hact].
      destruct (B _ _ Hact) as [Hlt _]. rewrite lookup_insert_ne by lia.
      exact Hact.
  - intros r key' Hi. destruct (decide (nextRequest w = r)) as [<-|Hne].
    + split; [lia|].
      destruct (waits w !! nextRequest w) as [kd|] eqn:E; [|reflexivity].
      pose proof (C _ _ E). lia.
    + rewrite lookup_insert_ne in Hi by exact Hne.
      destruct (B _ _ Hi). split; [lia | assumption].
  - intros r kd Hw. pose proof (C _ _ Hw). lia.
Qed.

Lemma consistent_refetch w :
  consistent w -> searched (state w) = true ->
  blank (username (state w)) = false ->
  consistent (fst (refetch w)).
Proof.
  intros Hc Hs Hb. unfold refetch.
  destruct (q_activity (currentQuery w)), (q_data (currentQuery w));
    try (now apply consistent_launch);
    cbn [fst]; apply (consistent_alter continueRetry _ w (state w));
    auto.
Qed.

Lemma consistent_perform w r :
  consistent w ->
  (searched (state w) = true -> searched (fst r) = true) ->
  (snd r <> [] -> searched (fst r) = true /\ blank (username (fst r)) = false) ->
  consistent (fst (perform w r)).
Proof.
  intros Hc Hs Hr. unfold perform. destruct (snd r) as [|[] calls].
  - now apply consistent_withState.
  - destruct (Hr ltac:(discriminate)) as [Hs' Hb].
    apply consistent_refetch; [now apply consistent_withState | exact Hs' | exact Hb].
Qed.

(** The query of [key], which awaited [request], comes to rest. *)
Lemma consistent_settle w request key q' :
  consistent w ->
  inflight w !! request = Some key ->
  blank key = false -> searched (state w) = true ->
  q_activity q' = Idle ->
  consistent (setQuery key q' (answered request w)).
Proof.
  intros (A & B & C) Hin Hb Hs Hq'.
  split; [|split]; cbn [setQuery withCache answered cache inflight waits state nextRequest].
  - intros key' q Hc. destruct (decide (key = key')) as [<-|Hne].
    + rewrite lookup_insert_eq in Hc. injection Hc as <-. rewrite Hq'. auto.
    + rewrite lookup_insert_ne in Hc by exact Hne.
      destruct (A key' q Hc) as (? & ? & Hact).
      split; [assumption|]. split; [assumption|].
      destruct (q_activity q) as [|r|r m]; [exact I| |exact Hact].
      rewrite lookup_delete_ne; [exact Hact|]. intros <-. congruence.
  - intros r key' Hi. apply (B r key').
    destruct (decide (request = r)) as [<-|Hne].
    + now rewrite lookup_delete_eq in Hi.
    + now rewrite lookup_delete_ne in Hi.
  - exact C.
Qed.

(** The query of [key], which awaited [request], begins to wait. *)
Lemma consistent_sleep w request key delay message q' :
  consistent w ->
  inflight w !! request = Some key ->
  blank key = false -> searched (state w) = true ->
  q_activity q' = Sleeping request message ->
  consistent (sleep request key delay (setQuery key q' (answered request w))).
Proof.
  intros (A & B & C) Hin Hb Hs Hq'.
  destruct (B _ _ Hin) as [Hlt Hnw].
  split; [|split];
    cbn [sleep setQuery withCache answered cache inflight waits state nextRequest].
  - intros key' q Hc. destruct (decide (key = key')) as [<-|Hne].
    + rewrite lookup_insert_eq in Hc. injection Hc as <-. rewrite Hq'.
      rewrite lookup_insert_eq. eauto.
    + rewrite lookup_insert_ne in Hc by exact Hne.
      destruct (A key' q Hc) as (? & ? & Hact).
      split; [assumption|]. split; [assumption|].
      destruct (q_activity q) as [|r|r m]; [exact I| |].
      * rewrite lookup_delete_ne; [exact Hact|]. intros <-. congruence.
      * destruct Hact as [d Hd]. exists d.
        rewrite lookup_insert_ne; [exact Hd|]. intros <-. congruence.
  - intros r key' Hi.
    destruct (decide (request = r)) as [<-|Hne].
    + now rewrite lookup_delete_eq in Hi.
    + rewrite lookup_delete_ne in Hi by exact Hne.
      rewrite lookup_insert_ne by exact Hne. now apply (B r key').
  - intros r kd Hw. destruct (decide (request = r)) as [<-|Hne]; [exact Hlt|].
    rewrite lookup_insert_ne in Hw by exact Hne. exact (C _ _ Hw).
Qed.

(** An answer that no query awaits. *)
Lemma consistent_stale w request :
  consistent w ->
  (forall key q, cache w !! key = Some q -> q_activity q <> Awaiting request) ->
  consistent (answered request w).
Proof.
  intros (A & B & C) Hfree.
  split; [|split]; cbn [answered cache inflight waits state nextRequest].
  - intros key q Hc. destruct (A key q Hc) as (? & ? & Hact).
    split; [assumption|]. split; [assumption|].
    pose proof (Hfree _ _ Hc) as Hf.
    destruct (q_activity q) as [|r|r m]; [exact I| |exact Hact].
    rewrite lookup_delete_ne; [exact Hact|]. intros <-. now apply Hf.
  - intros r key Hi. apply (B r key).
    destruct (decide (request = r)) as [<-|Hne].
    + now rewrite lookup_delete_eq in Hi.
    + now rewrite lookup_delete_ne in Hi.
  - exact C.
Qed.

Lemma woken_inflight w request r key :
  consistent w -> inflight w !! r = Some key ->
  (r < nextRequest w)%nat /\ delete request (waits w) !! r = None.
Proof.
  intros (A & B & C) Hi. destruct (B _ _ Hi) as [Hlt Hn]. split; [exact Hlt|].
  destruct (decide (request = r)) as [<-|Hne].
  - apply lookup_delete_eq.
  - now rewrite lookup_delete_ne.
Qed.

Lemma woken_waits w request r kd :
  consistent w -> delete request (waits w) !! r = Some kd ->
  (r < nextRequest w)%nat.
Proof.
  intros (A & B & C) Hw. apply (C r kd).
  destruct (decide (request = r)) as [<-|Hne].
  - now rewrite lookup_delete_eq in Hw.
  - now rewrite lookup_delete_ne in Hw.
Qed.

(** The end of a wait that no query is in. *)
Lemma consistent_woken_stale w request :
  consistent w ->
  (forall key q message,
      cache w !! key = Some q -> q_activity q <> Sleeping request message) ->
  consistent (woken request w).
Proof.
  intros Hc Hfree. pose proof Hc as (A & B & C).
  split; [|split]; cbn [woken cache inflight waits state nextRequest].
  - intros key q Hq. destruct (A key q Hq) as (? & ? & Hact).
    split; [assumption|]. split; [assumption|].
    pose proof (fun m => Hfree key q m Hq) as Hf.
    destruct (q_activity q) as [|r|r m]; [exact I|exact Hact|].
    destruct Hact as [d Hd]. exists d.
    rewrite lookup_delete_ne; [exact Hd|]. intros <-. now apply (Hf m).
  - intros r key. now apply woken_inflight.
  - intros r kd. now apply woken_waits.
Qed.

(** The query of [key], which was in the wait after [request], comes to
    rest. *)
Lemma consistent_woken_settle w request key delay q' :
  consistent w ->
  waits w !! request = Some (key, delay) ->
  blank key = false -> searched (state w) = true ->
  q_activity q' = Idle ->
  consistent (setQuery key q' (woken request w)).
Proof.
  intros Hc Hw Hb Hs Hq'. pose proof Hc as (A & B & C).
  split; [|split]; cbn [setQuery withCache woken cache inflight waits state nextRequest].
  - intros key' q Hq. destruct (decide (key = key')) as [<-|Hne].
    + rewrite lookup_insert_eq in Hq. injection Hq as <-. rewrite Hq'. auto.
    + rewrite lookup_insert_ne in Hq by exact Hne.
      destruct (A key' q Hq) as (? & ? & Hact).
      split; [assumption|]. split; [assumption|].
      destruct (q_activity q) as [|r|r m]; [exact I|exact Hact|].
      destruct Hact as [d Hd]. exists d.
      rewrite lookup_delete_ne; [exact Hd|]. intros <-. congruence.
  - intros r key'. now apply woken_inflight.
  - intros r kd. now apply woken_waits.
Qed.

Lemma consistent_respond client request o w :
  consistent w -> consistent (fst (respond client request o w)).
Proof.
  intros Hc. unfold respond.
  destruct (inflight w !! request) as [key|] eqn:Hin; [|exact Hc].
  cbv zeta. destruct (awaitsRequest request (queryOf w key)) eqn:Hlive.
  - apply awaitsRequest_true in Hlive.
    assert (Hq : cache w !! key = Some (queryOf w key))
      by (apply queryOf_stored; rewrite Hlive; discriminate).
    destruct Hc as (A & B & C). destruct (A _ _ Hq) as (Hb & Hs & _).
    destruct (queryFn_resume o) as [repos|message].
    + now apply consistent_settle.
    + destruct (_ || _).
      * now apply consistent_settle.
      * now apply (consistent_sleep _ _ _ _ message).
  - apply consistent_stale; [exact Hc|].
    intros key' q Hcq Hq. destruct Hc as (A & B & C).
    destruct (A _ _ Hcq) as (_ & _ & Hact). rewrite Hq in Hact.
    assert (key' = key) as -> by congruence.
    assert (E : queryOf w key = q) by (unfold queryOf; now rewrite Hcq).
    rewrite E in Hlive. apply awaitsRequest_true in Hq. congruence.
Qed.

(** A launch overwrites the query of its key. *)
Lemma launch_setQuery key q q0 w :
  blank key = false ->
  launch key q (setQuery key q0 w) = launch key q w.
Proof.
  intros Hb. rewrite !launch_text by exact Hb.
  cbn [setQuery withCache state cache inflight waits nextRequest].
  now rewrite insert_insert_eq.
Qed.

Lemma consistent_retryDelayEnds request w :
  consistent w -> consistent (fst (retryDelayEnds request w)).
Proof.
  intros Hc. unfold retryDelayEnds.
  destruct (waits w !! request) as [[key delay]|] eqn:Hw; [|exact Hc].
  cbv zeta. destruct (sleepsSince request (queryOf w key)) as [message|] eqn:Hlive.
  - apply sleepsSince_Some in Hlive.
    assert (Hq : cache w !! key = Some (queryOf w key))
      by (apply queryOf_stored; rewrite Hlive; discriminate).
    pose proof Hc as (A & B & C). destruct (A _ _ Hq) as (Hb & Hs & _).
    assert (Hmid : consistent (setQuery key (giveUp message (queryOf w key))
                                 (woken request w)))
      by now apply (consistent_woken_settle _ _ _ delay).
    destruct (q_retryCancelled (queryOf w key)); [exact Hmid|].
    pose proof (consistent_launch key (queryOf w key) _ Hmid Hb Hs) as L.
    now rewrite launch_setQuery in L.
  - apply consistent_woken_stale; [exact Hc|].
    intros key' q message Hcq Hq. destruct Hc as (A & B & C).
    destruct (A _ _ Hcq) as (_ & _ & Hact). rewrite Hq in Hact.
    destruct Hact as [d Hd].
    assert (key' = key) as -> by congruence.
    assert (E : queryOf w key = q) by (unfold queryOf; now rewrite Hcq).
    rewrite E in Hlive. apply sleepsSince_Some in Hq. congruence.
Qed.

Lemma consistent_changeText text w :
  consistent w -> consistent (changeText text w).
Proof.
  intros Hc. unfold changeText. case_bool_decide; [exact Hc|].
  now apply (consistent_alter cancelRetry).
Qed.

Lemma consistent_collect key w :
  consistent w -> consistent (collect key w).
Proof.
  intros Hc. unfold collect. destruct (_ && _); [|exact Hc].
  destruct Hc as (A & B & C). split; [|split; assumption].
  intros key' q Hq. cbn [withCache cache state inflight waits] in *.
  apply lookup_delete_Some in Hq as [_ Hq]. exact (A _ _ Hq).
Qed.

(** The "Try Again" button is on the page only for a stored query. *)
Lemma tryAgainShown_stored w :
  tryAgainShown w = true ->
  searched (state w) = true
  /\ cache w !! username (state w) = Some (currentQuery w).
Proof.
  unfold tryAgainShown, observe. cbn [isError isLoading]. intros H.
  apply andb_prop in H as [H Hf]. apply andb_prop in H as [Hs _].
  split; [exact Hs|].
  unfold currentQuery, queryOf in *.
  destruct (cache w !! username (state w)); [reflexivity | discriminate].
Qed.

Lemma consistent_step client w ev :
  consistent w -> consistent (fst (step client w ev)).
Proof.
  intros Hc.
  destruct ev as [text| |key| |request outcome|request|key]; cbn [step fst].
  - now apply consistent_changeText.
  - destruct (searchDisabled _ _); [exact Hc|].
    apply consistent_perform; [exact Hc| |]; unfold handleSearch;
      rewrite truthy_trim; destruct (blank _) eqn:Hb; cbn; auto.
    intros H. now contradiction H.
  - apply consistent_perform; [exact Hc| |]; unfold handleKeyPress, handleSearch;
      rewrite truthy_trim;
      destruct (bool_decide _); try destruct (blank _) eqn:Hb; cbn; auto;
      intros H; now contradiction H.
  - destruct (tryAgainShown w) eqn:Ht; [|exact Hc].
    destruct (tryAgainShown_stored w Ht) as [Hs Hq].
    apply consistent_perform; [exact Hc| |]; cbn; auto.
    intros _. split; [exact Hs|].
    destruct Hc as (A & _). now destruct (A _ _ Hq).
  - now apply consistent_respond.
  - now apply consistent_retryDelayEnds.
  - now apply consistent_collect.
Qed.

Lemma run_snoc client w evs ev :
  run client w (evs ++ [ev])
  = let r := run client w evs in
    let r' := step client (fst r) ev in
    (fst r', snd r ++ snd r').
Proof. unfold run. now rewrite foldl_snoc. Qed.

Lemma consistent_run client evs :
  consistent (fst (run client start evs)).
Proof.
  induction evs as [|ev evs IH] using rev_ind.
  - exact consistent_start.
  - rewrite run_snoc. cbn [fst]. now apply consistent_step.
Qed.

(** What is known of a query that awaits a request, in a consistent
    world. *)
Lemma awaiting_known w key request :
  consistent w ->
  q_activity (queryOf w key) = Awaiting request ->
  cache w !! key = Some (queryOf w key)
  /\ inflight w !! request = Some key
  /\ blank key = false
  /\ searched (state w) = true.
Proof.
  intros (A & B & C) Hq.
  assert (Hc : cache w !! key = Some (queryOf w key))
    by (apply queryOf_stored; rewrite Hq; discriminate).
  destruct (A _ _ Hc) as (Hb & Hs & Hact). rewrite Hq in Hact. auto.
Qed.

End FetchingInvariant.

(** ** The static variant: handlers *)

Section StaticFacts.
Import Static.

Lemma static_handleSearch_blank st :
  blank (username st) = true -> handleSearch st = (st, []).
Proof. intros H. unfold handleSearch. now rewrite truthy_trim, H. Qed.

Lemma static_handleSearch_text st :
  blank (username st) = false ->
  handleSearch st =
  ({| username := username st; repos := repos st; loading := true;
      searched := true |}, [SetTimeout 1000]).
Proof. intros H. unfold handleSearch. now rewrite truthy_trim, H. Qed.

Lemma static_schedule_nothing w : schedule w (state w, []) = w.
Proof. destruct w as [st n]. unfold schedule. cbn. f_equal. lia. Qed.

End StaticFacts.

(** ** Triggering a search *)

(** C1. With a blank or white-space-only text in the input, a button click
    and an Enter key press both leave everything as it was, in both
    variants: nothing is asked of the network or the timer, the loading
    state is not touched, and a page that showed the "not yet searched"
    empty state still shows it. *)
Theorem C1_blank_trigger_changes_nothing
    (host : Host) (client : Fetching.QueryClient) (t : Trigger)
    (wf : Fetching.World) (ws : Static.World) :
  blank (Fetching.username (Fetching.state wf)) = true ->
  blank (Static.username (Static.state ws)) = true ->
  Fetching.step client wf (fireFetching t) = (wf, [])
  /\ Static.step ws (fireStatic t) = ws
  /\ (Fetching.searched (Fetching.state wf) = false ->
      results (Fetching.view host (fst (Fetching.step client wf (fireFetching t)))) = None
      /\ emptyState (Fetching.view host (fst (Fetching.step client wf (fireFetching t))))
         = Some readyToExplore)
  /\ (Static.searched (Static.state ws) = false ->
      results (Static.render host (Static.state (Static.step ws (fireStatic t)))) = None
      /\ emptyState (Static.render host (Static.state (Static.step ws (fireStatic t))))
         = Some readyToExplore).
Proof.
  intros Hf Hs.
  assert (Ef : Fetching.step client wf (fireFetching t) = (wf, [])).
  { destruct t; cbn [fireFetching Fetching.step].
    - unfold Fetching.searchDisabled. rewrite truthy_trim, Hf.
      now rewrite orb_true_r.
    - rewrite fetching_handleKeyPress_Enter,
        (fetching_handleSearch_blank _ Hf).
      unfold Fetching.perform. cbn [fst snd].
      now rewrite withState_same. }
  assert (Es : Static.step ws (fireStatic t) = ws).
  { destruct t; cbn [fireStatic Static.step].
    - unfold Static.searchDisabled. rewrite truthy_trim, Hs.
      now rewrite orb_true_r.
    - change (Static.handleKeyPress (lit "Enter") (Static.state ws))
        with (Static.handleSearch (Static.state ws)).
      rewrite (static_handleSearch_blank _ Hs).
      apply static_schedule_nothing. }
  rewrite Ef, Es. cbn [fst].
  repeat split; trivial.
  - unfold Fetching.view, Fetching.render. cbn [results]. now rewrite H.
  - unfold Fetching.view, Fetching.render. cbn [emptyState]. now rewrite H.
  - unfold Static.render. cbn [results]. now rewrite H.
  - unfold Static.render. cbn [emptyState]. now rewrite H.
Qed.

Lemma C1_witness :
  Fetching.step Fetching.queryClient
    (fst (Fetching.step Fetching.queryClient Fetching.start
            (Fetching.Change [32; 9; 160]%N)))
    (Fetching.KeyPress (lit "Enter"))
  = (fst (Fetching.step Fetching.queryClient Fetching.start
            (Fetching.Change [32; 9; 160]%N)), [])
  /\ Static.step (Static.step Static.start (Static.Change [32; 9; 160]%N))
       (Static.KeyPress (lit "Enter"))
     = Static.step Static.start (Static.Change [32; 9; 160]%N).
Proof.
  pose proof (C1_blank_trigger_changes_nothing (fixedOffsetHost 0)
    Fetching.queryClient EnterKey
    (fst (Fetching.step Fetching.queryClient Fetching.start
            (Fetching.Change [32; 9; 160]%N)))
    (Static.step Static.start (Static.Change [32; 9; 160]%N))
    eq_refl eq_refl) as (A & B & _).
  split; [exact A | exact B].
Defined.

(** In the static variant a timer is pending only after a search. *)
Lemma static_timer_after_search evs :
  let w := Static.run Static.start evs in
  (0 < Static.timers w)%nat -> Static.searched (Static.state w) = true.
Proof.
  unfold Static.run.
  assert (G : forall w,
             ((0 < Static.timers w)%nat ->
              Static.searched (Static.state w) = true) ->
             (0 < Static.timers (foldl Static.step w evs))%nat ->
             Static.searched (Static.state (foldl Static.step w evs)) = true).
  { induction evs as [|ev evs IH]; intros w Hw; [exact Hw|].
    cbn [foldl]. apply IH.
    destruct ev as [text| |key|]; cbn [Static.step].
    - exact Hw.
    - destruct (Static.searchDisabled _); [exact Hw|].
      unfold Static.schedule, Static.handleSearch.
      destruct (negb _); cbn; [rewrite Nat.add_0_r; exact Hw | reflexivity].
    - unfold Static.schedule, Static.handleKeyPress, Static.handleSearch.
      destruct (bool_decide _); [destruct (negb _)|]; cbn;
        try (rewrite Nat.add_0_r; exact Hw); reflexivity.
    - destruct (Static.timers w) eqn:E.
      + intros H. rewrite E in H. lia.
      + cbn. intros _. apply Hw. lia. }
  apply G. cbn. lia.
Qed.

(** The button is guarded: while loading, a click changes nothing. *)
Lemma click_while_loading_static ws :
  Static.loading (Static.state ws) = true -> Static.step ws Static.ClickSearch = ws.
Proof.
  intros H. cbn [Static.step]. unfold Static.searchDisabled. now rewrite H.
Qed.

Lemma click_while_loading_fetching client wf :
  Fetching.isLoading (Fetching.observe wf) = true ->
  Fetching.step client wf Fetching.ClickSearch = (wf, []).
Proof.
  intros H. cbn [Fetching.step]. unfold Fetching.searchDisabled. now rewrite H.
Qed.

(** The Enter key is not: whatever the loading state, a non-blank text makes
    [handleKeyPress] run the whole of [handleSearch]. *)
Lemma enter_ignores_loading_static st :
  blank (Static.username st) = false ->
  Static.handleKeyPress (lit "Enter") st
  = ({| Static.username := Static.username st; Static.repos := Static.repos st;
        Static.loading := true; Static.searched := true |},
     [Static.SetTimeout 1000]).
Proof. intros H. now apply static_handleSearch_text. Qed.

Lemma enter_ignores_loading_fetching st :
  blank (Fetching.username st) = false ->
  Fetching.handleKeyPress (lit "Enter") st
  = ({| Fetching.username := Fetching.username st; Fetching.searched := true |},
     [Fetching.Refetch]).
Proof. intros H. now apply fetching_handleSearch_text. Qed.

(** In the fetching variant it is the query, not the component, that keeps
    the second call of [refetch()] from reaching the network: a query that
    is fetching without data hands back the running fetch (and lets its
    retries go on, should they have been cancelled). *)
Lemma refetch_while_loading_is_shared w :
  Fetching.isFetching (Fetching.q_activity (Fetching.currentQuery w)) = true ->
  Fetching.q_data (Fetching.currentQuery w) = None ->
  snd (Fetching.refetch w) = []
  /\ Fetching.inflight (fst (Fetching.refetch w)) = Fetching.inflight w
  /\ Fetching.nextRequest (fst (Fetching.refetch w)) = Fetching.nextRequest w
  /\ (Fetching.q_retryCancelled (Fetching.currentQuery w) = false ->
      Fetching.refetch w = (w, [])).
Proof.
  intros Hf Hd. unfold Fetching.refetch. rewrite Hd.
  destruct (Fetching.q_activity (Fetching.currentQuery w)) eqn:Ha;
    [discriminate| |]; cbn [fst snd Fetching.withCache Fetching.inflight
                             Fetching.nextRequest];
    (repeat split; try reflexivity); intros Hc;
    rewrite alter_id, withCache_same; try reflexivity;
    intros q' Hq'; unfold Fetching.currentQuery, Fetching.queryOf in Hc;
    rewrite Hq' in Hc; cbn in Hc; destruct q'; cbn in Hc; now subst.
Qed.

(** Two requests in flight at once in the fetching variant: the text is
    edited while the first request is out, and the query of the new text is
    idle. *)
Lemma two_requests_in_flight :
  let r := Fetching.run Fetching.queryClient Fetching.start
             [Fetching.Change (lit "a"); Fetching.ClickSearch;
              Fetching.Change (lit "ab"); Fetching.ClickSearch] in
  snd r = [Fetching.Fetch 0 (Fetching.requestUrl (lit "a"));
           Fetching.Fetch 1 (Fetching.requestUrl (lit "ab"))]
  /\ size (Fetching.inflight (fst r)) = 2%nat.
Proof. vm_compute. split; reflexivity. Qed.

(** C2 does not hold of the code: with a search under way in the static
    variant (loading is true, one timer pending) the button is disabled and a
    click does nothing, but an Enter key press runs [handleSearch] again and
    a second timer is pending.  In the fetching variant the key press calls
    [refetch()] again while [isLoading] is true. *)
Theorem C2_enter_key_retriggers_while_loading :
  let ws := Static.run Static.start
              [Static.Change (lit "octocat"); Static.ClickSearch] in
  let wf := fst (Fetching.run Fetching.queryClient Fetching.start
                   [Fetching.Change (lit "octocat"); Fetching.ClickSearch]) in
  Static.loading (Static.state ws) = true
  /\ Static.timers ws = 1%nat
  /\ Static.step ws Static.ClickSearch = ws
  /\ Static.timers (Static.step ws (Static.KeyPress (lit "Enter"))) = 2%nat
  /\ Fetching.isLoading (Fetching.observe wf) = true
  /\ snd (Fetching.handleKeyPress (lit "Enter") (Fetching.state wf))
     = [Fetching.Refetch].
Proof. vm_compute. repeat split; reflexivity. Qed.

(** ** A fetch that fails *)

Lemma currentQuery_stored w q :
  Fetching.cache w !! Fetching.username (Fetching.state w) = Some q ->
  Fetching.currentQuery w = q.
Proof.
  intros H. unfold Fetching.currentQuery, Fetching.queryOf. now rewrite H.
Qed.

(** The page that shows a failure. *)
Lemma failed_page host w message :
  Fetching.searched (Fetching.state w) = true ->
  Fetching.q_status (Fetching.currentQuery w) = Fetching.Failed ->
  Fetching.q_activity (Fetching.currentQuery w) = Fetching.Idle ->
  Fetching.q_error (Fetching.currentQuery w) = Some message ->
  results (Fetching.view host w)
  = Some (ErrorPanel
            (lit "Error fetching repositories: "
             ++ orElseText (Some message) (lit "Unknown error"))
            (lit "Try Again"))
  /\ Fetching.tryAgainShown w = true.
Proof.
  intros Hs Hst Ha He.
  unfold Fetching.view, Fetching.render, Fetching.tryAgainShown, Fetching.observe.
  cbn [results Fetching.isLoading Fetching.isError Fetching.error].
  rewrite Hs, Hst, Ha, He. split; reflexivity.
Qed.

(** "Try Again" on a page that shows a failure for a user name that is not
    blank. *)
Lemma try_again_refetches client w :
  Fetching.tryAgainShown w = true ->
  Fetching.q_activity (Fetching.currentQuery w) = Fetching.Idle ->
  blank (Fetching.username (Fetching.state w)) = false ->
  Fetching.step client w Fetching.ClickTryAgain
  = ({| Fetching.state := Fetching.state w;
        Fetching.cache :=
          <[Fetching.username (Fetching.state w) :=
              Fetching.awaiting (Fetching.nextRequest w)
                (Fetching.fetchState (Fetching.currentQuery w))]>
            (Fetching.cache w);
        Fetching.inflight :=
          <[Fetching.nextRequest w := Fetching.username (Fetching.state w)]>
            (Fetching.inflight w);
        Fetching.waits := Fetching.waits w;
        Fetching.nextRequest := S (Fetching.nextRequest w) |},
     [Fetching.Fetch (Fetching.nextRequest w)
        (Fetching.requestUrl (Fetching.username (Fetching.state w)))]).
Proof.
  intros Ht Ha Hb. cbn [Fetching.step]. rewrite Ht.
  unfold Fetching.perform, Fetching.handleTryAgain. cbn [fst snd].
  rewrite withState_same. unfold Fetching.refetch. rewrite Ha.
  now rewrite launch_text.
Qed.

(** A rejection of [queryFn] for the request that the query of the text in
    the input awaits: what the query does with it, and what the page
    shows. *)
Lemma rejected_fetch
    (host : Host) (client : Fetching.QueryClient) (w : Fetching.World)
    (request : nat) (o : Fetching.Outcome) (message : jsstring) :
  let key := Fetching.username (Fetching.state w) in
  let q := Fetching.currentQuery w in
  let r := Fetching.step client w (Fetching.Respond request o) in
  let panel := ErrorPanel
                 (lit "Error fetching repositories: "
                  ++ orElseText (Some message) (lit "Unknown error"))
                 (lit "Try Again") in
  consistent w ->
  Fetching.q_activity q = Fetching.Awaiting request ->
  Fetching.queryFn_resume o = Fetching.Rejected message ->
  snd r = []
  /\ (Fetching.q_retryCancelled q = false ->
      (Fetching.q_failures q < Fetching.retry client)%nat ->
      Fetching.view host (fst r) = Fetching.view host w
      /\ Fetching.q_failures (Fetching.currentQuery (fst r))
         = S (Fetching.q_failures q)
      /\ Fetching.waits (fst r) !! request
         = Some (key, Fetching.retryDelay (Fetching.q_failures q))
      /\ (let r' := Fetching.step client (fst r)
                      (Fetching.RetryDelayEnds request) in
          snd r' = [Fetching.Fetch (Fetching.nextRequest w)
                      (Fetching.requestUrl key)]
          /\ Fetching.view host (fst r') = Fetching.view host w)
      /\ (forall text, text <> key ->
          let r' := Fetching.run client (fst r)
                      [Fetching.Change text;
                       Fetching.RetryDelayEnds request;
                       Fetching.Change key] in
          snd r' = [] /\ results (Fetching.view host (fst r')) = Some panel))
  /\ (Fetching.q_retryCancelled q = true
      \/ (Fetching.retry client <= Fetching.q_failures q)%nat ->
      results (Fetching.view host (fst r)) = Some panel
      /\ snd (Fetching.step client (fst r) Fetching.ClickTryAgain)
         = [Fetching.Fetch (Fetching.nextRequest w) (Fetching.requestUrl key)]
      /\ Fetching.username
           (Fetching.state (fst (Fetching.step client (fst r) Fetching.ClickTryAgain)))
         = key).
Proof.
  intros key q r panel Hc Hq Hrej.
  destruct (awaiting_known w key request Hc Hq) as (Hst & Hin & Hb & Hs).
  assert (Hr : r = Fetching.respond client request o w) by reflexivity.
  rewrite (respond_live client request o w key Hin Hq), Hrej in Hr.
  change (Fetching.queryOf w key) with q in Hr.
  split; [rewrite Hr; now destruct (_ || _)|]. split.
  - intros Hflag Hlt. apply Nat.ltb_lt in Hlt. rewrite Hflag, Hlt in Hr.
    cbn [orb negb] in Hr.
    set (w1 := Fetching.sleep request key
                 (Fetching.retryDelay (Fetching.q_failures q))
                 (Fetching.setQuery key (Fetching.sleeping request message q)
                    (Fetching.answered request w))) in *.
    replace (fst r) with w1 by now rewrite Hr.
    assert (Hq1 : Fetching.currentQuery w1 = Fetching.sleeping request message q).
    { apply currentQuery_stored. apply lookup_insert_eq. }
    assert (Hw1 : Fetching.waits w1 !! request
                  = Some (key, Fetching.retryDelay (Fetching.q_failures q)))
      by apply lookup_insert_eq.
    split; [|split; [|split; [exact Hw1|split]]].
    + apply view_same; rewrite ?Hq1; try reflexivity.
      fold q. cbn [Fetching.sleeping Fetching.q_activity]. now rewrite Hq.
    + now rewrite Hq1.
    + cbv zeta. cbn [Fetching.step].
      rewrite (retryDelayEnds_live request w1 key _ message Hw1)
        by (change (Fetching.queryOf w1 key) with (Fetching.currentQuery w1);
            now rewrite Hq1).
      change (Fetching.queryOf w1 key) with (Fetching.currentQuery w1).
      rewrite Hq1. cbn [Fetching.sleeping Fetching.q_retryCancelled].
      rewrite Hflag, launch_text by exact Hb. cbn [fst snd]. split; [reflexivity|].
      apply view_same; cbn [Fetching.state Fetching.woken w1 Fetching.sleep
                              Fetching.setQuery Fetching.withCache
                              Fetching.answered]; [reflexivity|..];
        (erewrite currentQuery_stored by apply lookup_insert_eq);
        fold q; cbn; try reflexivity. now rewrite Hq.
    + intros text Hne. cbv zeta. unfold Fetching.run.
      cbn [foldl fst snd app Fetching.step].
      assert (E1 : Fetching.changeText text w1
                   = {| Fetching.state :=
                          {| Fetching.username := text; Fetching.searched := true |};
                        Fetching.cache :=
                          <[key := Fetching.cancelRetry
                                     (Fetching.sleeping request message q)]>
                            (Fetching.cache w);
                        Fetching.inflight := delete request (Fetching.inflight w);
                        Fetching.waits := Fetching.waits w1;
                        Fetching.nextRequest := Fetching.nextRequest w |}).
      { unfold Fetching.changeText.
        rewrite bool_decide_eq_false_2 by exact Hne.
        cbn [w1 Fetching.sleep Fetching.setQuery Fetching.withCache
             Fetching.answered Fetching.state Fetching.cache Fetching.inflight
             Fetching.waits Fetching.nextRequest].
        fold key. rewrite alter_insert_eq, Hs. reflexivity. }
      rewrite E1. clear E1.
      match goal with |- context [Fetching.retryDelayEnds request ?x] =>
        set (w2 := x) end.
      assert (Hq2 : Fetching.queryOf w2 key
                    = Fetching.cancelRetry (Fetching.sleeping request message q)).
      { unfold Fetching.queryOf, w2. cbn [Fetching.cache].
        now rewrite lookup_insert_eq. }
      rewrite (retryDelayEnds_live request w2 key _ message Hw1)
        by now rewrite Hq2.
      rewrite Hq2.
      cbn [Fetching.cancelRetry Fetching.q_retryCancelled fst snd].
      split; [reflexivity|].
      unfold Fetching.changeText.
      rewrite bool_decide_eq_false_2
        by (cbn; intros E; apply Hne; now symmetry).
      apply failed_page;
        cbn [Fetching.state Fetching.searched Fetching.username]; try reflexivity;
        (erewrite currentQuery_stored;
         [|cbn [Fetching.state Fetching.username Fetching.cache
                Fetching.setQuery Fetching.withCache Fetching.woken w2];
           rewrite lookup_alter_ne by exact Hne; apply lookup_insert_eq]);
        reflexivity.
  - intros Hfin.
    assert (Hcase : Fetching.q_retryCancelled q
                    || negb (Fetching.q_failures q <? Fetching.retry client)%nat
                    = true).
    { destruct Hfin as [-> | Hge]; [reflexivity|].
      apply Nat.ltb_ge in Hge. rewrite Hge. apply orb_true_r. }
    rewrite Hcase in Hr.
    set (w1 := Fetching.setQuery key (Fetching.giveUp message q)
                 (Fetching.answered request w)) in *.
    replace (fst r) with w1 by now rewrite Hr.
    assert (Hq1 : Fetching.currentQuery w1 = Fetching.giveUp message q).
    { apply currentQuery_stored. apply lookup_insert_eq. }
    destruct (failed_page host w1 message) as [Hpage Hshown];
      rewrite ?Hq1; try reflexivity; [exact Hs|].
    split; [exact Hpage|].
    rewrite (try_again_refetches client w1 Hshown)
      by (rewrite ?Hq1; first [reflexivity | exact Hb]).
    split; reflexivity.
Qed.

(** An answer asks nothing of the network. *)
Lemma respond_no_effect client request o w :
  snd (Fetching.respond client request o w) = [].
Proof.
  unfold Fetching.respond.
  destruct (Fetching.inflight w !! request); [|reflexivity].
  cbv zeta. destruct (Fetching.awaitsRequest _ _); [|reflexivity].
  destruct (Fetching.queryFn_resume o); [reflexivity|].
  now destruct (_ || _).
Qed.

(** An answer to any other request leaves the page as it was. *)
Lemma stale_answer_keeps_page host client w request o :
  Fetching.q_activity (Fetching.currentQuery w) <> Fetching.Awaiting request ->
  Fetching.view host (fst (Fetching.step client w (Fetching.Respond request o)))
  = Fetching.view host w.
Proof.
  intros Hne. cbn [Fetching.step]. unfold Fetching.respond.
  destruct (Fetching.inflight w !! request) as [key|] eqn:Hin; [|reflexivity].
  cbv zeta.
  destruct (Fetching.awaitsRequest request (Fetching.queryOf w key)) eqn:Hlive;
    [|now apply view_ext].
  apply awaitsRequest_true in Hlive.
  assert (Hk : key <> Fetching.username (Fetching.state w))
    by (intros ->; now apply Hne).
  destruct (Fetching.queryFn_resume o) as [repos|message];
    [|destruct (_ || _)]; apply view_ext;
    cbn [fst Fetching.state Fetching.cache Fetching.sleep Fetching.setQuery
         Fetching.withCache Fetching.answered];
    try reflexivity; now rewrite lookup_insert_ne.
Qed.

(** C3 (amended).  A response whose status is not 2xx makes [queryFn] throw
    "GitHub API error: <status>", and the answer itself asks nothing of the
    network.  When it answers the request that the query of the text in the
    input awaits, then: while fewer failures than the client's [retry] were
    counted and the retries are not cancelled, the failure is counted, the
    page stays as it was and a wait of [retryDelay] milliseconds begins; at
    its end the same request is issued again, without any user action, and
    the page still is as it was; but when the text is edited during the wait,
    nothing is issued at its end, and with the user name typed again the
    page shows the error.  Once the retries are used up, or when they were
    cancelled by an edit of the text, the page shows the message with the
    status code and the "Try Again" button, and a click on it issues the
    same request for the same user name.  An answer to any other request
    leaves the page as it was. *)
Theorem C3_failed_fetch_retried_then_shown
    (host : Host) (client : Fetching.QueryClient) (evs : list Fetching.Event)
    (request : nat) (status : N) (body : list Fetching.GitHubRepo) :
  let w := fst (Fetching.run client Fetching.start evs) in
  let key := Fetching.username (Fetching.state w) in
  let q := Fetching.currentQuery w in
  let r := Fetching.step client w
             (Fetching.Respond request (Fetching.HttpResponse status body)) in
  let message := lit "GitHub API error: " ++ numberToString status in
  let panel := ErrorPanel (lit "Error fetching repositories: " ++ message)
                          (lit "Try Again") in
  Fetching.ok status = false ->
  Fetching.queryFn_resume (Fetching.HttpResponse status body)
  = Fetching.Rejected message
  /\ snd r = []
  /\ (Fetching.q_activity q = Fetching.Awaiting request ->
      Fetching.q_retryCancelled q = false ->
      (Fetching.q_failures q < Fetching.retry client)%nat ->
      Fetching.view host (fst r) = Fetching.view host w
      /\ Fetching.q_failures (Fetching.currentQuery (fst r))
         = S (Fetching.q_failures q)
      /\ Fetching.waits (fst r) !! request
         = Some (key, Fetching.retryDelay (Fetching.q_failures q))
      /\ (let r' := Fetching.step client (fst r)
                      (Fetching.RetryDelayEnds request) in
          snd r' = [Fetching.Fetch (Fetching.nextRequest w)
                      (Fetching.requestUrl key)]
          /\ Fetching.view host (fst r') = Fetching.view host w)
      /\ (forall text, text <> key ->
          let r' := Fetching.run client (fst r)
                      [Fetching.Change text;
                       Fetching.RetryDelayEnds request;
                       Fetching.Change key] in
          snd r' = [] /\ results (Fetching.view host (fst r')) = Some panel))
  /\ (Fetching.q_activity q = Fetching.Awaiting request ->
      Fetching.q_retryCancelled q = true
      \/ (Fetching.retry client <= Fetching.q_failures q)%nat ->
      results (Fetching.view host (fst r)) = Some panel
      /\ snd (Fetching.step client (fst r) Fetching.ClickTryAgain)
         = [Fetching.Fetch (Fetching.nextRequest w) (Fetching.requestUrl key)]
      /\ Fetching.username
           (Fetching.state (fst (Fetching.step client (fst r) Fetching.ClickTryAgain)))
         = key)
  /\ (Fetching.q_activity q <> Fetching.Awaiting request ->
      Fetching.view host (fst r) = Fetching.view host w).
Proof.
  intros w key q r message panel Hok.
  pose proof (queryFn_resume_not_ok status body Hok) as Hthrow.
  split; [exact Hthrow|]. split; [apply respond_no_effect|].
  split; [|split].
  - intros Hq.
    exact (proj1 (proj2 (rejected_fetch host client w request _ message
                           (consistent_run client evs) Hq Hthrow))).
  - intros Hq.
    exact (proj2 (proj2 (rejected_fetch host client w request _ message
                           (consistent_run client evs) Hq Hthrow))).
  - intros Hne. now apply stale_answer_keeps_page.
Qed.

Lemma C3_witness :
  let evs := [Fetching.Change (lit "octocat"); Fetching.ClickSearch;
              Fetching.Respond 0 (Fetching.HttpResponse 404 []);
              Fetching.RetryDelayEnds 0;
              Fetching.Respond 1 (Fetching.HttpResponse 500 []);
              Fetching.RetryDelayEnds 1;
              Fetching.Respond 2 (Fetching.HttpResponse 404 []);
              Fetching.RetryDelayEnds 2] in
  let w := fst (Fetching.run Fetching.queryClient Fetching.start evs) in
  let r := Fetching.step Fetching.queryClient w
             (Fetching.Respond 3 (Fetching.HttpResponse 403 [])) in
  snd r = []
  /\ results (Fetching.view (fixedOffsetHost 0) (fst r))
     = Some (ErrorPanel (lit "Error fetching repositories: GitHub API error: 403")
                        (lit "Try Again"))
  /\ snd (Fetching.step Fetching.queryClient (fst r) Fetching.ClickTryAgain)
     = [Fetching.Fetch 4 (Fetching.requestUrl (lit "octocat"))].
Proof.
  intros evs w r.
  pose proof (C3_failed_fetch_retried_then_shown (fixedOffsetHost 0)
                Fetching.queryClient evs 3 403 []
                ltac:(vm_compute; reflexivity)) as (_ & A & _ & H & _).
  destruct (H ltac:(vm_compute; reflexivity) ltac:(right; vm_compute; lia))
    as (B & C & _).
  split; [exact A|]. split; [exact B | exact C].
Defined.

(** C3 as stated fails: with the client of the source, the first 404 brings
    no error message and no retry button (the spinner stays), and at the end
    of the wait the request is issued again without any user action. *)
Lemma C3_counterexample :
  let w := fst (Fetching.run Fetching.queryClient Fetching.start
                  [Fetching.Change (lit "octocat"); Fetching.ClickSearch]) in
  let r := Fetching.step Fetching.queryClient w
             (Fetching.Respond 0 (Fetching.HttpResponse 404 [])) in
  Fetching.ok 404 = false
  /\ results (Fetching.view (fixedOffsetHost 0) (fst r)) = Some Spinner
  /\ Fetching.tryAgainShown (fst r) = false
  /\ snd (Fetching.step Fetching.queryClient (fst r) (Fetching.RetryDelayEnds 0))
     = [Fetching.Fetch 1 (Fetching.requestUrl (lit "octocat"))].
Proof. vm_compute. repeat split; reflexivity. Qed.

(** ** A fetch that succeeds *)


Lemma static_cards_are_rendered_records host st :
  cardsOf (Static.render host st)
  = if Static.searched st && negb (Static.loading st)
    then map (Static.renderCard host) (Static.repos st)
    else [].
Proof.
  unfold cardsOf, Static.render. cbn [results].
  destruct (Static.searched st), (Static.loading st); reflexivity.
Qed.

(** A 2xx answer to the request that the query of the text in the input
    awaits. *)
Lemma success_page host client w request status body :
  Fetching.searched (Fetching.state w) = true ->
  Fetching.inflight w !! request = Some (Fetching.username (Fetching.state w)) ->
  Fetching.q_activity (Fetching.currentQuery w) = Fetching.Awaiting request ->
  Fetching.ok status = true ->
  let r := Fetching.step client w
             (Fetching.Respond request (Fetching.HttpResponse status body)) in
  r = (Fetching.setQuery (Fetching.username (Fetching.state w))
         (Fetching.succeed body) (Fetching.answered request w), [])
  /\ Fetching.observe (fst r)
     = {| Fetching.data := Some body; Fetching.isLoading := false;
          Fetching.isError := false; Fetching.error := None |}
  /\ results (Fetching.view host (fst r))
     = Some (RepoSection
               (Fetching.avatarSrc (Fetching.state w)
                  {| Fetching.data := Some body; Fetching.isLoading := false;
                     Fetching.isError := false; Fetching.error := None |})
               (Fetching.username (Fetching.state w) ++ lit "'s Repositories")
               (numberToString (N.of_nat (length body)) ++ lit " repositories")
               (map (Fetching.renderCard host) body)
               (match body with
                | [] => Some noRepositoriesFound
                | _ :: _ => None
                end)).
Proof.
  intros Hs Hin Hreq Hok r.
  assert (Hr : r = Fetching.respond client request
                     (Fetching.HttpResponse status body) w) by reflexivity.
  rewrite (respond_live client request _ w _ Hin Hreq) in Hr.
  rewrite (queryFn_resume_ok status body Hok) in Hr.
  assert (Hobs : Fetching.observe (fst r)
     = {| Fetching.data := Some body; Fetching.isLoading := false;
          Fetching.isError := false; Fetching.error := None |}).
  { rewrite Hr. cbn [fst]. unfold Fetching.observe.
    now rewrite (currentQuery_stored _ (Fetching.succeed body))
      by apply lookup_insert_eq. }
  split; [exact Hr|]. split; [exact Hobs|].
  unfold Fetching.view, Fetching.render. rewrite Hobs.
  replace (Fetching.state (fst r)) with (Fetching.state w) by now rewrite Hr.
  cbn [results Fetching.isLoading Fetching.isError Fetching.data default].
  rewrite Hs. reflexivity.
Qed.

(** C4 (amended).  After a successful response to the request that the
    query of the text in the input awaits, the page shows one card per
    record of the response, in the order of the response (so N records give
    exactly N cards).  A response to any other request (one issued for a
    text that was edited since, or one that a later search has replaced)
    leaves the page as it was.  In the static variant the end of the timer
    plays the part of the response: the page then shows one card per record
    of the fixed list, in its order. *)
Theorem C4_one_card_per_record_in_order
    (host : Host) (client : Fetching.QueryClient) (evs : list Fetching.Event)
    (request : nat) (status : N) (body : list Fetching.GitHubRepo)
    (evs' : list Static.Event) :
  let w := fst (Fetching.run client Fetching.start evs) in
  let ws := Static.run Static.start evs' in
  let page := Fetching.view host
                (fst (Fetching.step client w
                        (Fetching.Respond request
                           (Fetching.HttpResponse status body)))) in
  let page' := Static.render host
                 (Static.state (Static.step ws Static.TimerFires)) in
  Fetching.ok status = true ->
  (0 < Static.timers ws)%nat ->
  (Fetching.q_activity (Fetching.currentQuery w) = Fetching.Awaiting request ->
   cardsOf page = map (Fetching.renderCard host) body
   /\ length (cardsOf page) = length body
   /\ (forall i repo, body !! i = Some repo ->
       cardsOf page !! i = Some (Fetching.renderCard host repo)))
  /\ (Fetching.q_activity (Fetching.currentQuery w) <> Fetching.Awaiting request ->
      page = Fetching.view host w)
  /\ (cardsOf page' = map (Static.renderCard host) Static.dummyRepos
      /\ length (cardsOf page') = 6%nat
      /\ (forall i repo, Static.dummyRepos !! i = Some repo ->
          cardsOf page' !! i = Some (Static.renderCard host repo))).
Proof.
  intros w ws page page' Hok Ht.
  split; [|split].
  - intros Hreq.
    destruct (awaiting_known w _ request (consistent_run client evs) Hreq)
      as (_ & Hin & _ & Hs).
    destruct (success_page host client w request status body Hs Hin Hreq Hok)
      as (_ & _ & Hres).
    assert (Hc : cardsOf page = map (Fetching.renderCard host) body).
    { unfold cardsOf, page. now rewrite Hres. }
    split; [exact Hc|]. rewrite Hc.
    split; [apply length_map|]. intros i repo Hi.
    now rewrite list_lookup_fmap, Hi.
  - intros Hne. now apply stale_answer_keeps_page.
  - assert (Hc' : cardsOf page' = map (Static.renderCard host) Static.dummyRepos).
    { pose proof (static_timer_after_search evs' Ht) as Hs'. fold ws in Hs'.
      unfold page'. rewrite static_cards_are_rendered_records.
      cbn [Static.step]. destruct (Static.timers ws); [lia|].
      cbn [Static.state Static.timerCallback Static.searched Static.loading
           Static.repos]. now rewrite Hs'. }
    split; [exact Hc'|]. rewrite Hc'.
    split; [reflexivity|]. intros i repo Hi.
    now rewrite list_lookup_fmap, Hi.
Qed.

Lemma C4_witness :
  let evs := [Fetching.Change (lit "octocat"); Fetching.ClickSearch] in
  let w := fst (Fetching.run Fetching.queryClient Fetching.start evs) in
  let body := [sampleRepo 1 "a" 5; sampleRepo 2 "b" 0] in
  let page := Fetching.view (fixedOffsetHost 0)
                (fst (Fetching.step Fetching.queryClient w
                        (Fetching.Respond 0 (Fetching.HttpResponse 200 body)))) in
  map cardTitle (cardsOf page) = [lit "a"; lit "b"]
  /\ length (cardsOf page) = 2%nat.
Proof.
  intros evs w body page.
  destruct (C4_one_card_per_record_in_order (fixedOffsetHost 0)
              Fetching.queryClient evs 0 200 body
              [Static.Change (lit "octocat"); Static.ClickSearch]
              ltac:(vm_compute; reflexivity) ltac:(vm_compute; lia))
    as (H & _).
  destruct (H ltac:(vm_compute; reflexivity)) as (A & B & _).
  split; [| exact B].
  unfold page, w. rewrite A. reflexivity.
Defined.

(** C4 as stated fails: "a" is searched and the text is edited to "ab"
    before the answer comes; the answer is a successful response with two
    records, and the page shows no card. *)
Lemma C4_counterexample :
  let w := fst (Fetching.run Fetching.queryClient Fetching.start
                  [Fetching.Change (lit "a"); Fetching.ClickSearch;
                   Fetching.Change (lit "ab")]) in
  let body := [sampleRepo 1 "a" 5; sampleRepo 2 "b" 0] in
  let page := Fetching.view (fixedOffsetHost 0)
                (fst (Fetching.step Fetching.queryClient w
                        (Fetching.Respond 0 (Fetching.HttpResponse 200 body)))) in
  Fetching.inflight w !! 0%nat = Some (lit "a")
  /\ Fetching.ok 200 = true
  /\ length body = 2%nat
  /\ cardsOf page = [].
Proof. vm_compute. repeat split; reflexivity. Qed.

(** What every run of the static variant keeps: loading needs a pending
    timer, and a search that is not loading any more holds the fixed list. *)
Lemma static_run_invariant evs :
  let w := Static.run Static.start evs in
  (Static.loading (Static.state w) = true -> (0 < Static.timers w)%nat)
  /\ (Static.searched (Static.state w) = true ->
      Static.loading (Static.state w) = true
      \/ Static.repos (Static.state w) = Static.dummyRepos).
Proof.
  cbv zeta. unfold Static.run.
  induction evs as [|ev evs [IH1 IH2]] using rev_ind.
  - cbn. split; discriminate.
  - rewrite foldl_snoc. set (w := foldl Static.step Static.start evs) in *.
    destruct ev as [text| |key|]; cbn [Static.step].
    + cbn. split; assumption.
    + destruct (Static.searchDisabled _); [split; assumption|].
      unfold Static.schedule, Static.handleSearch.
      destruct (negb _); cbn.
      * rewrite Nat.add_0_r. split; assumption.
      * split; [lia | auto].
    + unfold Static.schedule, Static.handleKeyPress, Static.handleSearch.
      destruct (bool_decide _); [destruct (negb _)|]; cbn;
        rewrite ?Nat.add_0_r; try (split; assumption).
      split; [lia | auto].
    + destruct (Static.timers w) eqn:E.
      * split; [intros Hl; specialize (IH1 Hl); lia | exact IH2].
      * cbn. split; [discriminate | auto].
Qed.

(** C5 (amended).  After a successful response with an empty list to the
    request that the query of the text in the input awaits, the page shows
    the "No public repositories found" placeholder and no card, and it is
    the repository section that is drawn, not the error panel; a non-empty
    list brings no placeholder.  A response to any other request leaves the
    page as it was.  The static variant never draws the placeholder. *)
Theorem C5_empty_list_shows_placeholder
    (host : Host) (client : Fetching.QueryClient) (evs : list Fetching.Event)
    (request : nat) (status : N) (body : list Fetching.GitHubRepo)
    (evs' : list Static.Event) :
  let w := fst (Fetching.run client Fetching.start evs) in
  let w' := fst (Fetching.step client w
                   (Fetching.Respond request
                      (Fetching.HttpResponse status body))) in
  Fetching.ok status = true ->
  (Fetching.q_activity (Fetching.currentQuery w) = Fetching.Awaiting request ->
   (body = [] ->
    results (Fetching.view host w')
    = Some (RepoSection
              (placeholderAvatar (Fetching.username (Fetching.state w)))
              (Fetching.username (Fetching.state w) ++ lit "'s Repositories")
              (lit "0 repositories") [] (Some noRepositoriesFound))
    /\ Fetching.isError (Fetching.observe w') = false)
   /\ (body <> [] ->
       exists a h c,
         results (Fetching.view host w')
         = Some (RepoSection a h c (map (Fetching.renderCard host) body) None)))
  /\ (Fetching.q_activity (Fetching.currentQuery w) <> Fetching.Awaiting request ->
      Fetching.view host w' = Fetching.view host w)
  /\ (forall a h c cards placeholder,
        results (Static.render host (Static.state (Static.run Static.start evs')))
        = Some (RepoSection a h c cards placeholder) ->
        placeholder = None /\ length cards = 6%nat).
Proof.
  intros w w' Hok. split; [|split].
  - intros Hreq.
    destruct (awaiting_known w _ request (consistent_run client evs) Hreq)
      as (_ & Hin & _ & Hs).
    destruct (success_page host client w request status body Hs Hin Hreq Hok)
      as (_ & Hobs & Hres).
    fold w' in Hobs, Hres. split.
    + intros ->. rewrite Hres, Hobs. split; reflexivity.
    + intros Hne. rewrite Hres. destruct body; [congruence|]. eauto.
  - intros Hne. now apply stale_answer_keeps_page.
  - intros a h c cards placeholder.
    destruct (static_run_invariant evs') as [_ I2].
    unfold Static.render. cbn [results].
    destruct (Static.searched _); [|discriminate].
    destruct (Static.loading _); [discriminate|].
    destruct (I2 eq_refl) as [Hl|Hr]; [discriminate|]. rewrite Hr.
    intros [= _ _ _ <- <-]. split; reflexivity.
Qed.

Lemma C5_witness :
  let evs := [Fetching.Change (lit "octocat"); Fetching.ClickSearch] in
  let w := fst (Fetching.run Fetching.queryClient Fetching.start evs) in
  results (Fetching.view (fixedOffsetHost 0)
             (fst (Fetching.step Fetching.queryClient w
                     (Fetching.Respond 0 (Fetching.HttpResponse 200 [])))))
  = Some (RepoSection
            (placeholderAvatar (lit "octocat"))
            (lit "octocat's Repositories")
            (lit "0 repositories") [] (Some noRepositoriesFound)).
Proof.
  intros evs w.
  destruct (C5_empty_list_shows_placeholder (fixedOffsetHost 0)
              Fetching.queryClient evs 0 200 [] []
              ltac:(vm_compute; reflexivity))
    as (H & _).
  destruct (H ltac:(vm_compute; reflexivity)) as (A & _).
  exact (proj1 (A eq_refl)).
Defined.

(** C5 as stated fails: "a" is searched and the text is edited to "ab"
    before the answer comes; the answer is a successful response with an
    empty list, and the page shows the section of "ab" with the badge
    "0 repositories" and no placeholder. *)
Lemma C5_counterexample :
  let w := fst (Fetching.run Fetching.queryClient Fetching.start
                  [Fetching.Change (lit "a"); Fetching.ClickSearch;
                   Fetching.Change (lit "ab")]) in
  let page := Fetching.view (fixedOffsetHost 0)
                (fst (Fetching.step Fetching.queryClient w
                        (Fetching.Respond 0 (Fetching.HttpResponse 200 [])))) in
  Fetching.inflight w !! 0%nat = Some (lit "a")
  /\ Fetching.ok 200 = true
  /\ results page
     = Some (RepoSection (placeholderAvatar (lit "ab"))
               (lit "ab's Repositories") (lit "0 repositories") [] None).
Proof. vm_compute. repeat split; reflexivity. Qed.

(** ** Cards *)

Lemma topicBadgesOf_spec (topics : list jsstring) :
  topicBadgesOf topics = take 3 topics
  /\ length (topicBadgesOf topics) = Nat.min (length topics) 3
  /\ (forall i, (i < 3)%nat -> topicBadgesOf topics !! i = topics !! i).
Proof.
  unfold topicBadgesOf. split; [reflexivity|]. split.
  - rewrite length_take. lia.
  - intros i Hi. now apply lookup_take_lt.
Qed.

Lemma overflowBadgeOf_spec (topics : list jsstring) :
  ((length topics <= 3)%nat -> overflowBadgeOf topics = None)
  /\ ((3 < length topics)%nat ->
      overflowBadgeOf topics
      = Some (lit "+" ++ numberToString (N.of_nat (length topics - 3)))).
Proof.
  unfold overflowBadgeOf. split; intros H.
  - destruct (Nat.ltb_spec 3 (length topics)); [lia | reflexivity].
  - destruct (Nat.ltb_spec 3 (length topics)); [reflexivity | lia].
Qed.

(** C6. A card shows the first [min(T, 3)] topics of its record, in order,
    as badges, and one more badge "+(T - 3)" exactly when [T > 3]; with five
    topics these are three topic badges and "+2".  Both variants. *)
Theorem C6_topic_badges_and_overflow
    (host : Host) (repo : Fetching.GitHubRepo) (repo' : Static.Repo) :
  let badges (topics : list jsstring) (card : CardView) :=
    topicBadges card = take 3 topics
    /\ length (topicBadges card) = Nat.min (length topics) 3
    /\ (forall i, (i < 3)%nat -> topicBadges card !! i = topics !! i)
    /\ ((length topics <= 3)%nat -> overflowBadge card = None)
    /\ ((3 < length topics)%nat ->
        overflowBadge card
        = Some (lit "+" ++ numberToString (N.of_nat (length topics - 3))))
    /\ (length topics = 5%nat ->
        length (topicBadges card) = 3%nat
        /\ overflowBadge card = Some (lit "+2")) in
  badges (Fetching.topics repo) (Fetching.renderCard host repo)
  /\ badges (Static.topics repo') (Static.renderCard host repo').
Proof.
  assert (G : forall topics card,
             topicBadges card = topicBadgesOf topics ->
             overflowBadge card = overflowBadgeOf topics ->
             topicBadges card = take 3 topics
             /\ length (topicBadges card) = Nat.min (length topics) 3
             /\ (forall i, (i < 3)%nat -> topicBadges card !! i = topics !! i)
             /\ ((length topics <= 3)%nat -> overflowBadge card = None)
             /\ ((3 < length topics)%nat ->
                 overflowBadge card
                 = Some (lit "+" ++ numberToString (N.of_nat (length topics - 3))))
             /\ (length topics = 5%nat ->
                 length (topicBadges card) = 3%nat
                 /\ overflowBadge card = Some (lit "+2"))).
  { intros topics card -> ->.
    destruct (topicBadgesOf_spec topics) as (A & B & C).
    destruct (overflowBadgeOf_spec topics) as (D & E).
    repeat split; try assumption.
    - rewrite B. lia.
    - rewrite E by lia. now replace (length topics - 3)%nat with 2%nat by lia. }
  cbv zeta. split; apply G; reflexivity.
Qed.

Lemma C6_witness :
  let repo := {| Static.id := 7; Static.name := lit "x";
                 Static.description := lit "d"; Static.language := lit "Go";
                 Static.stars := 1; Static.forks := 0;
                 Static.updated := lit "2024-01-15";
                 Static.url := lit "u";
                 Static.topics := map lit ["a"; "b"; "c"; "d"; "e"]%string |} in
  let card := Static.renderCard (fixedOffsetHost 0) repo in
  length (topicBadges card) = 3%nat /\ overflowBadge card = Some (lit "+2").
Proof.
  intros repo card.
  destruct (C6_topic_badges_and_overflow (fixedOffsetHost 0)
              (sampleRepo 1 "a" 5) repo) as (_ & _ & _ & _ & _ & _ & H).
  exact (H eq_refl).
Defined.

(** ** The colour of the language dot *)

Lemma languageColor_own (table : gmap jsstring jsstring) (key colour : jsstring) :
  table !! key = Some colour -> colour <> [] ->
  languageColor table key = Str colour.
Proof.
  intros H Hc. unfold languageColor, getProperty. rewrite H. cbn [orElse].
  destruct colour; [congruence | reflexivity].
Qed.

Lemma languageColor_fallback (table : gmap jsstring jsstring) (key : jsstring) :
  table !! key = None -> key ∉ objectPrototypeKeys ->
  languageColor table key = Str (lit "bg-gray-400").
Proof.
  intros H Hk. unfold languageColor, getProperty. rewrite H.
  now rewrite bool_decide_eq_false_2.
Qed.

Lemma languageColor_inherited (table : gmap jsstring jsstring) (key : jsstring) :
  table !! key = None -> key ∈ objectPrototypeKeys ->
  languageColor table key = Inherited key.
Proof.
  intros H Hk. unfold languageColor, getProperty. rewrite H.
  now rewrite bool_decide_eq_true_2.
Qed.

(** Every colour of the two tables is the one the source lists. *)
Lemma languageColors_listed :
  Forall (fun e => languageColor Fetching.languageColors (fst e) = Str (snd e))
         Fetching.languageColorEntries
  /\ Forall (fun e => languageColor Static.languageColors (fst e) = Str (snd e))
            Static.languageColorEntries.
Proof. split; repeat constructor. Qed.

(** C7 does not hold of the code for a language called like a member of
    [Object.prototype]: "constructor" is no key of either table, yet the
    lookup finds the inherited member, which is truthy, so the fallback
    "bg-gray-400" is not taken. *)
Theorem C7_inherited_member_instead_of_fallback :
  let repo := {| Fetching.id := 1; Fetching.name := lit "a";
                 Fetching.description := None;
                 Fetching.language := Some (lit "constructor");
                 Fetching.stargazers_count := 0; Fetching.forks_count := 0;
                 Fetching.updated_at := lit "2024-01-15T00:00:00Z";
                 Fetching.html_url := lit "u"; Fetching.topics := [];
                 Fetching.owner := {| Fetching.login := lit "o";
                                      Fetching.avatar_url := lit "v" |} |} in
  Fetching.languageColors !! lit "constructor" = None
  /\ Static.languageColors !! lit "constructor" = None
  /\ languageIndicator (Fetching.renderCard (fixedOffsetHost 0) repo)
     = Some (Inherited (lit "constructor"), lit "constructor")
  /\ languageColor Fetching.languageColors (lit "constructor")
     <> Str (lit "bg-gray-400")
  /\ languageColor Static.languageColors (lit "constructor")
     <> Str (lit "bg-gray-400").
Proof. vm_compute. repeat split; discriminate. Qed.

(** ** The date on a card *)

(** C8 (amended).  [formatDate] draws the calendar date that the time
    value of the text has in the time zone of the runtime, as abbreviated
    English month, day and year: for every text that [new Date] reads as a
    date, whatever its format, the text drawn is "Mon D, Y" for the year,
    month and day on which the local time [t + LocalTZA(t)] falls (every time
    value falls on one such day), and a text that is not read as a date is
    drawn as "Invalid Date".  The shape of the API's timestamps,
    [YYYY-MM-DDTHH:mm:ssZ], is read as the UTC time it spells by every
    engine.  In particular "2024-01-15T00:00:00Z" gives "Jan 15, 2024"
    wherever local time is at or ahead of UTC at that instant, and
    "Jan 14, 2024" wherever it is behind. *)
Theorem C8_formatDate_local_calendar_date (host : Host) :
  (forall s t y mo d tw,
     timeValue host s = Some t ->
     1 <= mo <= 12 -> 1 <= d <= DaysInMonth y (mo - 1) ->
     0 <= tw < DateTime.msPerDay ->
     t + LocalTZA host t = DateTime.MakeDate (DateTime.MakeDay y (mo - 1) d) tw ->
     formatDate host s = shortDate (DateTime.yearOfEra y) mo d)
  /\ (forall s t,
        timeValue host s = Some t ->
        exists y mo d tw,
          1 <= mo <= 12 /\ 1 <= d <= DaysInMonth y (mo - 1)
          /\ 0 <= tw < DateTime.msPerDay
          /\ t + LocalTZA host t
             = DateTime.MakeDate (DateTime.MakeDay y (mo - 1) d) tw)
  /\ (forall s, timeValue host s = None -> formatDate host s = lit "Invalid Date")
  /\ (forall y mo d h mi s,
        0 <= y <= 9999 -> 1 <= mo <= 12 -> 1 <= d <= 31 ->
        0 <= h <= 23 -> 0 <= mi <= 59 -> 0 <= s <= 59 ->
        timeValue host (isoTimestamp y mo d h mi s) = Some (utcTime y mo d h mi s))
  /\ (0 <= LocalTZA host 1705276800000 < DateTime.msPerDay ->
      formatDate host (lit "2024-01-15T00:00:00Z") = lit "Jan 15, 2024")
  /\ (- DateTime.msPerDay <= LocalTZA host 1705276800000 < 0 ->
      formatDate host (lit "2024-01-15T00:00:00Z") = lit "Jan 14, 2024").
Proof.
  assert (G : forall s t y mo d tw,
     timeValue host s = Some t ->
     1 <= mo <= 12 -> 1 <= d <= DaysInMonth y (mo - 1) ->
     0 <= tw < DateTime.msPerDay ->
     t + LocalTZA host t = DateTime.MakeDate (DateTime.MakeDay y (mo - 1) d) tw ->
     formatDate host s = shortDate (DateTime.yearOfEra y) mo d).
  { intros s t y mo d tw Hs Hmo Hd Htw E. unfold formatDate. rewrite Hs.
    now apply (toLocaleDateString_civil (LocalTZA host) t y mo d tw). }
  assert (P : forall y mo d h mi s,
        0 <= y <= 9999 -> 1 <= mo <= 12 -> 1 <= d <= 31 ->
        0 <= h <= 23 -> 0 <= mi <= 59 -> 0 <= s <= 59 ->
        timeValue host (isoTimestamp y mo d h mi s) = Some (utcTime y mo d h mi s)).
  { intros. unfold timeValue. now apply parse_isoTimestamp. }
  split; [exact G|]. split; [|split; [|split; [exact P|]]].
  - intros s t _.
    destruct (civil_date_of_time (t + LocalTZA host t)) as (Hm & Hd & Hw & E).
    exists (DateTime.YearFromTime (t + LocalTZA host t)),
           (DateTime.MonthFromTime (t + LocalTZA host t) + 1),
           (DateTime.DateFromTime (t + LocalTZA host t)),
           (DateTime.TimeWithinDay (t + LocalTZA host t)).
    replace (DateTime.MonthFromTime (t + LocalTZA host t) + 1 - 1)
      with (DateTime.MonthFromTime (t + LocalTZA host t)) by lia.
    split; [lia|]. split; [exact Hd|]. split; [exact Hw | exact E].
  - intros s Hs. unfold formatDate. now rewrite Hs.
  - pose proof (P 2024 1 15 0 0 0 ltac:(lia) ltac:(lia) ltac:(lia) ltac:(lia)
                  ltac:(lia) ltac:(lia)) as E.
    change (utcTime 2024 1 15 0 0 0) with 1705276800000 in E.
    change (isoTimestamp 2024 1 15 0 0 0) with (lit "2024-01-15T00:00:00Z") in E.
    assert (D15 : 1 <= 15 <= DaysInMonth 2024 (1 - 1)) by (vm_compute; split; discriminate).
    assert (D14 : 1 <= 14 <= DaysInMonth 2024 (1 - 1)) by (vm_compute; split; discriminate).
    change (DateTime.msPerDay) with 86400000.
    split; intros Htz.
    + apply (G _ _ 2024 1 15 (LocalTZA host 1705276800000) E ltac:(lia) D15).
      * change (DateTime.msPerDay) with 86400000. lia.
      * change (DateTime.MakeDay 2024 (1 - 1) 15) with 19737.
        unfold DateTime.MakeDate. change (DateTime.msPerDay) with 86400000. lia.
    + apply (G _ _ 2024 1 14 (LocalTZA host 1705276800000 + 86400000) E
               ltac:(lia) D14).
      * change (DateTime.msPerDay) with 86400000. lia.
      * change (DateTime.MakeDay 2024 (1 - 1) 14) with 19736.
        unfold DateTime.MakeDate. change (DateTime.msPerDay) with 86400000. lia.
Qed.

Lemma C8_witness :
  formatDate (fixedOffsetHost 330) (lit "2024-03-31T22:30:00Z") = lit "Apr 1, 2024"
  /\ formatDate (fixedOffsetHost (-480)) (lit "2024-01-01T03:00:00Z")
     = lit "Dec 31, 2023".
Proof.
  split.
  - refine (proj1 (C8_formatDate_local_calendar_date (fixedOffsetHost 330))
              (lit "2024-03-31T22:30:00Z") 1711924200000 2024 4 1 14400000
              _ _ _ _ _);
      vm_compute; first [reflexivity | split; first [discriminate | reflexivity]].
  - refine (proj1 (C8_formatDate_local_calendar_date (fixedOffsetHost (-480)))
              (lit "2024-01-01T03:00:00Z") 1704078000000 2023 12 31 68400000
              _ _ _ _ _);
      vm_compute; first [reflexivity | split; first [discriminate | reflexivity]].
Defined.

(** C8 as stated fails: in a runtime five hours behind UTC the timestamp
    "2024-01-15T00:00:00Z" is drawn as the day before. *)
Lemma C8_counterexample :
  formatDate (fixedOffsetHost (-300)) (lit "2024-01-15T00:00:00Z")
  = lit "Jan 14, 2024"
  /\ formatDate (fixedOffsetHost (-300)) (lit "2024-01-15T00:00:00Z")
     <> lit "Jan 15, 2024".
Proof. vm_compute. split; [reflexivity | discriminate]. Qed.

(** ** Descriptions *)

(** The list that the static variant holds is empty or the fixed one. *)
Lemma static_repos_invariant evs :
  let w := Static.run Static.start evs in
  Static.repos (Static.state w) = [] \/
  Static.repos (Static.state w) = Static.dummyRepos.
Proof.
  unfold Static.run.
  assert (G : forall w,
             (Static.repos (Static.state w) = [] \/
              Static.repos (Static.state w) = Static.dummyRepos) ->
             Static.repos (Static.state (foldl Static.step w evs)) = [] \/
             Static.repos (Static.state (foldl Static.step w evs))
             = Static.dummyRepos).
  { induction evs as [|ev evs IH]; intros w Hw; [exact Hw|].
    cbn [foldl]. apply IH.
    destruct ev as [text| |key|]; cbn [Static.step].
    - exact Hw.
    - destruct (Static.searchDisabled _); [exact Hw|].
      unfold Static.schedule, Static.handleSearch.
      destruct (negb _); exact Hw.
    - unfold Static.schedule, Static.handleKeyPress, Static.handleSearch.
      destruct (bool_decide _); [destruct (negb _)|]; exact Hw.
    - destruct (Static.timers w); [exact Hw | right; reflexivity]. }
  apply G. left. reflexivity.
Qed.




(** ** The static variant shows the same list to everybody *)

Lemma static_search_completes u t :
  blank u = false ->
  Static.run Static.start [Static.Change u; fireStatic t; Static.TimerFires]
  = {| Static.state := {| Static.username := u;
                          Static.repos := Static.dummyRepos;
                          Static.loading := false;
                          Static.searched := true |};
       Static.timers := 0 |}.
Proof.
  intros H. unfold Static.run. cbn [foldl].
  assert (E : Static.step (Static.step Static.start (Static.Change u)) (fireStatic t)
              = {| Static.state := {| Static.username := u; Static.repos := [];
                                      Static.loading := true;
                                      Static.searched := true |};
                   Static.timers := 1 |}).
  { destruct t; cbn [fireStatic Static.step Static.state Static.start
                     Static.initial Static.repos Static.loading
                     Static.searched Static.timers].
    - unfold Static.searchDisabled. cbn [Static.loading Static.username orb].
      rewrite truthy_trim, H. cbn [negb].
      rewrite static_handleSearch_text by exact H. reflexivity.
    - change (Static.handleKeyPress (lit "Enter") ?s) with (Static.handleSearch s).
      rewrite static_handleSearch_text by exact H. reflexivity. }
  rewrite E. reflexivity.
Qed.

(** C10. In the static variant a completed search shows the six fixed
    records, in their fixed order, whatever non-blank user name was typed
    and however the search was triggered; and after any sequence of events
    the list held is either empty or that fixed list. *)
Theorem C10_static_results_ignore_username
    (host : Host) (u1 u2 : jsstring) (t1 t2 : Trigger) (evs : list Static.Event) :
  blank u1 = false -> blank u2 = false ->
  let search u t :=
    Static.state (Static.run Static.start
                    [Static.Change u; fireStatic t; Static.TimerFires]) in
  Static.repos (search u1 t1) = Static.dummyRepos
  /\ Static.repos (search u2 t2) = Static.dummyRepos
  /\ cardsOf (Static.render host (search u1 t1))
     = cardsOf (Static.render host (search u2 t2))
  /\ cardsOf (Static.render host (search u1 t1))
     = map (Static.renderCard host) Static.dummyRepos
  /\ map Static.id Static.dummyRepos = [1; 2; 3; 4; 5; 6]
  /\ (Static.repos (Static.state (Static.run Static.start evs)) = [] \/
      Static.repos (Static.state (Static.run Static.start evs))
      = Static.dummyRepos).
Proof.
  intros H1 H2 search. unfold search.
  rewrite !static_search_completes by assumption.
  cbn [Static.state Static.repos].
  repeat split; try reflexivity.
  apply static_repos_invariant.
Qed.

Lemma C10_witness :
  Static.repos
    (Static.state (Static.run Static.start
                     [Static.Change (lit "octocat"); Static.ClickSearch;
                      Static.TimerFires]))
  = Static.repos
      (Static.state (Static.run Static.start
                       [Static.Change (lit "torvalds");
                        Static.KeyPress (lit "Enter"); Static.TimerFires])).
Proof.
  destruct (C10_static_results_ignore_username (fixedOffsetHost 0)
              (lit "octocat") (lit "torvalds") ButtonClick EnterKey []
              eq_refl eq_refl) as (A & B & _).
  exact (eq_trans A (eq_sym B)).
Defined.

(** ** More on triggering a search *)

(** X1. [handleSearch] does nothing exactly for the texts made of white
    space only.  For any other text it keeps the text, sets [searched] (and,
    in the static variant, [loading]) and asks for exactly one thing: one
    [refetch()], or one timer of 1000 ms. *)
Theorem X1_handleSearch_guard (sf : Fetching.State) (ss : Static.State) :
  (snd (Fetching.handleSearch sf) = [] <-> blank (Fetching.username sf) = true)
  /\ (blank (Fetching.username sf) = false ->
      Fetching.handleSearch sf
      = ({| Fetching.username := Fetching.username sf;
            Fetching.searched := true |}, [Fetching.Refetch]))
  /\ (snd (Static.handleSearch ss) = [] <-> blank (Static.username ss) = true)
  /\ (blank (Static.username ss) = false ->
      Static.handleSearch ss
      = ({| Static.username := Static.username ss;
            Static.repos := Static.repos ss;
            Static.loading := true; Static.searched := true |},
         [Static.SetTimeout 1000])).
Proof.
  split; [|split; [|split]].
  - destruct (blank (Fetching.username sf)) eqn:E.
    + rewrite (fetching_handleSearch_blank _ E). tauto.
    + rewrite (fetching_handleSearch_text _ E). cbn. split; discriminate.
  - apply fetching_handleSearch_text.
  - destruct (blank (Static.username ss)) eqn:E.
    + rewrite (static_handleSearch_blank _ E). tauto.
    + rewrite (static_handleSearch_text _ E). cbn. split; discriminate.
  - apply static_handleSearch_text.
Qed.

Lemma X1_witness :
  Fetching.handleSearch
    {| Fetching.username := lit " octocat"; Fetching.searched := false |}
  = ({| Fetching.username := lit " octocat"; Fetching.searched := true |},
     [Fetching.Refetch]).
Proof.
  exact (proj1 (proj2 (X1_handleSearch_guard
           {| Fetching.username := lit " octocat"; Fetching.searched := false |}
           Static.initial)) eq_refl).
Defined.

(** X2. A key other than "Enter" never triggers anything: in both variants
    the key press leaves the component, the query cache, the requests in
    flight and the timers as they were. *)
Theorem X2_other_keys_do_nothing
    (client : Fetching.QueryClient) (key : jsstring)
    (wf : Fetching.World) (ws : Static.World) :
  key <> lit "Enter" ->
  Fetching.step client wf (Fetching.KeyPress key) = (wf, [])
  /\ Static.step ws (Static.KeyPress key) = ws.
Proof.
  intros Hk. cbn [Fetching.step Static.step].
  unfold Fetching.handleKeyPress, Static.handleKeyPress.
  rewrite !bool_decide_eq_false_2 by exact Hk. split.
  - unfold Fetching.perform. cbn [fst snd]. now rewrite withState_same.
  - apply static_schedule_nothing.
Qed.

Lemma X2_witness :
  Static.step (Static.step Static.start (Static.Change (lit "octocat")))
    (Static.KeyPress (lit "enter"))
  = Static.step Static.start (Static.Change (lit "octocat")).
Proof.
  refine (proj2 (X2_other_keys_do_nothing Fetching.queryClient (lit "enter")
                   Fetching.start
                   (Static.step Static.start (Static.Change (lit "octocat")))
                   _)).
  discriminate.
Defined.

(** X3. While loading, the search button is disabled and reads
    "Searching...", and a click on it changes nothing, in both variants. *)
Theorem X3_button_is_guarded_while_loading
    (host : Host) (client : Fetching.QueryClient)
    (wf : Fetching.World) (ws : Static.World) :
  Fetching.isLoading (Fetching.observe wf) = true ->
  Static.loading (Static.state ws) = true ->
  (buttonDisabled (Fetching.view host wf) = true
   /\ buttonLabel (Fetching.view host wf) = lit "Searching..."
   /\ Fetching.step client wf Fetching.ClickSearch = (wf, []))
  /\ (buttonDisabled (Static.render host (Static.state ws)) = true
      /\ buttonLabel (Static.render host (Static.state ws)) = lit "Searching..."
      /\ Static.step ws Static.ClickSearch = ws).
Proof.
  intros Hf Hs. split; (split; [|split]).
  - unfold Fetching.view, Fetching.render, Fetching.searchDisabled.
    cbn [buttonDisabled]. now rewrite Hf.
  - unfold Fetching.view, Fetching.render. cbn [buttonLabel]. now rewrite Hf.
  - now apply click_while_loading_fetching.
  - unfold Static.render, Static.searchDisabled. cbn [buttonDisabled].
    now rewrite Hs.
  - unfold Static.render. cbn [buttonLabel]. now rewrite Hs.
  - now apply click_while_loading_static.
Qed.

Lemma X3_witness :
  let ws := Static.run Static.start
              [Static.Change (lit "octocat"); Static.ClickSearch] in
  Static.step ws Static.ClickSearch = ws.
Proof.
  intros ws.
  refine (proj2 (proj2 (proj2 (X3_button_is_guarded_while_loading
            (fixedOffsetHost 0) Fetching.queryClient
            (fst (Fetching.run Fetching.queryClient Fetching.start
                    [Fetching.Change (lit "octocat"); Fetching.ClickSearch]))
            ws _ _)))); vm_compute; reflexivity.
Defined.

(** ** What a run keeps *)

Lemma launch_state key q w :
  Fetching.state (fst (Fetching.launch key q w)) = Fetching.state w.
Proof. unfold Fetching.launch. now destruct (Fetching.queryFn_start key). Qed.

Lemma refetch_state w :
  Fetching.state (fst (Fetching.refetch w)) = Fetching.state w.
Proof.
  unfold Fetching.refetch.
  destruct (Fetching.q_activity (Fetching.currentQuery w)),
    (Fetching.q_data (Fetching.currentQuery w));
    try reflexivity; apply launch_state.
Qed.

Lemma respond_state client request o w :
  Fetching.state (fst (Fetching.respond client request o w)) = Fetching.state w.
Proof.
  unfold Fetching.respond. destruct (Fetching.inflight w !! request); [|reflexivity].
  cbv zeta. destruct (Fetching.awaitsRequest _ _); [|reflexivity].
  destruct (Fetching.queryFn_resume o); [reflexivity|].
  now destruct (_ || _).
Qed.

Lemma retryDelayEnds_state request w :
  Fetching.state (fst (Fetching.retryDelayEnds request w)) = Fetching.state w.
Proof.
  unfold Fetching.retryDelayEnds.
  destruct (Fetching.waits w !! request) as [[key delay]|]; [|reflexivity].
  cbv zeta. destruct (Fetching.sleepsSince _ _); [|reflexivity].
  destruct (Fetching.q_retryCancelled _); [reflexivity|].
  now rewrite launch_state.
Qed.

Lemma perform_state w r :
  Fetching.state (fst (Fetching.perform w r)) = fst r.
Proof.
  unfold Fetching.perform. destruct (snd r) as [|[] ?]; [reflexivity|].
  now rewrite refetch_state.
Qed.

Lemma fetching_step_keeps_searched client w ev :
  Fetching.searched (Fetching.state w) = true ->
  Fetching.searched (Fetching.state (fst (Fetching.step client w ev))) = true.
Proof.
  intros H.
  destruct ev as [text| |key| |request outcome|request|key];
    cbn [Fetching.step fst].
  - unfold Fetching.changeText. now case_bool_decide.
  - destruct (Fetching.searchDisabled _ _); [exact H|].
    rewrite perform_state. unfold Fetching.handleSearch.
    now destruct (negb _).
  - rewrite perform_state. unfold Fetching.handleKeyPress, Fetching.handleSearch.
    destruct (bool_decide _); [now destruct (negb _) | exact H].
  - destruct (Fetching.tryAgainShown w); [|exact H].
    now rewrite perform_state.
  - now rewrite respond_state.
  - now rewrite retryDelayEnds_state.
  - unfold Fetching.collect. now destruct (_ && _).
Qed.

Lemma static_step_keeps_searched w ev :
  Static.searched (Static.state w) = true ->
  Static.searched (Static.state (Static.step w ev)) = true.
Proof.
  intros H. destruct ev as [text| |key|]; cbn [Static.step].
  - exact H.
  - destruct (Static.searchDisabled _); [exact H|].
    unfold Static.schedule, Static.handleSearch. now destruct (negb _).
  - unfold Static.schedule, Static.handleKeyPress, Static.handleSearch.
    destruct (bool_decide _); [now destruct (negb _) | exact H].
  - destruct (Static.timers w); [exact H | exact H].
Qed.

(** X4. Once a search has been made, nothing brings the "Ready to explore?"
    panel back: after any further events, in both variants, [searched] is
    still true, the empty state is not drawn and the results section is. *)
Theorem X4_searched_is_never_reset
    (host : Host) (client : Fetching.QueryClient)
    (wf : Fetching.World) (evs : list Fetching.Event)
    (ws : Static.World) (evs' : list Static.Event) :
  Fetching.searched (Fetching.state wf) = true ->
  Static.searched (Static.state ws) = true ->
  let wf' := fst (Fetching.run client wf evs) in
  let ws' := Static.run ws evs' in
  (Fetching.searched (Fetching.state wf') = true
   /\ emptyState (Fetching.view host wf') = None
   /\ results (Fetching.view host wf') <> None)
  /\ (Static.searched (Static.state ws') = true
      /\ emptyState (Static.render host (Static.state ws')) = None
      /\ results (Static.render host (Static.state ws')) <> None).
Proof.
  intros Hf Hs wf' ws'.
  assert (Hf' : Fetching.searched (Fetching.state wf') = true).
  { unfold wf'. induction evs as [|ev evs IH] using rev_ind; [exact Hf|].
    rewrite run_snoc. cbn [fst]. now apply fetching_step_keeps_searched. }
  assert (Hs' : Static.searched (Static.state ws') = true).
  { unfold ws', Static.run. induction evs' as [|ev evs' IH] using rev_ind;
      [exact Hs|].
    rewrite foldl_snoc. now apply static_step_keeps_searched. }
  split; (split; [assumption|]).
  - unfold Fetching.view, Fetching.render. cbn [emptyState results].
    rewrite Hf'. split; [reflexivity | discriminate].
  - unfold Static.render. cbn [emptyState results].
    rewrite Hs'. split; [reflexivity | discriminate].
Qed.

Lemma X4_witness :
  emptyState
    (Static.render (fixedOffsetHost 0)
       (Static.state
          (Static.run
             (Static.run Static.start
                [Static.Change (lit "octocat"); Static.ClickSearch])
             [Static.Change []; Static.TimerFires; Static.KeyPress (lit "Enter")])))
  = None.
Proof.
  refine (proj1 (proj2 (proj2 (X4_searched_is_never_reset (fixedOffsetHost 0)
            Fetching.queryClient
            (fst (Fetching.run Fetching.queryClient Fetching.start
                    [Fetching.Change (lit "octocat"); Fetching.ClickSearch]))
            []
            (Static.run Static.start
               [Static.Change (lit "octocat"); Static.ClickSearch])
            [Static.Change []; Static.TimerFires; Static.KeyPress (lit "Enter")]
            _ _)))); vm_compute; reflexivity.
Defined.

Lemma static_fire_all w n :
  Static.timers w = S n ->
  Static.run w (replicate (S n) Static.TimerFires)
  = {| Static.state := Static.timerCallback (Static.state w);
       Static.timers := 0 |}.
Proof.
  revert w. induction n as [|n IH]; intros w Hn.
  - cbn. now rewrite Hn.
  - change (replicate (S (S n)) Static.TimerFires)
      with (Static.TimerFires :: replicate (S n) Static.TimerFires).
    unfold Static.run in *. cbn [foldl Static.step]. rewrite Hn.
    rewrite IH by reflexivity. reflexivity.
Qed.

(** X5. In the static variant the spinner cannot hang: after any run of
    events, loading implies that a timer is pending, and once the pending
    timers have fired loading is false, no timer is left and, if a search was
    made, the list held is the fixed one. *)
Theorem X5_static_loading_ends (evs : list Static.Event) :
  let w := Static.run Static.start evs in
  let w' := Static.run w (replicate (Static.timers w) Static.TimerFires) in
  (Static.loading (Static.state w) = true -> (0 < Static.timers w)%nat)
  /\ Static.loading (Static.state w') = false
  /\ Static.timers w' = 0%nat
  /\ (Static.searched (Static.state w) = true ->
      Static.repos (Static.state w') = Static.dummyRepos).
Proof.
  intros w w'. destruct (static_run_invariant evs) as [I1 I2].
  fold w in I1, I2. split; [exact I1|].
  unfold w'. destruct (Static.timers w) as [|n] eqn:E.
  - cbn. rewrite E. split; [|split; [reflexivity|]].
    + destruct (Static.loading (Static.state w)); [|reflexivity].
      specialize (I1 eq_refl). lia.
    + intros Hs. destruct (I2 Hs) as [Hl|Hr]; [|exact Hr].
      specialize (I1 Hl). lia.
  - rewrite (static_fire_all w n E). cbn. auto.
Qed.

(** X6. The static variant never draws the "No public repositories found"
    placeholder: after any run of events its page shows no results section
    (nothing searched yet), the spinner, or the six fixed cards under the
    badge "6 repositories". *)
Theorem X6_static_page_shapes (host : Host) (evs : list Static.Event) :
  let st := Static.state (Static.run Static.start evs) in
  let page := Static.render host st in
  results page = None
  \/ results page = Some Spinner
  \/ results page
     = Some (RepoSection
               (placeholderAvatar (Static.username st))
               (Static.username st ++ lit "'s Repositories")
               (lit "6 repositories")
               (map (Static.renderCard host) Static.dummyRepos)
               None).
Proof.
  intros st page. destruct (static_run_invariant evs) as [_ I2].
  fold st in I2. unfold page, Static.render. cbn [results].
  destruct (Static.searched st); [|now left].
  destruct (Static.loading st) eqn:El; [right; now left|].
  destruct (I2 eq_refl) as [Hl|Hr]; [discriminate|].
  right; right. rewrite Hr. reflexivity.
Qed.

Lemma X5_witness :
  let w := Static.run Static.start
             [Static.Change (lit "octocat"); Static.ClickSearch;
              Static.KeyPress (lit "Enter")] in
  Static.repos
    (Static.state (Static.run w (replicate (Static.timers w) Static.TimerFires)))
  = Static.dummyRepos.
Proof.
  intros w.
  exact (proj2 (proj2 (proj2 (X5_static_loading_ends
           [Static.Change (lit "octocat"); Static.ClickSearch;
            Static.KeyPress (lit "Enter")]))) eq_refl).
Defined.

(** ** Editing the text *)

Lemma changeText_same w :
  Fetching.changeText (Fetching.username (Fetching.state w)) w = w.
Proof.
  unfold Fetching.changeText. now rewrite bool_decide_eq_true_2 by reflexivity.
Qed.

Lemma changeText_other text w :
  text <> Fetching.username (Fetching.state w) ->
  Fetching.changeText text w
  = {| Fetching.state :=
         {| Fetching.username := text;
            Fetching.searched := Fetching.searched (Fetching.state w) |};
       Fetching.cache :=
         alter Fetching.cancelRetry (Fetching.username (Fetching.state w))
           (Fetching.cache w);
       Fetching.inflight := Fetching.inflight w;
       Fetching.waits := Fetching.waits w;
       Fetching.nextRequest := Fetching.nextRequest w |}.
Proof.
  intros H. unfold Fetching.changeText. now rewrite bool_decide_eq_false_2.
Qed.

(** X7. Editing the text asks nothing of the network or the timers and
    leaves the requests in flight and the pending waits as they are.  In the
    static variant the cards stay on the page.  In the fetching variant the
    page shows what is stored for the text in the input (the query key holds
    the user name): a text for which nothing is stored gives an empty
    section without cards, placeholder or error; the query of the text that
    is left stays stored, with its retries cancelled; and typing the earlier
    text again at once brings the earlier page back. *)
Theorem X7_editing_the_text
    (host : Host) (client : Fetching.QueryClient) (text : jsstring)
    (wf : Fetching.World) (ws : Static.World) :
  let wf' := fst (Fetching.step client wf (Fetching.Change text)) in
  let ws' := Static.step ws (Static.Change text) in
  let old := Fetching.username (Fetching.state wf) in
  snd (Fetching.step client wf (Fetching.Change text)) = []
  /\ Fetching.inflight wf' = Fetching.inflight wf
  /\ Fetching.waits wf' = Fetching.waits wf
  /\ (Fetching.searched (Fetching.state wf) = true ->
      Fetching.cache wf !! text = None ->
      results (Fetching.view host wf')
      = Some (RepoSection (placeholderAvatar text)
                (text ++ lit "'s Repositories") (lit "0 repositories") [] None))
  /\ (text <> old ->
      Fetching.cache wf' !! old = Fetching.cancelRetry <$> Fetching.cache wf !! old)
  /\ Fetching.view host (fst (Fetching.step client wf' (Fetching.Change old)))
     = Fetching.view host wf
  /\ Static.timers ws' = Static.timers ws
  /\ cardsOf (Static.render host (Static.state ws'))
     = cardsOf (Static.render host (Static.state ws)).
Proof.
  cbv zeta. cbn [Fetching.step Static.step fst snd].
  split; [reflexivity|].
  destruct (decide (text = Fetching.username (Fetching.state wf))) as [->|E].
  - rewrite !changeText_same.
    split; [reflexivity|]. split; [reflexivity|]. split; [|split; [|split]].
    + intros Hs Hc. unfold Fetching.view, Fetching.render, Fetching.observe,
        Fetching.currentQuery, Fetching.queryOf, Fetching.avatarSrc.
      cbn [results]. rewrite Hc, Hs. reflexivity.
    + intros Hne. now contradiction Hne.
    + reflexivity.
    + split; [reflexivity|].
      rewrite !static_cards_are_rendered_records. reflexivity.
  - rewrite (changeText_other text wf E).
    cbn [Fetching.inflight Fetching.waits Fetching.cache Fetching.state].
    split; [reflexivity|]. split; [reflexivity|]. split; [|split; [|split]].
    + intros Hs Hc. unfold Fetching.view, Fetching.render, Fetching.observe,
        Fetching.currentQuery, Fetching.queryOf, Fetching.avatarSrc.
      cbn [Fetching.state Fetching.cache Fetching.username
           Fetching.searched results].
      rewrite lookup_alter_ne by (intros E'; apply E; now symmetry).
      rewrite Hc, Hs. reflexivity.
    + intros _. apply lookup_alter_eq.
    + rewrite changeText_other
        by (cbn [Fetching.state Fetching.username]; intros E'; apply E; now symmetry).
      cbn [Fetching.state Fetching.username Fetching.cache Fetching.searched
           Fetching.inflight Fetching.waits Fetching.nextRequest].
      assert (Hq : forall (c : gmap jsstring Fetching.Query),
                 default Fetching.newQuery
                   (alter Fetching.cancelRetry text
                      (alter Fetching.cancelRetry
                         (Fetching.username (Fetching.state wf)) c)
                    !! Fetching.username (Fetching.state wf))
                 = match c !! Fetching.username (Fetching.state wf) with
                   | Some q => Fetching.cancelRetry q
                   | None => Fetching.newQuery
                   end).
      { intros c. rewrite lookup_alter_ne by exact E.
        rewrite lookup_alter_eq. now destruct (c !! _). }
      apply view_same;
        unfold Fetching.currentQuery, Fetching.queryOf;
        cbn [Fetching.state Fetching.cache Fetching.username];
        rewrite ?Hq;
        try (destruct (Fetching.cache wf !! Fetching.username (Fetching.state wf));
             reflexivity).
      now destruct (Fetching.state wf).
    + split; [reflexivity|].
      rewrite !static_cards_are_rendered_records. reflexivity.
Qed.

Lemma X7_witness :
  let w := fst (Fetching.run Fetching.queryClient Fetching.start
                  [Fetching.Change (lit "octocat"); Fetching.ClickSearch;
                   Fetching.Respond 0
                     (Fetching.HttpResponse 200 [sampleRepo 1 "a" 5])]) in
  results (Fetching.view (fixedOffsetHost 0)
             (fst (Fetching.step Fetching.queryClient w
                     (Fetching.Change (lit "octoca")))))
  = Some (RepoSection (placeholderAvatar (lit "octoca"))
            (lit "octoca's Repositories") (lit "0 repositories") [] None).
Proof.
  intros w.
  refine (proj1 (proj2 (proj2 (proj2 (X7_editing_the_text (fixedOffsetHost 0)
            Fetching.queryClient (lit "octoca") w Static.start)))) _ _);
    vm_compute; reflexivity.
Defined.

(** X18. A query that was left is forgotten when its [gcTime] is over.  The
    end of the [gcTime] of a user name asks nothing of the network and leaves
    the page, the requests in flight and the pending waits as they are.  A
    query that is fetching, and the query of the text in the input, are
    kept; the query of any other user name, when it is idle, is removed from
    the cache, so that typing that user name again shows an empty section
    and no longer the earlier result. *)
Theorem X18_left_queries_are_collected
    (host : Host) (client : Fetching.QueryClient) (key : jsstring)
    (w : Fetching.World) :
  let r := Fetching.step client w (Fetching.Collect key) in
  snd r = []
  /\ Fetching.view host (fst r) = Fetching.view host w
  /\ Fetching.inflight (fst r) = Fetching.inflight w
  /\ Fetching.waits (fst r) = Fetching.waits w
  /\ (key = Fetching.username (Fetching.state w)
      \/ Fetching.isFetching (Fetching.q_activity (Fetching.queryOf w key)) = true ->
      fst r = w)
  /\ (key <> Fetching.username (Fetching.state w) ->
      Fetching.isFetching (Fetching.q_activity (Fetching.queryOf w key)) = false ->
      Fetching.cache (fst r) = delete key (Fetching.cache w)
      /\ (Fetching.searched (Fetching.state w) = true ->
          results (Fetching.view host
                     (fst (Fetching.step client (fst r) (Fetching.Change key))))
          = Some (RepoSection (placeholderAvatar key)
                    (key ++ lit "'s Repositories") (lit "0 repositories")
                    [] None))).
Proof.
  cbv zeta. cbn [Fetching.step fst snd]. unfold Fetching.collect.
  split; [reflexivity|].
  destruct (decide (key = Fetching.username (Fetching.state w))) as [E|E].
  - rewrite bool_decide_eq_false_2 by (intros H; now apply H).
    cbn [andb]. do 4 (split; [reflexivity|]).
    intros Hne. now contradiction Hne.
  - rewrite bool_decide_eq_true_2 by exact E. cbn [andb].
    destruct (Fetching.isFetching _) eqn:Hf; cbn [negb].
    + do 4 (split; [reflexivity|]). intros _ Hf'. discriminate.
    + split; [|split; [reflexivity|split; [reflexivity|split]]].
      * apply view_ext; [reflexivity|]. cbn [Fetching.withCache Fetching.cache].
        now rewrite lookup_delete_ne.
      * intros [H|H]; [now contradiction E | discriminate].
      * intros _ _. split; [reflexivity|]. intros Hs.
        rewrite changeText_other by exact E.
        unfold Fetching.view, Fetching.render, Fetching.observe,
          Fetching.currentQuery, Fetching.queryOf, Fetching.avatarSrc.
        cbn [Fetching.state Fetching.cache Fetching.username
             Fetching.searched Fetching.withCache results].
        rewrite lookup_alter_ne by (intros E'; apply E; now symmetry).
        rewrite lookup_delete_eq, Hs. reflexivity.
Qed.

Lemma X18_witness :
  let w := fst (Fetching.run Fetching.queryClient Fetching.start
                  [Fetching.Change (lit "a"); Fetching.ClickSearch;
                   Fetching.Respond 0
                     (Fetching.HttpResponse 200 [sampleRepo 1 "a" 5]);
                   Fetching.Change (lit "ab")]) in
  let r := Fetching.step Fetching.queryClient w (Fetching.Collect (lit "a")) in
  cardsOf (Fetching.view (fixedOffsetHost 0)
             (fst (Fetching.step Fetching.queryClient w
                     (Fetching.Change (lit "a")))))
  = [Fetching.renderCard (fixedOffsetHost 0) (sampleRepo 1 "a" 5)]
  /\ results (Fetching.view (fixedOffsetHost 0)
                (fst (Fetching.step Fetching.queryClient (fst r)
                        (Fetching.Change (lit "a")))))
     = Some (RepoSection (placeholderAvatar (lit "a"))
               (lit "a's Repositories") (lit "0 repositories") [] None).
Proof.
  intros w r. split; [vm_compute; reflexivity|].
  refine (proj2 (proj2 (proj2 (proj2 (proj2 (proj2
            (X18_left_queries_are_collected (fixedOffsetHost 0)
               Fetching.queryClient (lit "a") w))))) _ _) _);
    vm_compute; first [reflexivity | discriminate].
Defined.

(** ** The request *)

(** X8. The request URL is the fixed head "https://api.github.com/users/",
    the user name exactly as typed (not trimmed, not escaped) and the fixed
    tail "/repos?sort=updated&per_page=100": different texts give different
    URLs, so a text with white space around a name is not requested as that
    name. *)
Theorem X8_requestUrl_keeps_the_text (u1 u2 : jsstring) :
  Fetching.requestUrl u1
  = lit "https://api.github.com/users/" ++ u1
    ++ lit "/repos?sort=updated&per_page=100"
  /\ Fetching.requestUrl (lit "octocat")
     = lit "https://api.github.com/users/octocat/repos?sort=updated&per_page=100"
  /\ length (Fetching.requestUrl u1) = (29 + length u1 + 32)%nat
  /\ (Fetching.requestUrl u1 = Fetching.requestUrl u2 -> u1 = u2)
  /\ (trim u1 <> u1 -> Fetching.requestUrl u1 <> Fetching.requestUrl (trim u1)).
Proof.
  assert (Inj : forall a b, Fetching.requestUrl a = Fetching.requestUrl b -> a = b).
  { intros a b H. unfold Fetching.requestUrl in H.
    apply app_inv_head in H. now apply app_inv_tail in H. }
  split; [reflexivity|]. split; [reflexivity|]. split; [|split].
  - unfold Fetching.requestUrl. rewrite !length_app.
    change (length (lit "https://api.github.com/users/")) with 29%nat.
    change (length (lit "/repos?sort=updated&per_page=100")) with 32%nat. lia.
  - apply Inj.
  - intros Hne H. apply Hne. symmetry. now apply Inj.
Qed.

Lemma X8_witness :
  Fetching.requestUrl (lit " octocat") <> Fetching.requestUrl (lit "octocat").
Proof.
  refine (proj2 (proj2 (proj2 (proj2
            (X8_requestUrl_keeps_the_text (lit " octocat") [])))) _).
  vm_compute. discriminate.
Defined.

(** What one event can ask of the network: nothing, or one request, with
    the next request number, for a non-blank user name. *)
Lemma fetching_step_effect client w ev :
  consistent w ->
  let r := Fetching.step client w ev in
  (snd r = [] /\ Fetching.nextRequest (fst r) = Fetching.nextRequest w)
  \/ exists key,
       blank key = false
       /\ snd r = [Fetching.Fetch (Fetching.nextRequest w)
                     (Fetching.requestUrl key)]
       /\ Fetching.nextRequest (fst r) = S (Fetching.nextRequest w).
Proof.
  intros Hc.
  assert (L : forall key q w0,
             blank key = false ->
             Fetching.nextRequest w0 = Fetching.nextRequest w ->
             let r := Fetching.launch key q w0 in
             (snd r = [] /\ Fetching.nextRequest (fst r) = Fetching.nextRequest w)
             \/ exists key,
                  blank key = false
                  /\ snd r = [Fetching.Fetch (Fetching.nextRequest w)
                                (Fetching.requestUrl key)]
                  /\ Fetching.nextRequest (fst r) = S (Fetching.nextRequest w)).
  { intros key q w0 Hb Hn. cbv zeta. rewrite launch_text by exact Hb.
    cbn [fst snd Fetching.nextRequest]. rewrite Hn. right. exists key. auto. }
  assert (R : forall w0,
             blank (Fetching.username (Fetching.state w0)) = false ->
             Fetching.nextRequest w0 = Fetching.nextRequest w ->
             let r := Fetching.refetch w0 in
             (snd r = [] /\ Fetching.nextRequest (fst r) = Fetching.nextRequest w)
             \/ exists key,
                  blank key = false
                  /\ snd r = [Fetching.Fetch (Fetching.nextRequest w)
                                (Fetching.requestUrl key)]
                  /\ Fetching.nextRequest (fst r) = S (Fetching.nextRequest w)).
  { intros w0 Hb Hn. cbv zeta. unfold Fetching.refetch.
    destruct (Fetching.q_activity (Fetching.currentQuery w0)),
      (Fetching.q_data (Fetching.currentQuery w0));
      try (apply L; assumption); (left; split; [reflexivity | exact Hn]). }
  assert (S0 : forall st,
             let r := Fetching.perform w (Fetching.handleSearch st) in
             (snd r = [] /\ Fetching.nextRequest (fst r) = Fetching.nextRequest w)
             \/ exists key,
                  blank key = false
                  /\ snd r = [Fetching.Fetch (Fetching.nextRequest w)
                                (Fetching.requestUrl key)]
                  /\ Fetching.nextRequest (fst r) = S (Fetching.nextRequest w)).
  { intros st. cbv zeta.
    destruct (blank (Fetching.username st)) eqn:Hb.
    - rewrite (fetching_handleSearch_blank _ Hb). unfold Fetching.perform.
      cbn [fst snd Fetching.withState Fetching.nextRequest]. left; auto.
    - rewrite (fetching_handleSearch_text _ Hb). unfold Fetching.perform.
      cbn [fst snd]. apply R; [exact Hb | reflexivity]. }
  destruct ev as [text| |key| |request outcome|request|key];
    cbv zeta; cbn [Fetching.step].
  - left. cbn [fst snd]. split; [reflexivity|].
    unfold Fetching.changeText. now case_bool_decide.
  - destruct (Fetching.searchDisabled _ _); [left; auto | apply S0].
  - unfold Fetching.handleKeyPress. destruct (bool_decide _); [apply S0|].
    left. unfold Fetching.perform. cbn [fst snd]. auto.
  - destruct (Fetching.tryAgainShown w) eqn:Ht; [|left; auto].
    unfold Fetching.perform, Fetching.handleTryAgain. cbn [fst snd].
    rewrite withState_same. apply R; [|reflexivity].
    destruct (tryAgainShown_stored w Ht) as [_ Hq].
    destruct Hc as (A & _). now destruct (A _ _ Hq).
  - left. unfold Fetching.respond.
    destruct (Fetching.inflight w !! request); [|auto].
    cbv zeta. destruct (Fetching.awaitsRequest _ _); [|auto].
    destruct (Fetching.queryFn_resume outcome); [auto|].
    destruct (_ || _); auto.
  - unfold Fetching.retryDelayEnds.
    destruct (Fetching.waits w !! request) as [[key delay]|]; [|left; auto].
    cbv zeta.
    destruct (Fetching.sleepsSince request (Fetching.queryOf w key))
      as [message|] eqn:Hlive; [|left; auto].
    destruct (Fetching.q_retryCancelled _); [left; auto|].
    apply L; [|reflexivity].
    apply sleepsSince_Some in Hlive.
    assert (Hq : Fetching.cache w !! key = Some (Fetching.queryOf w key))
      by (apply queryOf_stored; rewrite Hlive; discriminate).
    destruct Hc as (A & _). now destruct (A _ _ Hq).
  - left. cbn [fst snd]. split; [reflexivity|].
    unfold Fetching.collect. now destruct (_ && _).
Qed.

(** X9. Blank user names never reach the network.  In every run of the
    fetching variant from the initial page, the i-th request asked of the
    network carries the number i and the URL of a non-blank user name, the
    next request number is the number of requests asked so far, and every
    stored query belongs to a non-blank name (so the empty-list shortcut at
    the head of [queryFn] is never taken). *)
Theorem X9_requests_are_numbered_and_named
    (client : Fetching.QueryClient) (evs : list Fetching.Event) :
  let r := Fetching.run client Fetching.start evs in
  Fetching.nextRequest (fst r) = length (snd r)
  /\ (forall i n url, snd r !! i = Some (Fetching.Fetch n url) ->
      n = i /\ exists key, blank key = false /\ url = Fetching.requestUrl key)
  /\ (forall key q, Fetching.cache (fst r) !! key = Some q -> blank key = false).
Proof.
  cbv zeta. split; [|split].
  - induction evs as [|ev evs IHn] using rev_ind; [reflexivity|].
    rewrite run_snoc. cbv zeta. cbn [fst snd]. rewrite length_app.
    destruct (fetching_step_effect client _ ev (consistent_run client evs))
      as [[-> ->] | (key & _ & -> & ->)]; cbn [length]; lia.
  - induction evs as [|ev evs IHe] using rev_ind; [intros i n url H; discriminate|].
    assert (Hn : Fetching.nextRequest (fst (Fetching.run client Fetching.start evs))
                 = length (snd (Fetching.run client Fetching.start evs))).
    { clear IHe. induction evs as [|ev' evs IHn] using rev_ind; [reflexivity|].
      rewrite run_snoc. cbv zeta. cbn [fst snd]. rewrite length_app.
      destruct (fetching_step_effect client _ ev' (consistent_run client evs))
        as [[-> ->] | (key & _ & -> & ->)]; cbn [length]; lia. }
    rewrite run_snoc. cbv zeta. cbn [fst snd].
    intros i n url Hi.
    destruct (fetching_step_effect client _ ev (consistent_run client evs))
      as [[E _] | (key & Hb & E & _)]; rewrite E in Hi.
    + rewrite app_nil_r in Hi. eauto.
    + apply lookup_snoc_Some in Hi as [[_ Hi] | [Hi [= <- <-]]]; [eauto|].
      split; [lia | eauto].
  - intros key q Hq. destruct (consistent_run client evs) as (A & _).
    now destruct (A _ _ Hq).
Qed.

Lemma X9_witness :
  1%nat = 1%nat
  /\ exists key, blank key = false
                 /\ Fetching.requestUrl (lit "octocat") = Fetching.requestUrl key.
Proof.
  refine (proj1 (proj2 (X9_requests_are_numbered_and_named Fetching.queryClient
            [Fetching.Change (lit "octocat"); Fetching.ClickSearch;
             Fetching.Respond 0 (Fetching.HttpResponse 404 []);
             Fetching.RetryDelayEnds 0]))
            1%nat 1%nat (Fetching.requestUrl (lit "octocat")) _).
  vm_compute. reflexivity.
Defined.

(** ** Answers *)

(** X10. When the request that the query of the text in the input awaits
    ends without a response (a transport error), the rejection is a failure
    like a bad status.  The answer itself asks nothing of the network.
    While retries are left and not cancelled the page stays as it was, and
    at the end of the wait the same request is issued again.  Once the
    retries are used up or cancelled, the page shows
    "Error fetching repositories: " followed by the error's message, or by
    "Unknown error" when the message is empty, with the "Try Again"
    button. *)
Theorem X10_transport_error_is_shown
    (host : Host) (client : Fetching.QueryClient) (evs : list Fetching.Event)
    (request : nat) (message : jsstring) :
  let w := fst (Fetching.run client Fetching.start evs) in
  let key := Fetching.username (Fetching.state w) in
  let q := Fetching.currentQuery w in
  let r := Fetching.step client w
             (Fetching.Respond request (Fetching.NetworkError message)) in
  Fetching.q_activity q = Fetching.Awaiting request ->
  snd r = []
  /\ (Fetching.q_retryCancelled q = false ->
      (Fetching.q_failures q < Fetching.retry client)%nat ->
      Fetching.view host (fst r) = Fetching.view host w
      /\ snd (Fetching.step client (fst r) (Fetching.RetryDelayEnds request))
         = [Fetching.Fetch (Fetching.nextRequest w) (Fetching.requestUrl key)])
  /\ (Fetching.q_retryCancelled q = true
      \/ (Fetching.retry client <= Fetching.q_failures q)%nat ->
      results (Fetching.view host (fst r))
      = Some (ErrorPanel
                (lit "Error fetching repositories: "
                 ++ match message with
                    | [] => lit "Unknown error"
                    | _ :: _ => message
                    end)
                (lit "Try Again"))).
Proof.
  intros w key q r Hq.
  destruct (rejected_fetch host client w request
              (Fetching.NetworkError message) message
              (consistent_run client evs) Hq eq_refl) as (A & B & C).
  split; [exact A|]. split.
  - intros Hflag Hlt. destruct (B Hflag Hlt) as (V & _ & _ & (F & _) & _).
    split; [exact V | exact F].
  - intros Hfin. destruct (C Hfin) as (P & _). fold w r in P.
    rewrite P. now destruct message.
Qed.

Lemma X10_witness :
  let evs := [Fetching.Change (lit "octocat"); Fetching.ClickSearch;
              Fetching.Change (lit "octoca"); Fetching.Change (lit "octocat")] in
  let w := fst (Fetching.run Fetching.queryClient Fetching.start evs) in
  results (Fetching.view (fixedOffsetHost 0)
             (fst (Fetching.step Fetching.queryClient w
                     (Fetching.Respond 0 (Fetching.NetworkError [])))))
  = Some (ErrorPanel (lit "Error fetching repositories: Unknown error")
                     (lit "Try Again")).
Proof.
  intros evs w.
  refine (proj2 (proj2 (X10_transport_error_is_shown (fixedOffsetHost 0)
                   Fetching.queryClient evs 0 [] _)) _).
  - vm_compute. reflexivity.
  - left. vm_compute. reflexivity.
Defined.

(** X11. The head of the results after a successful response to the request
    that the query of the text in the input awaits: the avatar is the one of
    the first record's owner, or the placeholder image named after the typed
    text when the list is empty; the heading is the typed text followed by
    "'s Repositories"; the badge counts the records of the response. *)
Theorem X11_header_of_a_successful_search
    (host : Host) (client : Fetching.QueryClient) (evs : list Fetching.Event)
    (request : nat) (status : N) (body : list Fetching.GitHubRepo) :
  let w := fst (Fetching.run client Fetching.start evs) in
  let u := Fetching.username (Fetching.state w) in
  Fetching.q_activity (Fetching.currentQuery w) = Fetching.Awaiting request ->
  Fetching.ok status = true ->
  exists cards placeholder,
    results (Fetching.view host
               (fst (Fetching.step client w
                       (Fetching.Respond request
                          (Fetching.HttpResponse status body)))))
    = Some (RepoSection
              (match body with
               | first :: _ => Fetching.avatar_url (Fetching.owner first)
               | [] => placeholderAvatar u
               end)
              (u ++ lit "'s Repositories")
              (numberToString (N.of_nat (length body)) ++ lit " repositories")
              cards placeholder).
Proof.
  intros w u Hreq Hok.
  destruct (awaiting_known w _ request (consistent_run client evs) Hreq)
    as (_ & Hin & _ & Hs).
  destruct (success_page host client w request status body Hs Hin Hreq Hok)
    as (_ & _ & Hres).
  rewrite Hres. unfold Fetching.avatarSrc. cbn [Fetching.data].
  destruct body; eauto.
Qed.

Lemma X11_witness :
  let evs := [Fetching.Change (lit "octocat"); Fetching.ClickSearch] in
  let w := fst (Fetching.run Fetching.queryClient Fetching.start evs) in
  exists cards placeholder,
    results (Fetching.view (fixedOffsetHost 0)
               (fst (Fetching.step Fetching.queryClient w
                       (Fetching.Respond 0
                          (Fetching.HttpResponse 200
                             [sampleRepo 1 "a" 5; sampleRepo 2 "b" 0])))))
    = Some (RepoSection (lit "https://avatars.example/1")
              (lit "octocat's Repositories") (lit "2 repositories")
              cards placeholder).
Proof.
  intros evs w.
  refine (X11_header_of_a_successful_search (fixedOffsetHost 0)
            Fetching.queryClient evs 0 200
            [sampleRepo 1 "a" 5; sampleRepo 2 "b" 0] _ _);
    vm_compute; reflexivity.
Defined.

(** X12. An answer changes the page only when it is the answer for the text
    in the input: the answer to a request that is not in flight, or that was
    issued for another user name, leaves the page exactly as it was. *)
Theorem X12_foreign_answers_leave_the_page
    (host : Host) (client : Fetching.QueryClient) (w : Fetching.World)
    (request : nat) (o : Fetching.Outcome) :
  Fetching.inflight w !! request
  <> Some (Fetching.username (Fetching.state w)) ->
  Fetching.view host (fst (Fetching.step client w (Fetching.Respond request o)))
  = Fetching.view host w.
Proof.
  intros Hne. cbn [Fetching.step]. unfold Fetching.respond.
  destruct (Fetching.inflight w !! request) as [key|] eqn:Hin; [|reflexivity].
  assert (Hk : key <> Fetching.username (Fetching.state w)) by congruence.
  cbv zeta. destruct (Fetching.awaitsRequest _ _); [|now apply view_ext].
  destruct (Fetching.queryFn_resume o) as [repos|message];
    [|destruct (_ || _)]; apply view_ext;
    cbn [fst Fetching.state Fetching.cache Fetching.sleep Fetching.setQuery
         Fetching.withCache Fetching.answered];
    try reflexivity; now rewrite lookup_insert_ne.
Qed.

Lemma X12_witness :
  let w := fst (Fetching.run Fetching.queryClient Fetching.start
                  [Fetching.Change (lit "a"); Fetching.ClickSearch;
                   Fetching.Change (lit "ab")]) in
  Fetching.view (fixedOffsetHost 0)
    (fst (Fetching.step Fetching.queryClient w
            (Fetching.Respond 0
               (Fetching.HttpResponse 200 [sampleRepo 1 "a" 5]))))
  = Fetching.view (fixedOffsetHost 0) w.
Proof.
  intros w.
  refine (X12_foreign_answers_leave_the_page (fixedOffsetHost 0)
            Fetching.queryClient w 0 _ _).
  vm_compute. discriminate.
Defined.



(** ** A search from start to end *)

Lemma run_cons client w ev evs :
  Fetching.run client w (ev :: evs)
  = (fst (Fetching.run client (fst (Fetching.step client w ev)) evs),
     snd (Fetching.step client w ev)
     ++ snd (Fetching.run client (fst (Fetching.step client w ev)) evs)).
Proof.
  unfold Fetching.run. cbn [foldl fst snd app].
  generalize (snd (Fetching.step client w ev)) as effs.
  generalize (fst (Fetching.step client w ev)) as w0.
  induction evs as [|ev' evs IH]; intros w0 effs.
  - cbn. now rewrite app_nil_r.
  - cbn [foldl fst snd]. rewrite IH. cbn [app].
    rewrite (IH (fst (Fetching.step client w0 ev')) (snd (Fetching.step client w0 ev'))).
    cbn [fst snd]. now rewrite app_assoc.
Qed.

Lemma run_app client w evs1 evs2 :
  Fetching.run client w (evs1 ++ evs2)
  = (fst (Fetching.run client (fst (Fetching.run client w evs1)) evs2),
     snd (Fetching.run client w evs1)
     ++ snd (Fetching.run client (fst (Fetching.run client w evs1)) evs2)).
Proof.
  revert w. induction evs1 as [|ev evs1 IH]; intros w.
  - change (Fetching.run client w []) with (w, @nil Fetching.Effect).
    cbn [fst snd app]. now destruct (Fetching.run client w evs2).
  - cbn [app]. rewrite !run_cons, IH. cbn [fst snd]. now rewrite app_assoc.
Qed.

Lemma blank_not_empty u : blank u = false -> u <> [].
Proof. intros H ->. discriminate. Qed.

Lemma first_search client u :
  blank u = false ->
  Fetching.run client Fetching.start [Fetching.Change u; Fetching.ClickSearch]
  = (awaitingWorld u 0 0, [Fetching.Fetch 0 (Fetching.requestUrl u)]).
Proof.
  intros Hb.
  assert (E0 : Fetching.changeText u Fetching.start
               = {| Fetching.state :=
                      {| Fetching.username := u; Fetching.searched := false |};
                    Fetching.cache := ∅; Fetching.inflight := ∅;
                    Fetching.waits := ∅; Fetching.nextRequest := 0 |}).
  { rewrite changeText_other by (now apply blank_not_empty).
    cbn [Fetching.start Fetching.state Fetching.cache Fetching.initial
         Fetching.username Fetching.searched Fetching.inflight Fetching.waits
         Fetching.nextRequest].
    now rewrite alter_empty. }
  unfold Fetching.run. cbn [foldl fst snd app Fetching.step]. rewrite E0.
  set (w0 := {| Fetching.state := _ |}).
  assert (Hq : Fetching.currentQuery w0 = Fetching.newQuery).
  { unfold Fetching.currentQuery, Fetching.queryOf, w0.
    cbn [Fetching.state Fetching.cache Fetching.username].
    now rewrite lookup_empty. }
  unfold Fetching.searchDisabled, Fetching.observe. rewrite Hq.
  cbn [Fetching.isLoading Fetching.newQuery Fetching.q_activity
       Fetching.isFetching andb orb].
  change (Fetching.username (Fetching.state w0)) with u.
  rewrite truthy_trim, Hb. cbn [negb].
  rewrite fetching_handleSearch_text by exact Hb.
  unfold Fetching.perform. cbn [fst snd].
  unfold Fetching.refetch.
  assert (Hq' : Fetching.currentQuery
                  (Fetching.withState w0
                     {| Fetching.username := Fetching.username (Fetching.state w0);
                        Fetching.searched := true |})
                = Fetching.newQuery).
  { unfold Fetching.currentQuery, Fetching.queryOf, w0.
    cbn [Fetching.withState Fetching.state Fetching.cache Fetching.username].
    now rewrite lookup_empty. }
  rewrite Hq'. cbn [Fetching.newQuery Fetching.q_activity Fetching.q_data].
  rewrite launch_text
    by (cbn [Fetching.withState Fetching.state Fetching.username]; exact Hb).
  unfold awaitingWorld, w0.
  cbn [Fetching.withState Fetching.state Fetching.cache Fetching.inflight
       Fetching.waits Fetching.nextRequest Fetching.username
       Fetching.fetchState Fetching.awaiting Fetching.newQuery
       Fetching.q_data Fetching.q_error Fetching.q_status Fetching.q_activity
       Fetching.q_failures Fetching.q_retryCancelled fst snd].
  rewrite !insert_empty. reflexivity.
Qed.

Lemma awaitingWorld_query u request failures :
  Fetching.queryOf (awaitingWorld u request failures) u
  = {| Fetching.q_data := None; Fetching.q_error := None;
       Fetching.q_status := Fetching.Pending;
       Fetching.q_activity := Fetching.Awaiting request;
       Fetching.q_failures := failures;
       Fetching.q_retryCancelled := false |}.
Proof.
  unfold Fetching.queryOf, awaitingWorld. cbn [Fetching.cache].
  now rewrite lookup_singleton_eq.
Qed.

(** A bad answer while retries are left: the wait, then the next try. *)
Lemma bad_answer_retried client u request failures status :
  blank u = false -> Fetching.ok status = false ->
  (failures < Fetching.retry client)%nat ->
  Fetching.run client (awaitingWorld u request failures)
    [Fetching.Respond request (Fetching.HttpResponse status []);
     Fetching.RetryDelayEnds request]
  = (awaitingWorld u (S request) (S failures),
     [Fetching.Fetch (S request) (Fetching.requestUrl u)]).
Proof.
  intros Hb Hok Hlt.
  set (message := lit "GitHub API error: " ++ numberToString status).
  assert (E1 : Fetching.step client (awaitingWorld u request failures)
                 (Fetching.Respond request (Fetching.HttpResponse status []))
               = (sleepingWorld u request failures message, [])).
  { cbn [Fetching.step].
    rewrite (respond_live client request _ _ u)
      by (first [apply lookup_singleton_eq
                | now rewrite awaitingWorld_query]).
    rewrite queryFn_resume_not_ok by exact Hok.
    rewrite awaitingWorld_query.
    cbn [Fetching.q_retryCancelled Fetching.q_failures orb].
    apply Nat.ltb_lt in Hlt. rewrite Hlt. cbn [negb].
    unfold sleepingWorld, awaitingWorld, Fetching.sleep, Fetching.setQuery,
      Fetching.withCache, Fetching.answered, Fetching.sleeping.
    cbn [Fetching.state Fetching.cache Fetching.inflight Fetching.waits
         Fetching.nextRequest Fetching.q_data Fetching.q_error
         Fetching.q_status Fetching.q_failures Fetching.q_retryCancelled].
    rewrite insert_singleton_eq, delete_singleton_eq, insert_empty.
    reflexivity. }
  assert (Hq : Fetching.queryOf (sleepingWorld u request failures message) u
               = {| Fetching.q_data := None; Fetching.q_error := None;
                    Fetching.q_status := Fetching.Pending;
                    Fetching.q_activity := Fetching.Sleeping request message;
                    Fetching.q_failures := S failures;
                    Fetching.q_retryCancelled := false |}).
  { unfold Fetching.queryOf, sleepingWorld. cbn [Fetching.cache].
    now rewrite lookup_singleton_eq. }
  assert (E2 : Fetching.step client (sleepingWorld u request failures message)
                 (Fetching.RetryDelayEnds request)
               = (awaitingWorld u (S request) (S failures),
                  [Fetching.Fetch (S request) (Fetching.requestUrl u)])).
  { cbn [Fetching.step].
    rewrite (retryDelayEnds_live request _ u (Fetching.retryDelay failures) message)
      by (first [apply lookup_singleton_eq | now rewrite Hq]).
    rewrite Hq. cbn [Fetching.q_retryCancelled].
    rewrite launch_text by exact Hb.
    unfold sleepingWorld, awaitingWorld, Fetching.woken, Fetching.awaiting.
    cbn [Fetching.state Fetching.cache Fetching.inflight Fetching.waits
         Fetching.nextRequest Fetching.q_data Fetching.q_error
         Fetching.q_status Fetching.q_failures Fetching.q_retryCancelled].
    rewrite insert_singleton_eq, delete_singleton_eq, insert_empty.
    reflexivity. }
  rewrite run_cons, E1. cbn [fst snd app].
  rewrite run_cons, E2. reflexivity.
Qed.

(** A bad answer when the retries are used up. *)
Lemma bad_answer_final client u request failures status :
  Fetching.ok status = false ->
  (Fetching.retry client <= failures)%nat ->
  Fetching.run client (awaitingWorld u request failures)
    [Fetching.Respond request (Fetching.HttpResponse status []);
     Fetching.RetryDelayEnds request]
  = (failedWorld u (S request) (S failures)
       (lit "GitHub API error: " ++ numberToString status), []).
Proof.
  intros Hok Hge.
  set (message := lit "GitHub API error: " ++ numberToString status).
  assert (E1 : Fetching.step client (awaitingWorld u request failures)
                 (Fetching.Respond request (Fetching.HttpResponse status []))
               = (failedWorld u (S request) (S failures) message, [])).
  { cbn [Fetching.step].
    rewrite (respond_live client request _ _ u)
      by (first [apply lookup_singleton_eq
                | now rewrite awaitingWorld_query]).
    rewrite queryFn_resume_not_ok by exact Hok.
    rewrite awaitingWorld_query.
    cbn [Fetching.q_retryCancelled Fetching.q_failures orb].
    apply Nat.ltb_ge in Hge. rewrite Hge. cbn [negb].
    unfold failedWorld, awaitingWorld, Fetching.setQuery,
      Fetching.withCache, Fetching.answered, Fetching.giveUp.
    cbn [Fetching.state Fetching.cache Fetching.inflight Fetching.waits
         Fetching.nextRequest Fetching.q_data Fetching.q_error
         Fetching.q_status Fetching.q_failures Fetching.q_retryCancelled].
    rewrite insert_singleton_eq, delete_singleton_eq. reflexivity. }
  rewrite run_cons, E1. cbn [fst snd app].
  rewrite run_cons. cbn [Fetching.step]. unfold Fetching.retryDelayEnds.
  cbn [failedWorld Fetching.waits]. rewrite lookup_empty. reflexivity.
Qed.

(** Bad answers, one per try, until the retries are used up. *)
Lemma bad_answers_until_failed client u statuses :
  blank u = false ->
  Forall (fun status => Fetching.ok status = false) statuses ->
  forall request failures status,
    (failures + length statuses = S (Fetching.retry client))%nat ->
    last statuses = Some status ->
    Fetching.run client (awaitingWorld u request failures)
      (answersFrom request statuses)
    = (failedWorld u (request + length statuses) (S (Fetching.retry client))
         (lit "GitHub API error: " ++ numberToString status),
       map (fun n => Fetching.Fetch n (Fetching.requestUrl u))
           (seq (S request) (length statuses - 1))).
Proof.
  intros Hb Hbad. induction Hbad as [|s rest Hs Hrest IH];
    intros request failures status Hlen Hlast; [discriminate|].
  cbn [answersFrom].
  change (Fetching.Respond request (Fetching.HttpResponse s [])
          :: Fetching.RetryDelayEnds request :: answersFrom (S request) rest)
    with ([Fetching.Respond request (Fetching.HttpResponse s []);
           Fetching.RetryDelayEnds request] ++ answersFrom (S request) rest).
  rewrite run_app.
  destruct rest as [|s' rest'].
  - cbn in Hlast. injection Hlast as ->. cbn [length] in Hlen.
    rewrite bad_answer_final by (try assumption; lia).
    cbn [answersFrom fst snd length]. unfold Fetching.run. cbn [foldl fst snd].
    replace (request + 1)%nat with (S request) by lia.
    replace (S failures) with (S (Fetching.retry client)) by lia.
    reflexivity.
  - cbn [length] in Hlen.
    rewrite bad_answer_retried by (try assumption; lia).
    cbn [fst snd].
    rewrite (IH (S request) (S failures) status) by (cbn [length]; first [lia | exact Hlast]).
    cbn [fst snd length]. f_equal.
    + f_equal. lia.
    + replace (S (S (length rest')) - 1)%nat with (S (S (length rest') - 1)) by lia.
      reflexivity.
Qed.

(** A search whose every try gets a bad status. *)
Lemma failing_search client u statuses status :
  blank u = false ->
  Forall (fun s => Fetching.ok s = false) statuses ->
  length statuses = S (Fetching.retry client) ->
  last statuses = Some status ->
  Fetching.run client Fetching.start
    ([Fetching.Change u; Fetching.ClickSearch] ++ answersFrom 0 statuses)
  = (failedWorld u (S (Fetching.retry client)) (S (Fetching.retry client))
       (lit "GitHub API error: " ++ numberToString status),
     map (fun n => Fetching.Fetch n (Fetching.requestUrl u))
         (seq 0 (S (Fetching.retry client)))).
Proof.
  intros Hb Hbad Hlen Hlast.
  rewrite run_app, first_search by exact Hb. cbn [fst snd].
  rewrite (bad_answers_until_failed client u statuses Hb Hbad 0 0 status)
    by (first [lia | exact Hlast]).
  cbn [fst snd]. rewrite Hlen. cbn [Nat.add]. f_equal.
  replace (S (Fetching.retry client) - 1)%nat with (Fetching.retry client) by lia.
  reflexivity.
Qed.

Lemma failedWorld_query u next failures message :
  Fetching.currentQuery (failedWorld u next failures message)
  = {| Fetching.q_data := None; Fetching.q_error := Some message;
       Fetching.q_status := Fetching.Failed;
       Fetching.q_activity := Fetching.Idle;
       Fetching.q_failures := failures;
       Fetching.q_retryCancelled := false |}.
Proof.
  apply currentQuery_stored. apply lookup_singleton_eq.
Qed.

Lemma try_again_from_failed client u next failures message :
  blank u = false ->
  Fetching.step client (failedWorld u next failures message) Fetching.ClickTryAgain
  = (awaitingWorld u next 0, [Fetching.Fetch next (Fetching.requestUrl u)]).
Proof.
  intros Hb.
  destruct (failed_page (fixedOffsetHost 0) (failedWorld u next failures message)
              message) as [_ Hshown];
    rewrite ?failedWorld_query; try reflexivity.
  rewrite (try_again_refetches client _ Hshown)
    by (rewrite ?failedWorld_query; first [reflexivity | exact Hb]).
  rewrite failedWorld_query. unfold awaitingWorld, failedWorld.
  cbn [Fetching.state Fetching.cache Fetching.inflight Fetching.waits
       Fetching.nextRequest Fetching.username
       Fetching.fetchState Fetching.awaiting Fetching.q_data Fetching.q_error
       Fetching.q_status Fetching.q_activity Fetching.q_failures
       Fetching.q_retryCancelled].
  rewrite insert_singleton_eq, insert_empty. reflexivity.
Qed.

(** X14. A search that keeps getting bad statuses is tried [retry + 1]
    times in all (four times with the client of the source), each time with
    the same URL; then no request is left in flight and the page shows the
    error message with the status code of the last answer and the
    "Try Again" button. *)
Theorem X14_failing_search_is_tried_retry_plus_one_times
    (host : Host) (client : Fetching.QueryClient) (u : jsstring)
    (statuses : list N) (status : N) :
  blank u = false ->
  Forall (fun s => Fetching.ok s = false) statuses ->
  length statuses = S (Fetching.retry client) ->
  last statuses = Some status ->
  let r := Fetching.run client Fetching.start
             ([Fetching.Change u; Fetching.ClickSearch]
              ++ answersFrom 0 statuses) in
  snd r = map (fun n => Fetching.Fetch n (Fetching.requestUrl u))
              (seq 0 (S (Fetching.retry client)))
  /\ Fetching.inflight (fst r) = ∅
  /\ results (Fetching.view host (fst r))
     = Some (ErrorPanel
               (lit "Error fetching repositories: GitHub API error: "
                ++ numberToString status)
               (lit "Try Again")).
Proof.
  intros Hb Hbad Hlen Hlast r. unfold r.
  rewrite (failing_search client u statuses status Hb Hbad Hlen Hlast).
  cbn [fst snd]. split; [reflexivity|]. split; [reflexivity|].
  destruct (failed_page host
              (failedWorld u (S (Fetching.retry client))
                 (S (Fetching.retry client))
                 (lit "GitHub API error: " ++ numberToString status))
              (lit "GitHub API error: " ++ numberToString status)) as [P _];
    rewrite ?failedWorld_query; try reflexivity.
  rewrite P. reflexivity.
Qed.

Lemma X14_witness :
  let r := Fetching.run Fetching.queryClient Fetching.start
             ([Fetching.Change (lit "octocat"); Fetching.ClickSearch]
              ++ answersFrom 0 [500; 502; 503; 404]%N) in
  snd r = map (fun n => Fetching.Fetch n (Fetching.requestUrl (lit "octocat")))
              [0; 1; 2; 3]%nat
  /\ Fetching.inflight (fst r) = ∅
  /\ results (Fetching.view (fixedOffsetHost 0) (fst r))
     = Some (ErrorPanel
               (lit "Error fetching repositories: GitHub API error: 404")
               (lit "Try Again")).
Proof.
  refine (X14_failing_search_is_tried_retry_plus_one_times (fixedOffsetHost 0)
            Fetching.queryClient (lit "octocat") [500; 502; 503; 404]%N 404%N
            eq_refl _ eq_refl eq_refl).
  repeat constructor.
Defined.

(** X15. After such a failed search, "Try Again" issues the same request
    once more and brings the spinner back; a good answer to it then shows
    the cards of the answer, in order, with no error left and nothing in
    flight. *)
Theorem X15_try_again_then_success
    (host : Host) (client : Fetching.QueryClient) (u : jsstring)
    (statuses : list N) (last_status status : N)
    (body : list Fetching.GitHubRepo) :
  blank u = false ->
  Forall (fun s => Fetching.ok s = false) statuses ->
  length statuses = S (Fetching.retry client) ->
  last statuses = Some last_status ->
  Fetching.ok status = true ->
  let w := fst (Fetching.run client Fetching.start
                  ([Fetching.Change u; Fetching.ClickSearch]
                   ++ answersFrom 0 statuses)) in
  let next := S (Fetching.retry client) in
  let r1 := Fetching.step client w Fetching.ClickTryAgain in
  let r2 := Fetching.step client (fst r1)
              (Fetching.Respond next (Fetching.HttpResponse status body)) in
  snd r1 = [Fetching.Fetch next (Fetching.requestUrl u)]
  /\ results (Fetching.view host (fst r1)) = Some Spinner
  /\ snd r2 = []
  /\ cardsOf (Fetching.view host (fst r2)) = map (Fetching.renderCard host) body
  /\ Fetching.isError (Fetching.observe (fst r2)) = false
  /\ Fetching.inflight (fst r2) = ∅.
Proof.
  intros Hb Hbad Hlen Hlast Hok w next r1 r2.
  assert (Hw : w = failedWorld u next next
                     (lit "GitHub API error: " ++ numberToString last_status)).
  { unfold w. now rewrite (failing_search client u statuses last_status). }
  assert (H1 : r1 = (awaitingWorld u next 0,
                     [Fetching.Fetch next (Fetching.requestUrl u)])).
  { unfold r1. rewrite Hw. now apply try_again_from_failed. }
  assert (Hq : Fetching.currentQuery (awaitingWorld u next 0)
               = {| Fetching.q_data := None; Fetching.q_error := None;
                    Fetching.q_status := Fetching.Pending;
                    Fetching.q_activity := Fetching.Awaiting next;
                    Fetching.q_failures := 0;
                    Fetching.q_retryCancelled := false |})
    by apply awaitingWorld_query.
  assert (Hin : Fetching.inflight (awaitingWorld u next 0) !! next = Some u)
    by apply lookup_singleton_eq.
  destruct (success_page host client (awaitingWorld u next 0) next status body
              eq_refl Hin ltac:(now rewrite Hq) Hok) as (E & Hobs & Hres).
  unfold r2. rewrite H1. cbn [fst snd].
  split; [reflexivity|]. split.
  - unfold Fetching.view, Fetching.render, Fetching.observe. rewrite Hq.
    reflexivity.
  - split; [now rewrite E|]. split; [|split].
    + unfold cardsOf. now rewrite Hres.
    + now rewrite Hobs.
    + rewrite E. cbn [fst Fetching.setQuery Fetching.withCache
                      Fetching.answered Fetching.inflight awaitingWorld].
      apply delete_singleton_eq.
Qed.

Lemma X15_witness :
  let w := fst (Fetching.run Fetching.queryClient Fetching.start
                  ([Fetching.Change (lit "octocat"); Fetching.ClickSearch]
                   ++ answersFrom 0 [500; 502; 503; 404]%N)) in
  let r1 := Fetching.step Fetching.queryClient w Fetching.ClickTryAgain in
  let r2 := Fetching.step Fetching.queryClient (fst r1)
              (Fetching.Respond 4
                 (Fetching.HttpResponse 200 [sampleRepo 1 "a" 5])) in
  snd r1 = [Fetching.Fetch 4 (Fetching.requestUrl (lit "octocat"))]
  /\ results (Fetching.view (fixedOffsetHost 0) (fst r1)) = Some Spinner
  /\ snd r2 = []
  /\ cardsOf (Fetching.view (fixedOffsetHost 0) (fst r2))
     = map (Fetching.renderCard (fixedOffsetHost 0)) [sampleRepo 1 "a" 5]
  /\ Fetching.isError (Fetching.observe (fst r2)) = false
  /\ Fetching.inflight (fst r2) = ∅.
Proof.
  refine (X15_try_again_then_success (fixedOffsetHost 0) Fetching.queryClient
            (lit "octocat") [500; 502; 503; 404]%N 404%N 200%N
            [sampleRepo 1 "a" 5] eq_refl _ eq_refl eq_refl eq_refl).
  repeat constructor.
Defined.

(** ** More on cards *)

Lemma languageColors_lookup_fetching l c :
  (l, c) ∈ Fetching.languageColorEntries ->
  Fetching.languageColors !! l = Some c /\ l <> [] /\ c <> [].
Proof.
  intros H. unfold Fetching.languageColorEntries in H.
  repeat (apply elem_of_cons in H as [H|H];
          [injection H as -> ->; repeat split; (reflexivity || discriminate)|]).
  now apply elem_of_nil in H.
Qed.

Lemma languageColors_lookup_static l c :
  (l, c) ∈ Static.languageColorEntries ->
  Static.languageColors !! l = Some c /\ l <> [] /\ c <> [].
Proof.
  intros H. unfold Static.languageColorEntries in H.
  repeat (apply elem_of_cons in H as [H|H];
          [injection H as -> ->; repeat split; (reflexivity || discriminate)|]).
  now apply elem_of_nil in H.
Qed.

(** X16. The language dot of a card.  A record without language ([null] or
    the empty string) gets no dot.  A language listed in the variant's
    colour table gets the dot of the listed colour, with the language name
    beside it; any other language that is not the name of a member of
    [Object.prototype] gets the grey dot "bg-gray-400". *)
Theorem X16_language_dot
    (host : Host) (repo : Fetching.GitHubRepo) (repo' : Static.Repo) :
  let dot := languageIndicator (Fetching.renderCard host repo) in
  let dot' := languageIndicator (Static.renderCard host repo') in
  (Fetching.language repo = None \/ Fetching.language repo = Some [] ->
   dot = None)
  /\ (forall l c, Fetching.language repo = Some l ->
      (l, c) ∈ Fetching.languageColorEntries -> dot = Some (Str c, l))
  /\ (forall l, Fetching.language repo = Some l -> l <> [] ->
      l ∉ map fst Fetching.languageColorEntries ->
      l ∉ objectPrototypeKeys ->
      dot = Some (Str (lit "bg-gray-400"), l))
  /\ (Static.language repo' = [] -> dot' = None)
  /\ (forall c, (Static.language repo', c) ∈ Static.languageColorEntries ->
      dot' = Some (Str c, Static.language repo'))
  /\ (Static.language repo' <> [] ->
      Static.language repo' ∉ map fst Static.languageColorEntries ->
      Static.language repo' ∉ objectPrototypeKeys ->
      dot' = Some (Str (lit "bg-gray-400"), Static.language repo')).
Proof.
  cbv zeta. unfold Fetching.renderCard, Static.renderCard.
  cbn [languageIndicator].
  split; [|split; [|split; [|split; [|split]]]].
  - intros [-> | ->]; reflexivity.
  - intros l c -> Hin.
    destruct (languageColors_lookup_fetching l c Hin) as (Hl & Hne & Hc).
    rewrite (languageColor_own _ _ _ Hl Hc). now destruct l.
  - intros l -> Hne Hout Hproto.
    rewrite languageColor_fallback; [now destruct l | | exact Hproto].
    now apply not_elem_of_list_to_map_1.
  - intros ->. reflexivity.
  - intros c Hin.
    destruct (languageColors_lookup_static _ c Hin) as (Hl & Hne & Hc).
    rewrite (languageColor_own _ _ _ Hl Hc).
    now destruct (Static.language repo').
  - intros Hne Hout Hproto.
    rewrite languageColor_fallback;
      [now destruct (Static.language repo') | | exact Hproto].
    now apply not_elem_of_list_to_map_1.
Qed.

Lemma X16_witness :
  languageIndicator (Fetching.renderCard (fixedOffsetHost 0) (sampleRepo 1 "a" 5))
  = Some (Str (lit "bg-cyan-500"), lit "Go").
Proof.
  refine (proj1 (proj2 (X16_language_dot (fixedOffsetHost 0)
                          (sampleRepo 1 "a" 5)
                          {| Static.id := 7; Static.name := lit "x";
                             Static.description := lit "d";
                             Static.language := lit "Zig";
                             Static.stars := 1; Static.forks := 0;
                             Static.updated := lit "2024-01-15";
                             Static.url := lit "u"; Static.topics := [] |}))
            (lit "Go") (lit "bg-cyan-500") eq_refl _).
  unfold Fetching.languageColorEntries. set_solver.
Defined.

(** X17. The date line of a card of the static variant, whose records carry
    date-only texts [YYYY-MM-DD]: such a text is read as midnight UTC and
    drawn as the local calendar date, so with a local time at or ahead of UTC
    the six fixed cards read "Updated Jan 15, 2024" down to
    "Updated Jan 3, 2024", and with a local time behind UTC each reads one
    day earlier. *)
Theorem X17_static_card_dates (host : Host) :
  (forall repo y mo d,
     Static.updated repo = isoDate y mo d ->
     1 <= y <= 9999 -> 1 <= mo <= 12 -> 1 <= d <= 31 ->
     let shift := LocalTZA host (utcTime y mo d 0 0 0) / DateTime.msPerDay in
     1 <= d + shift <= DaysInMonth y (mo - 1) ->
     updatedText (Static.renderCard host repo)
     = lit "Updated " ++ shortDate y mo (d + shift))
  /\ ((forall t, 0 <= LocalTZA host t < DateTime.msPerDay) ->
      map updatedText (map (Static.renderCard host) Static.dummyRepos)
      = map lit ["Updated Jan 15, 2024"; "Updated Jan 12, 2024";
                 "Updated Jan 10, 2024"; "Updated Jan 8, 2024";
                 "Updated Jan 5, 2024"; "Updated Jan 3, 2024"]%string)
  /\ ((forall t, - DateTime.msPerDay <= LocalTZA host t < 0) ->
      map updatedText (map (Static.renderCard host) Static.dummyRepos)
      = map lit ["Updated Jan 14, 2024"; "Updated Jan 11, 2024";
                 "Updated Jan 9, 2024"; "Updated Jan 7, 2024";
                 "Updated Jan 4, 2024"; "Updated Jan 2, 2024"]%string).
Proof.
  assert (G : forall repo y mo d,
     Static.updated repo = isoDate y mo d ->
     1 <= y <= 9999 -> 1 <= mo <= 12 -> 1 <= d <= 31 ->
     let shift := LocalTZA host (utcTime y mo d 0 0 0) / DateTime.msPerDay in
     1 <= d + shift <= DaysInMonth y (mo - 1) ->
     updatedText (Static.renderCard host repo)
     = lit "Updated " ++ shortDate y mo (d + shift)).
  { intros repo y mo d Hu Hy Hmo Hd shift Hshift.
    unfold Static.renderCard. cbn [updatedText]. rewrite Hu.
    now rewrite formatDate_date. }
  split; [exact G|].
  assert (D : forall d shift,
             1 <= d <= 31 -> 1 <= d + shift <= 31 ->
             LocalTZA host (utcTime 2024 1 d 0 0 0) / DateTime.msPerDay = shift ->
             forall repo, Static.updated repo = isoDate 2024 1 d ->
             updatedText (Static.renderCard host repo)
             = lit "Updated " ++ shortDate 2024 1 (d + shift)).
  { intros d shift Hd Hs Hq repo Hu.
    assert (Hr : 1 <= d + LocalTZA host (utcTime 2024 1 d 0 0 0) / DateTime.msPerDay
                 <= DaysInMonth 2024 (1 - 1))
      by (rewrite Hq; change (DaysInMonth 2024 (1 - 1)) with 31; exact Hs).
    rewrite (G repo 2024 1 d Hu ltac:(lia) ltac:(lia) Hd Hr). now rewrite Hq. }
  split; intros Htz.
  - assert (Q : forall t, LocalTZA host t / DateTime.msPerDay = 0)
      by (intros t; apply Z.div_small, Htz).
    unfold Static.dummyRepos. cbn [map].
    rewrite (D 15 0), (D 12 0), (D 10 0), (D 8 0), (D 5 0), (D 3 0)
      by (first [lia | apply Q | reflexivity]).
    reflexivity.
  - assert (Q : forall t, LocalTZA host t / DateTime.msPerDay = -1).
    { intros t. specialize (Htz t). unfold DateTime.msPerDay in *.
      symmetry. apply (Z.div_unique _ 86400000 (-1) (LocalTZA host t + 86400000)); lia. }
    unfold Static.dummyRepos. cbn [map].
    rewrite (D 15 (-1)), (D 12 (-1)), (D 10 (-1)), (D 8 (-1)), (D 5 (-1)),
      (D 3 (-1)) by (first [lia | apply Q | reflexivity]).
    reflexivity.
Qed.

Lemma X17_witness :
  map updatedText (map (Static.renderCard (fixedOffsetHost 120)) Static.dummyRepos)
  = map lit ["Updated Jan 15, 2024"; "Updated Jan 12, 2024";
             "Updated Jan 10, 2024"; "Updated Jan 8, 2024";
             "Updated Jan 5, 2024"; "Updated Jan 3, 2024"]%string.
Proof.
  refine (proj1 (proj2 (X17_static_card_dates (fixedOffsetHost 120))) _).
  intros t. unfold DateTime.msPerDay. cbn. lia.
Defined.
